(** * Tool-calling emulation of uniai (tool_emulation.go)

    A shallow embedding of the emulation layer: the decision parser
    ([extractJSONPayload], [parseToolDecision]), the request builders
    ([buildToolDecisionRequest], [buildFinalRequest], [cloneChatRequest]) and
    the orchestrator ([chatWithToolEmulation]).

    Go strings are byte sequences: they are modelled by [string] (a list of
    8-bit [ascii] characters).  The standard-library functions the code calls
    ([strings.TrimSpace], [strings.SplitN], [json.Valid], [json.Unmarshal],
    ...) are modelled in the modules [GoStrings] and [GoJSON]. *)

From Stdlib Require Import ZArith NArith Ascii String List Bool Lia.
From stdpp Require Import base tactics option list strings gmap fin_maps pretty.

Import ListNotations.
Local Open Scope string_scope.
Local Open Scope Z_scope.

(* ===================================================================== *)
(** ** Bytes *)
(* ===================================================================== *)

Module Bytes.

Definition code (c : ascii) : N := N_of_ascii c.

Definition byte (n : N) : ascii := ascii_of_N n.

Definition in_range (lo hi : N) (c : ascii) : bool :=
  ((lo <=? code c) && (code c <=? hi))%N.

Definition is_digit (c : ascii) : bool := in_range 48 57 c.

Definition is_digit19 (c : ascii) : bool := in_range 49 57 c.

Definition is_hex (c : ascii) : bool :=
  is_digit c || in_range 97 102 c || in_range 65 70 c.

Definition hex_val (c : ascii) : N :=
  (if is_digit c then code c - 48
   else if in_range 97 102 c then code c - 87
   else code c - 55)%N.

Definition is_cont (c : ascii) : bool := in_range 128 191 c.

Fixpoint of_codes (l : list N) : string :=
  match l with
  | [] => EmptyString
  | n :: l' => String (byte n) (of_codes l')
  end.

Fixpoint rev_append (s acc : string) : string :=
  match s with
  | EmptyString => acc
  | String c s' => rev_append s' (String c acc)
  end.

Definition rev (s : string) : string := rev_append s EmptyString.

(** JSON texts are written with an apostrophe where the text has a double
    quote: [json_text] puts the double quotes in. *)
Fixpoint json_text (s : string) : string :=
  match s with
  | EmptyString => EmptyString
  | String c s' =>
      String (if (code c =? 39)%N then byte 34 else c) (json_text s')
  end.

(** Whether every byte of [s] is a decimal digit. *)
Fixpoint all_digits (s : string) : bool :=
  match s with
  | EmptyString => true
  | String c s' => is_digit c && all_digits s'
  end.

End Bytes.

(* ===================================================================== *)
(** ** The functions of package [strings] used by the parser *)
(* ===================================================================== *)

Module GoStrings.
Import Bytes.

(** [strings.HasPrefix]. *)
Fixpoint HasPrefix (s p : string) : bool :=
  match p, s with
  | EmptyString, _ => true
  | String _ _, EmptyString => false
  | String b p', String a s' => Ascii.eqb a b && HasPrefix s' p'
  end.

Fixpoint drop_bytes (n : nat) (s : string) : string :=
  match n, s with
  | O, _ => s
  | S _, EmptyString => EmptyString
  | S n', String _ s' => drop_bytes n' s'
  end.

Fixpoint take_bytes (n : nat) (s : string) : string :=
  match n, s with
  | O, _ => EmptyString
  | S _, EmptyString => EmptyString
  | S n', String c s' => String c (take_bytes n' s')
  end.

(** [strings.TrimPrefix]. *)
Definition TrimPrefix (s p : string) : string :=
  if HasPrefix s p then drop_bytes (String.length p) s else s.

(** [strings.Index]: the byte offset of the first occurrence of [sub],
    or [-1]. *)
Fixpoint Index (s sub : string) : Z :=
  if HasPrefix s sub then 0
  else match s with
       | EmptyString => -1
       | String _ s' =>
           match Index s' sub with
           | Zneg _ => -1
           | i => i + 1
           end
       end.

(** [strings.LastIndex]: the byte offset of the last occurrence, or [-1]. *)
Fixpoint LastIndex (s sub : string) : Z :=
  match s with
  | EmptyString => if HasPrefix s sub then 0 else -1
  | String _ s' =>
      match LastIndex s' sub with
      | Zneg _ => if HasPrefix s sub then 0 else -1
      | i => i + 1
      end
  end.

(** The slice expression [s[lo:hi]] for [0 <= lo <= hi <= len(s)]. *)
Definition substr (s : string) (lo hi : Z) : string :=
  take_bytes (Z.to_nat (hi - lo)) (drop_bytes (Z.to_nat lo) s).

(** [strings.SplitN(s, sep, n)] for a non-empty [sep] and [n > 0]: at most
    [n] pieces, the last one holding the unsplit remainder. *)
Fixpoint SplitN (s sep : string) (n : nat) : list string :=
  match n with
  | O => []
  | S O => [s]
  | S n' =>
      match Index s sep with
      | Zneg _ => [s]
      | m => take_bytes (Z.to_nat m) s
               :: SplitN (drop_bytes (Z.to_nat m + String.length sep) s) sep n'
      end
  end.

(** White space in the sense of [unicode.IsSpace]: the ASCII characters
    tab, line feed, vertical tab, form feed, carriage return and space, and
    the UTF-8 encodings of U+0085, U+00A0, U+1680, U+2000..U+200A, U+2028,
    U+2029, U+202F, U+205F and U+3000.  [space_prefix s] is the number of
    bytes of the white-space rune [s] starts with ([0] when it starts with
    none). *)
Definition ascii_space (c : ascii) : bool :=
  in_range 9 13 c || (code c =? 32)%N.

Definition space_prefix (s : string) : nat :=
  match s with
  | EmptyString => 0
  | String a r =>
      if ascii_space a then 1
      else match r with
           | EmptyString => 0
           | String b r' =>
               match code a, code b with
               | 194%N, 133%N | 194%N, 160%N => 2
               | _, _ =>
                   match r' with
                   | EmptyString => 0
                   | String c _ =>
                       match code a, code b with
                       | 225%N, 154%N => if (code c =? 128)%N then 3 else 0
                       | 226%N, 128%N =>
                           if in_range 128 138 c || (code c =? 168)%N
                              || (code c =? 169)%N || (code c =? 175)%N
                           then 3 else 0
                       | 226%N, 129%N => if (code c =? 159)%N then 3 else 0
                       | 227%N, 128%N => if (code c =? 128)%N then 3 else 0
                       | _, _ => 0
                       end
                   end
               end
           end
  end%nat.

(** The same for the rune [s] ends with, on the reversed string. *)
Definition space_suffix_rev (r : string) : nat :=
  match r with
  | EmptyString => 0
  | String c r1 =>
      if ascii_space c then 1
      else match r1 with
           | EmptyString => 0
           | String b r2 =>
               match r2 with
               | String a _ =>
                   if (space_prefix (of_codes [code a; code b; code c]) =? 3)%nat
                   then 3
                   else if (space_prefix (of_codes [code b; code c]) =? 2)%nat
                        then 2 else 0
               | EmptyString =>
                   if (space_prefix (of_codes [code b; code c]) =? 2)%nat
                   then 2 else 0
               end
           end
  end%nat.

Fixpoint trim_with (f : string -> nat) (fuel : nat) (s : string) : string :=
  match fuel with
  | O => s
  | S fuel' =>
      match f s with
      | O => s
      | n => trim_with f fuel' (drop_bytes n s)
      end
  end.

Definition TrimLeft (s : string) : string :=
  trim_with space_prefix (String.length s) s.

Definition TrimRight (s : string) : string :=
  rev (trim_with space_suffix_rev (String.length s) (rev s)).

(** [strings.TrimSpace]. *)
Definition TrimSpace (s : string) : string := TrimRight (TrimLeft s).

End GoStrings.

(* ===================================================================== *)
(** ** The functions of package [encoding/json] used by the parser *)
(* ===================================================================== *)

Module GoJSON.
Import Bytes GoStrings.

(** The outcome of scanning a prefix of the input: the scanned item and the
    rest of the input, a syntax error, or recursion fuel exhausted (which
    [scan_total] below excludes for the fuel [Valid] uses). *)
Inductive scan (A : Type) : Type :=
| OutOfFuel
| SyntaxError
| Scanned (a : A) (rest : string).
Arguments OutOfFuel {A}.
Arguments SyntaxError {A}.
Arguments Scanned {A} a rest.

(** A member of an object: the key as written (with its quotes) and the
    exact text of the value. *)
Definition member : Type := string * string.

(** [isSpace] of the scanner. *)
Definition isSpace (c : ascii) : bool :=
  ((code c =? 32) || (code c =? 9) || (code c =? 13) || (code c =? 10))%N.

Fixpoint skip_ws (s : string) : string :=
  match s with
  | String c r => if isSpace c then skip_ws r else s
  | EmptyString => s
  end.

(** The text of [s] before its suffix [rest]. *)
Definition consumed (s rest : string) : string :=
  take_bytes (String.length s - String.length rest) s.

(** The rest of [s] after its first character, when that is the byte [n]. *)
Definition expect (n : N) (s : string) : option string :=
  match s with
  | String c r => if (code c =? n)%N then Some r else None
  | EmptyString => None
  end.

Definition is_simple_escape (e : ascii) : bool :=
  let n := code e in
  ((n =? 98) || (n =? 102) || (n =? 110) || (n =? 114) || (n =? 116)
   || (n =? 92) || (n =? 47) || (n =? 34))%N.

(** The body of a string literal, after its opening quote. *)
Fixpoint string_body (s : string) : option string :=
  match s with
  | EmptyString => None
  | String c r =>
      if (code c =? 34)%N then Some r
      else if (code c =? 92)%N then
        match r with
        | EmptyString => None
        | String e r' =>
            if is_simple_escape e then string_body r'
            else if (code e =? 117)%N then
              match r' with
              | String h1 (String h2 (String h3 (String h4 r''))) =>
                  if is_hex h1 && is_hex h2 && is_hex h3 && is_hex h4
                  then string_body r'' else None
              | _ => None
              end
            else None
        end
      else if (code c <? 32)%N then None
      else string_body r
  end.

Fixpoint digits (s : string) : string :=
  match s with
  | String c r => if is_digit c then digits r else s
  | EmptyString => s
  end.

(** A number: an optional minus sign; an integer part that is a single
    zero or a non-zero digit followed by digits; an optional fraction (a dot
    and at least one digit); an optional exponent (e or E, an optional sign
    and at least one digit). *)
Definition number_int (s : string) : option string :=
  match s with
  | String c r =>
      if (code c =? 48)%N then Some r
      else if is_digit19 c then Some (digits r)
      else None
  | EmptyString => None
  end.

Definition number_frac (s : string) : option string :=
  match s with
  | String c r =>
      if (code c =? 46)%N then
        match r with
        | String d r' => if is_digit d then Some (digits r') else None
        | EmptyString => None
        end
      else Some s
  | EmptyString => Some s
  end.

Definition number_exp_digits (s : string) : option string :=
  match s with
  | String d r => if is_digit d then Some (digits r) else None
  | EmptyString => None
  end.

Definition number_exp (s : string) : option string :=
  match s with
  | String c r =>
      if (code c =? 101)%N || (code c =? 69)%N then
        match r with
        | String sg r' =>
            if (code sg =? 43)%N || (code sg =? 45)%N
            then number_exp_digits r' else number_exp_digits r
        | EmptyString => None
        end
      else Some s
  | EmptyString => Some s
  end.

Definition number (s : string) : option string :=
  let s1 := match s with
            | String c r => if (code c =? 45)%N then r else s
            | EmptyString => s
            end in
  match number_int s1 with
  | Some r1 =>
      match number_frac r1 with
      | Some r2 => number_exp r2
      | None => None
      end
  | None => None
  end.

Definition keyword (lit s : string) : scan unit :=
  if HasPrefix s lit then Scanned tt (drop_bytes (String.length lit) s)
  else SyntaxError.

Definition of_option (o : option string) : scan unit :=
  match o with
  | Some r => Scanned tt r
  | None => SyntaxError
  end.

(** The scanner's nesting limit, 10000. *)
Definition maxNestingDepth : nat := 100 * 100.

(** One value at the start of [s] (white space already skipped), nested
    [depth] levels deep.  [members] scans the members of an object from its
    first key on, [elements] the elements of an array from its first
    element on. *)
Fixpoint value (fuel depth : nat) (s : string) : scan unit :=
  match fuel with
  | O => OutOfFuel
  | S f =>
      match s with
      | EmptyString => SyntaxError
      | String c r =>
          if (code c =? 123)%N then
            if (S depth <=? maxNestingDepth)%nat then
              match expect 125 (skip_ws r) with
              | Some r' => Scanned tt r'
              | None =>
                  match members f (S depth) (skip_ws r) with
                  | Scanned _ r' => Scanned tt r'
                  | SyntaxError => SyntaxError
                  | OutOfFuel => OutOfFuel
                  end
              end
            else SyntaxError
          else if (code c =? 91)%N then
            if (S depth <=? maxNestingDepth)%nat then
              match expect 93 (skip_ws r) with
              | Some r' => Scanned tt r'
              | None => elements f (S depth) (skip_ws r)
              end
            else SyntaxError
          else if (code c =? 34)%N then of_option (string_body r)
          else if (code c =? 116)%N then keyword "true" s
          else if (code c =? 102)%N then keyword "false" s
          else if (code c =? 110)%N then keyword "null" s
          else if is_digit c || (code c =? 45)%N then of_option (number s)
          else SyntaxError
      end
  end
with members (fuel depth : nat) (s : string) : scan (list member) :=
  match fuel with
  | O => OutOfFuel
  | S f =>
      match expect 34 s with
      | None => SyntaxError
      | Some r =>
          match string_body r with
          | None => SyntaxError
          | Some r1 =>
              match expect 58 (skip_ws r1) with
              | None => SyntaxError
              | Some r2 =>
                  let v := skip_ws r2 in
                  match value f depth v with
                  | OutOfFuel => OutOfFuel
                  | SyntaxError => SyntaxError
                  | Scanned _ r3 =>
                      let m := (consumed s r1, consumed v r3) in
                      match expect 44 (skip_ws r3) with
                      | Some r4 =>
                          match members f depth (skip_ws r4) with
                          | Scanned ms r5 => Scanned (m :: ms) r5
                          | e => e
                          end
                      | None =>
                          match expect 125 (skip_ws r3) with
                          | Some r4 => Scanned [m] r4
                          | None => SyntaxError
                          end
                      end
                  end
              end
          end
      end
  end
with elements (fuel depth : nat) (s : string) : scan unit :=
  match fuel with
  | O => OutOfFuel
  | S f =>
      match value f depth s with
      | OutOfFuel => OutOfFuel
      | SyntaxError => SyntaxError
      | Scanned _ r1 =>
          match expect 44 (skip_ws r1) with
          | Some r2 => elements f depth (skip_ws r2)
          | None =>
              match expect 93 (skip_ws r1) with
              | Some r2 => Scanned tt r2
              | None => SyntaxError
              end
          end
      end
  end.

(** The members of an object, from just after its opening brace. *)
Definition object (fuel depth : nat) (r : string) : scan (list member) :=
  match expect 125 (skip_ws r) with
  | Some r' => Scanned [] r'
  | None => members fuel depth (skip_ws r)
  end.

(** A scan of [s] that did not run out of fuel and that, when it found its
    item, left a rest shorter than [s]. *)
Definition settled {A} (res : scan A) (s : string) : Prop :=
  res <> OutOfFuel
  /\ forall a r, res = Scanned a r -> (String.length r < String.length s)%nat.

(** Recursion fuel that suffices for the input [data] (see [scan_total]
    below). *)
Definition fuel_for (data : string) : nat := 2 * String.length data + 2.

(** [json.Valid]: exactly one value, surrounded by optional white space. *)
Definition Valid (data : string) : bool :=
  match value (fuel_for data) 0 (skip_ws data) with
  | Scanned _ rest =>
      match skip_ws rest with
      | EmptyString => true
      | _ => false
      end
  | _ => false
  end.

(** *** Decoding *)

(** [utf8.EncodeRune] for a rune that is not a surrogate. *)
Definition encode_rune (r : N) : string :=
  (if r <? 128 then of_codes [r]
   else if r <? 2048 then of_codes [192 + r / 64; 128 + r mod 64]
   else if r <? 65536 then
     of_codes [224 + r / 4096; 128 + (r / 64) mod 64; 128 + r mod 64]
   else
     of_codes [240 + r / 262144; 128 + (r / 4096) mod 64;
               128 + (r / 64) mod 64; 128 + r mod 64])%N.

(** U+FFFD, which replaces what does not decode. *)
Definition replacement : string := encode_rune 65533.

(** The number of bytes of the well-formed UTF-8 encoding of a rune beyond
    ASCII that [s] starts with, or [0] when there is none
    ([utf8.DecodeRune] then yields [RuneError] of size one). *)
Definition utf8_size (s : string) : nat :=
  match s with
  | String a (String b r) =>
      let two := in_range 194 223 a && is_cont b in
      let three1 :=
        ((code a =? 224)%N && in_range 160 191 b)
        || (in_range 225 236 a && is_cont b)
        || ((code a =? 237)%N && in_range 128 159 b)
        || (in_range 238 239 a && is_cont b) in
      let four1 :=
        ((code a =? 240)%N && in_range 144 191 b)
        || (in_range 241 243 a && is_cont b)
        || ((code a =? 244)%N && in_range 128 143 b) in
      if two then 2%nat
      else match r with
           | String c r' =>
               if three1 && is_cont c then 3%nat
               else match r' with
                    | String d _ =>
                        if four1 && is_cont c && is_cont d then 4%nat
                        else 0%nat
                    | EmptyString => 0%nat
                    end
           | EmptyString => 0%nat
           end
  | _ => 0%nat
  end.

Definition u4 (h1 h2 h3 h4 : ascii) : N :=
  (hex_val h1 * 4096 + hex_val h2 * 256 + hex_val h3 * 16 + hex_val h4)%N.

Definition is_surrogate (r : N) : bool := ((55296 <=? r) && (r <? 57344))%N.

(** [utf16.DecodeRune]: the rune of a surrogate pair, or U+FFFD. *)
Definition decode_surrogates (r1 r2 : N) : option N :=
  (if (55296 <=? r1) && (r1 <? 56320) && (56320 <=? r2) && (r2 <? 57344)
   then Some ((r1 - 55296) * 1024 + (r2 - 56320) + 65536)
   else None)%N.

(** [unquoteBytes] on the body of a string literal the scanner accepted:
    escapes are decoded, a [\u] escape yields the UTF-8 encoding of its
    rune (surrogate pairs are combined, a lone surrogate becomes U+FFFD),
    and bytes that are not well-formed UTF-8 are replaced by U+FFFD.
    [copy] counts the continuation bytes of a well-formed rune still to be
    copied. *)
Fixpoint unquote_body (copy : nat) (s : string) : string :=
  match s with
  | EmptyString => EmptyString
  | String c r =>
      match copy with
      | S k => String c (unquote_body k r)
      | O =>
          match code c with
          | 34%N => EmptyString
          | 92%N =>
              match r with
              | EmptyString => EmptyString
              | String e r' =>
                  match code e with
                  | 98%N => String (byte 8) (unquote_body 0 r')
                  | 102%N => String (byte 12) (unquote_body 0 r')
                  | 110%N => String (byte 10) (unquote_body 0 r')
                  | 114%N => String (byte 13) (unquote_body 0 r')
                  | 116%N => String (byte 9) (unquote_body 0 r')
                  | 117%N =>
                      match r' with
                      | String h1 (String h2 (String h3 (String h4 r2))) =>
                          let rr := u4 h1 h2 h3 h4 in
                          if is_surrogate rr then
                            match r2 with
                            | String "\" (String "u" (String g1 (String g2
                                (String g3 (String g4 r3))))) =>
                                match decode_surrogates rr (u4 g1 g2 g3 g4) with
                                | Some dec =>
                                    if is_hex g1 && is_hex g2 && is_hex g3
                                       && is_hex g4
                                    then encode_rune dec ++ unquote_body 0 r3
                                    else replacement ++ unquote_body 0 r2
                                | None => replacement ++ unquote_body 0 r2
                                end
                            | _ => replacement ++ unquote_body 0 r2
                            end
                          else encode_rune rr ++ unquote_body 0 r2
                      | _ => EmptyString
                      end
                  | _ => String e (unquote_body 0 r')
                  end
              end
          | n =>
              if (n <? 128)%N then String c (unquote_body 0 r)
              else match utf8_size s with
                   | O => replacement ++ unquote_body 0 r
                   | S k => String c (unquote_body k r)
                   end
          end
      end
  end.

(** The value of a string literal given with its quotes. *)
Definition unquote (lit : string) : string :=
  match lit with
  | String _ body => unquote_body 0 body
  | EmptyString => EmptyString
  end.

(** Case folding of object keys, as far as it decides equality with a
    field name made of ASCII letters: ASCII lower case folds to upper case,
    and the only runes beyond ASCII that fold to an ASCII letter are U+017F
    (to S) and U+212A (to K). *)
Fixpoint foldName (s : string) : string :=
  match s with
  | EmptyString => EmptyString
  | String a r =>
      if in_range 97 122 a then String (byte (code a - 32)) (foldName r)
      else
        match r with
        | String b r' =>
            if (code a =? 197)%N && (code b =? 191)%N
            then String "S" (foldName r')
            else
              match r' with
              | String c r'' =>
                  if (code a =? 226)%N && (code b =? 132)%N
                     && (code c =? 170)%N
                  then String "K" (foldName r'')
                  else String a (foldName r)
              | EmptyString => String a (foldName r)
              end
        | EmptyString => String a (foldName r)
        end
  end.

(** Whether the key of a member (as written) selects the field tagged
    [name]: equal to it exactly or, failing that, up to case folding. *)
Definition key_matches (name key : string) : bool :=
  let k := unquote key in
  String.eqb k name || String.eqb (foldName k) (foldName name).

(** [json.RawMessage]: the text of a value.  A nil and an empty message
    are not told apart (the code only takes their length and converts them
    to a string). *)
Definition RawMessage : Type := string.

Inductive json_error : Type :=
| InvalidSyntax
| UnmarshalTypeError.

(** [json.Unmarshal] into a string variable that holds [""]: a string
    literal is unquoted, [null] leaves the variable as it is, any other
    value is a type error. *)
Definition Unmarshal_string (data : string) : json_error + string :=
  if Valid data then
    match skip_ws data with
    | String c r =>
        match code c with
        | 34%N => inr (unquote (skip_ws data))
        | 110%N => inr EmptyString
        | _ => inl UnmarshalTypeError
        end
    | EmptyString => inl InvalidSyntax
    end
  else inl InvalidSyntax.

End GoJSON.

(* ===================================================================== *)
(** ** Package [chat]: the unified request and result model *)
(* ===================================================================== *)

(** A Go slice as a value: [None] is the nil slice, [Some l] a slice with the
    elements [l].  Sharing of backing arrays is the subject of the module
    [Store] further down. *)
Definition slice (A : Type) : Type := option (list A).

Definition elems {A} (s : slice A) : list A := default [] s.

Definition len {A} (s : slice A) : nat := length (elems s).

(** [append(s, x)] and [append(s, t...)] as values. *)
Definition append1 {A} (s : slice A) (x : A) : slice A :=
  Some (elems s ++ [x])%list.

Definition append {A} (s t : slice A) : slice A :=
  match s, elems t with
  | None, [] => None
  | _, l => Some (elems s ++ l)%list
  end.

(** A value of interface type ([any]): the layer only passes such values on,
    so they are modelled by their identity. *)
Inductive any : Type :=
| AnyNil
| AnyRef (id : positive).

(** [float64] values are only copied: they are modelled by their bits. *)
Definition float64 : Type := Z.

(** [structs.JSONMap], a [map[string]any]; [None] is the nil map. *)
Definition JSONMap : Type := option (gmap string any).

(** Modelled from the spec: the type declarations of package [chat]
    (Message, Tool, ToolChoice, ToolCall, Options, Request, Usage, Result)
    are not among the sources.  The records below have the fields the
    sources read and write, which are those of the spec's data model. *)
Module ToolCallFunction.
Record t : Type := mk { Name : string; Arguments : string }.
End ToolCallFunction.

Module ToolCall.
Record t : Type := mk {
  ID : string;
  Type_ : string;
  Function : ToolCallFunction.t
}.
End ToolCall.

Definition RoleSystem : string := "system".
Definition RoleUser : string := "user".
Definition RoleAssistant : string := "assistant".
Definition RoleTool : string := "tool".

Module Message.
Record t : Type := mk {
  Role : string;
  Content : string;
  Name : string;
  ToolCallID : string;
  ToolCalls : slice ToolCall.t
}.
End Message.

Module ToolFunction.
Record t : Type := mk {
  Name : string;
  Description : string;
  Strict : option bool;
  ParametersJSONSchema : string
}.
End ToolFunction.

Module Tool.
Record t : Type := mk { Type_ : string; Function : ToolFunction.t }.
End Tool.

Module ToolChoice.
Record t : Type := mk { Mode : string; FunctionName : string }.
End ToolChoice.

Module Options.
Record t : Type := mk {
  Temperature : option float64;
  TopP : option float64;
  MaxTokens : option Z;
  Stop : slice string;
  PresencePenalty : option float64;
  FrequencyPenalty : option float64;
  User : option string;
  ToolsEmulation : bool;
  DebugFn : option (string -> string -> unit);
  OpenAI : JSONMap;
  Azure : JSONMap;
  Anthropic : JSONMap;
  Bedrock : JSONMap;
  Susanoo : JSONMap
}.
End Options.

Module Request.
Record t : Type := mk {
  Messages : slice Message.t;
  Model : string;
  Tools : slice Tool.t;
  ToolChoice : option ToolChoice.t;
  Options : Options.t
}.
End Request.

Module Usage.
Record t : Type := mk { InputTokens : Z; OutputTokens : Z; TotalTokens : Z }.
End Usage.

Module Result.
Record t : Type := mk {
  Text : string;
  Model : string;
  ToolCalls : slice ToolCall.t;
  Messages : slice Message.t;
  Usage : Usage.t;
  Raw : any;
  Warnings : slice string
}.
End Result.

(** The errors of the layer, one constructor per message, and the errors the
    provider call returns, which are passed on as they are. *)
Inductive error : Type :=
| ErrEmptyToolDecision
    (* "empty tool decision" *)
| ErrInvalidToolDecisionJSON (text : string)
    (* "invalid tool decision JSON: %q" *)
| ErrUnmarshal (e : GoJSON.json_error)
    (* the error of json.Unmarshal, returned as it is *)
| ErrToolNotString (e : GoJSON.json_error)
    (* "tool must be string or null: %w" *)
| ErrArgumentsNotJSON
    (* "tool arguments must be valid JSON" *)
| ErrExpectedToolCall
    (* "tool emulation expected a tool call but got null" *)
| ErrToolNotFound (name : string)
    (* "tool %q not found in request" *)
| ErrNoFunctionTools
    (* "no function tools available for emulation" *)
| ErrUpstream (msg : string).
    (* an error of the provider *)

(* ===================================================================== *)
(** ** The decision parser *)
(* ===================================================================== *)

Import Bytes GoStrings GoJSON.

(** The anonymous struct [parseToolDecision] decodes into. *)
Record decision : Type := mkDecision {
  Tool : RawMessage;
  Arguments : RawMessage
}.

(** The effect of one member of the decoded object on the struct: the
    member's value text is stored in the field its key selects; a member
    that selects no field is skipped.  (A [json.RawMessage] field receives
    the text of any value, [null] included.) *)
Definition store_member (d : decision) (m : member) : decision :=
  if key_matches "tool" (fst m) then mkDecision (snd m) (Arguments d)
  else if key_matches "arguments" (fst m) then mkDecision (Tool d) (snd m)
  else d.

(** What decoding leaves in the field tagged [name], stated on the members
    of the object: the text of the value of the last member whose key
    selects the field (an object may repeat a key, and the last value is
    kept), on top of [init] when no key selects it. *)
Definition member_value_from (init : RawMessage) (name : string)
    (ms : list member) : RawMessage :=
  fold_left (fun v m => if key_matches name (fst m) then snd m else v) ms init.

Definition member_value (name : string) (ms : list member) : RawMessage :=
  member_value_from "" name ms.

(** [json.Unmarshal(payload, &decision)] on the zero struct: an object is
    decoded member by member, [null] leaves the struct as it is, any other
    value is a type error. *)
Definition Unmarshal_decision (payload : string) : json_error + decision :=
  if Valid payload then
    match skip_ws payload with
    | String c body =>
        match code c with
        | 123%N =>
            match object (fuel_for payload) 1 body with
            | Scanned ms _ => inr (fold_left store_member ms (mkDecision "" ""))
            | _ => inl InvalidSyntax
            end
        | 110%N => inr (mkDecision "" "")
        | _ => inl UnmarshalTypeError
        end
    | EmptyString => inl InvalidSyntax
    end
  else inl InvalidSyntax.

Definition fence : string := "```".

(** [extractJSONPayload]. *)
Definition extractJSONPayload (text : string) : error + string :=
  let trimmed := TrimSpace text in
  if String.eqb trimmed "" then inl ErrEmptyToolDecision
  else
    let trimmed :=
      if HasPrefix trimmed fence then
        match SplitN trimmed fence 3 with
        | _ :: part1 :: _ => TrimSpace (TrimPrefix (TrimSpace part1) "json")
        | _ => trimmed
        end
      else trimmed in
    if Valid trimmed then inr trimmed
    else
      let start := Index trimmed "{" in
      let end_ := LastIndex trimmed "}" in
      if (0 <=? start) && (start <? end_) then
        let candidate := substr trimmed start (end_ + 1) in
        if Valid candidate then inr candidate
        else inl (ErrInvalidToolDecisionJSON trimmed)
      else inl (ErrInvalidToolDecisionJSON trimmed).

(** [parseToolDecision]: the tool name ([""] when no tool is decided) and
    the arguments, or an error. *)
Definition parseToolDecision (text : string) : error + (string * RawMessage) :=
  match extractJSONPayload text with
  | inl err => inl err
  | inr payload =>
      match Unmarshal_decision payload with
      | inl e => inl (ErrUnmarshal e)
      | inr decision =>
          if (String.length (Tool decision) =? 0)%nat
          then inr ("", Arguments decision)
          else
            let toolRaw := TrimSpace (Tool decision) in
            if String.eqb toolRaw "null" || String.eqb toolRaw (json_text "''")
            then inr ("", Arguments decision)
            else
              match Unmarshal_string (Tool decision) with
              | inl e => inl (ErrToolNotString e)
              | inr toolName =>
                  let toolName := TrimSpace toolName in
                  if String.eqb toolName "" then inr ("", Arguments decision)
                  else
                    let args :=
                      if (String.length (Arguments decision) =? 0)%nat
                      then "{}" else Arguments decision in
                    if negb (Valid args) then inl ErrArgumentsNotJSON
                    else inr (toolName, args)
              end
      end
  end.

(* ===================================================================== *)
(** ** Request builders *)
(* ===================================================================== *)

(** [toolExists]. *)
Fixpoint toolExists_list (tools : list Tool.t) (name : string) : bool :=
  match tools with
  | [] => false
  | tool :: rest =>
      if negb (String.eqb (Tool.Type_ tool) "function")
      then toolExists_list rest name
      else if String.eqb (ToolFunction.Name (Tool.Function tool)) name
      then true
      else toolExists_list rest name
  end.

Definition toolExists (tools : slice Tool.t) (name : string) : bool :=
  toolExists_list (elems tools) name.

(** [cloneJSONMap]: nil for a map without entries, otherwise a new map with
    the same entries. *)
Definition cloneJSONMap (input : JSONMap) : JSONMap :=
  match input with
  | None => None
  | Some m => if (size m =? 0)%nat then None else Some m
  end.

Definition cloneOptions (o : Options.t) : Options.t :=
  Options.mk (Options.Temperature o) (Options.TopP o) (Options.MaxTokens o)
    (Options.Stop o) (Options.PresencePenalty o) (Options.FrequencyPenalty o)
    (Options.User o) (Options.ToolsEmulation o) (Options.DebugFn o)
    (cloneJSONMap (Options.OpenAI o)) (cloneJSONMap (Options.Azure o))
    (cloneJSONMap (Options.Anthropic o)) (cloneJSONMap (Options.Bedrock o))
    (cloneJSONMap (Options.Susanoo o)).

(** [cloneChatRequest] on a request that is not nil, as a value: the
    messages and the tools are copied into new slices (never nil), the tool
    choice into a new struct, the option maps into new maps. *)
Definition cloneChatRequest (req : Request.t) : Request.t :=
  Request.mk
    (Some (elems (Request.Messages req)))
    (Request.Model req)
    (Some (elems (Request.Tools req)))
    (Request.ToolChoice req)
    (cloneOptions (Request.Options req)).

(** The assignment [out.Options.ToolsEmulation = false]. *)
Definition emulation_off (o : Options.t) : Options.t :=
  Options.mk (Options.Temperature o) (Options.TopP o) (Options.MaxTokens o)
    (Options.Stop o) (Options.PresencePenalty o) (Options.FrequencyPenalty o)
    (Options.User o) false (Options.DebugFn o)
    (Options.OpenAI o) (Options.Azure o) (Options.Anthropic o)
    (Options.Bedrock o) (Options.Susanoo o).

(** [buildFinalRequest]. *)
Definition buildFinalRequest (req : Request.t) : Request.t :=
  let out := cloneChatRequest req in
  Request.mk (Request.Messages out) (Request.Model out) None None
    (emulation_off (Request.Options out)).

(** [strings.Join]. *)
Fixpoint Join (lines : list string) (sep : string) : string :=
  match lines with
  | [] => ""
  | [l] => l
  | l :: rest => l ++ sep ++ Join rest sep
  end.

Definition is_function_tool (tool : Tool.t) : bool :=
  String.eqb (Tool.Type_ tool) "function".

Definition system_message (prompt : string) : Message.t :=
  Message.mk RoleSystem prompt "" "" None.

Definition is_system (m : Message.t) : bool :=
  String.eqb (Message.Role m) RoleSystem.

(** A request as the layer sends it on: emulation switched off, no tools, no
    tool choice. *)
Definition stripped (r : Request.t) : Prop :=
  Options.ToolsEmulation (Request.Options r) = false
  /\ Request.Tools r = None
  /\ Request.ToolChoice r = None.

Section Emulation.

(** The JSON text [json.Marshal] produces for the list of tool specs (name,
    description and decoded parameter schema) of the given function tools,
    and the quoting of the verb [%q].  ([json.Marshal] does not fail on
    such a list: it holds strings and values that [json.Unmarshal] made.) *)
Variable marshalToolSpecs : list Tool.t -> string.
Variable quote : string -> string.

(** [buildToolDecisionPrompt]. *)
Definition buildToolDecisionPrompt (req : Request.t) : error + string :=
  let tools :=
    filter (fun t => is_function_tool t = true) (elems (Request.Tools req)) in
  if (length tools =? 0)%nat then inl ErrNoFunctionTools
  else
    let data := marshalToolSpecs tools in
    let lines :=
      [ "You are a tool-calling engine.";
        "When you need a tool, output ONLY JSON:";
        (json_text "{'tool': 'get_weather', 'arguments': {'city': 'Tokyo'}}");
        "If no tool needed, output:";
        (json_text "{'tool': null, 'arguments': {}}");
        "Available tools (JSON): " ++ data ] in
    let lines :=
      match Request.ToolChoice req with
      | Some choice =>
          if String.eqb (ToolChoice.Mode choice) "none" then
            (lines ++ ["You MUST NOT call any tool. Return tool=null."])%list
          else if String.eqb (ToolChoice.Mode choice) "required" then
            (lines ++ ["You MUST call a tool. tool must not be null."])%list
          else if String.eqb (ToolChoice.Mode choice) "function" then
            if negb (String.eqb (ToolChoice.FunctionName choice) "") then
              (lines
               ++ ["You MUST call the tool named "
                   +:+ quote (ToolChoice.FunctionName choice) +:+ "."])%list
            else lines
          else lines
      | None => lines
      end in
    inr (Join lines (String (byte 10) "")).

(** [buildToolDecisionRequest]. *)
Definition buildToolDecisionRequest (req : Request.t) : error + Request.t :=
  match buildToolDecisionPrompt req with
  | inl err => inl err
  | inr prompt =>
      let out := cloneChatRequest req in
      inr (Request.mk
             (append (Some [system_message prompt]) (Request.Messages out))
             (Request.Model out) None None
             (emulation_off (Request.Options out)))
  end.

(** *** The orchestrator *)

(** What a provider call returns: a result or nil, and an error or nil. *)
Definition reply : Type := option Result.t * option error.

(** The provider behind [chatOnce], with a state of its own. *)
Variable Upstream : Type.
Variable provider : string -> Request.t -> Upstream -> reply * Upstream.

(** The state the orchestrator runs in: the requests passed to the
    provider so far, oldest first, and the provider's state. *)
Record world : Type := mkWorld {
  calls : list Request.t;
  upstream : Upstream
}.

(** Computations in that state. *)
Definition M (A : Type) : Type := world -> A * world.

Definition ret {A} (a : A) : M A := fun w => (a, w).

Definition bind {A B} (m : M A) (k : A -> M B) : M B :=
  fun w => let (a, w') := m w in k a w'.

Notation "'let*' x := m 'in' k" := (bind m (fun x => k))
  (at level 10, x name, m at level 200, k at level 200).

(** Modelled from the spec: [Client.chatOnce] is not among the sources.
    The spec describes it as the injected single-shot chat function from a
    request to a result or an error; the call is recorded in [calls]. *)
Definition chatOnce (providerName : string) (req : Request.t) : M reply :=
  fun w =>
    let (r, u) := provider providerName req (upstream w) in
    (r, mkWorld (calls w ++ [req])%list u).

(** How a call of [chatWithToolEmulation] ends: it returns a result (or
    nil) and an error (or nil), or it panics on a nil dereference. *)
Inductive outcome : Type :=
| Return (resp : option Result.t) (err : option error)
| Panic.

Definition warning : string := "tool calls emulated".

(** [fmt.Sprintf("emulated_%d", now)]. *)
Definition callID (now : Z) : string := "emulated_" ++ pretty now.

Definition emulated_call (now : Z) (toolName : string) (args : RawMessage)
  : ToolCall.t :=
  ToolCall.mk (callID now) "function" (ToolCallFunction.mk toolName args).

Definition add_warning (resp : Result.t) : Result.t :=
  Result.mk (Result.Text resp) (Result.Model resp) (Result.ToolCalls resp)
    (Result.Messages resp) (Result.Usage resp) (Result.Raw resp)
    (append1 (Result.Warnings resp) warning).

Definition expects_tool (choice : option ToolChoice.t) : bool :=
  match choice with
  | Some c =>
      String.eqb (ToolChoice.Mode c) "required"
      || String.eqb (ToolChoice.Mode c) "function"
  | None => false
  end.

(** [chatWithToolEmulation] on a request that is not nil; [now] is the
    value [time.Now().UnixNano()] has when the call identifier is made. *)
Definition chatWithToolEmulation (providerName : string) (req : Request.t)
    (now : Z) : M outcome :=
  if (len (Request.Tools req) =? 0)%nat then
    let* r := chatOnce providerName req in
    ret (Return (fst r) (snd r))
  else
    match buildToolDecisionRequest req with
    | inl err => ret (Return None (Some err))
    | inr decisionReq =>
        let* r := chatOnce providerName decisionReq in
        match r with
        | (_, Some err) => ret (Return None (Some err))
        | (None, None) => ret Panic
        | (Some decisionResp, None) =>
            match parseToolDecision (Result.Text decisionResp) with
            | inl err => ret (Return None (Some err))
            | inr (toolName, args) =>
                if String.eqb toolName "" then
                  if expects_tool (Request.ToolChoice req)
                  then ret (Return None (Some ErrExpectedToolCall))
                  else
                    let finalReq := buildFinalRequest req in
                    let* r := chatOnce providerName finalReq in
                    ret (Return (option_map add_warning (fst r)) (snd r))
                else if negb (toolExists (Request.Tools req) toolName) then
                  ret (Return None (Some (ErrToolNotFound toolName)))
                else
                  let call := emulated_call now toolName args in
                  ret (Return
                         (Some (Result.mk "" (Result.Model decisionResp)
                                  (Some [call])
                                  (Some [Message.mk RoleAssistant "" "" ""
                                           (Some [call])])
                                  (Result.Usage decisionResp)
                                  (Result.Raw decisionResp)
                                  (Some [warning])))
                         None)
            end
        end
    end.

End Emulation.

Arguments mkWorld {Upstream} calls upstream.
Arguments calls {Upstream} w.
Arguments upstream {Upstream} w.
Arguments chatOnce {Upstream} provider providerName req w.
Arguments chatWithToolEmulation marshalToolSpecs quote {Upstream} provider
  providerName req now w.

(* ===================================================================== *)
(** ** Requests in memory: backing arrays, pointers and aliasing *)
(* ===================================================================== *)

Module Store.

Definition loc : Type := positive.

(** A slice header: the backing array, the offset of the first element in
    it, the length and the capacity.  The nil slice has no header. *)
Record header : Type := mkHeader {
  arr : loc;
  off : nat;
  hlen : nat;
  hcap : nat
}.

Definition hslice : Type := option header.

Section Arrays.
Context {A : Type}.

(** The zero value of the element type, and the number of spare
    elements the runtime adds when [append] has to allocate an array for
    a slice of capacity [c] that must hold [n] elements. *)
Variable zero : A.
Variable slack : nat -> nat -> nat.

(** The backing arrays of one element type. *)
Definition array_of (h : gmap loc (list A)) (p : loc) : list A :=
  default [] (h !! p).

(** The elements seen through a slice. *)
Definition view (h : gmap loc (list A)) (s : hslice) : slice A :=
  match s with
  | None => None
  | Some hd => Some (take (hlen hd) (drop (off hd) (array_of h (arr hd))))
  end.

(** A header that designates a part of an allocated array. *)
Definition wf_slice (h : gmap loc (list A)) (s : hslice) : Prop :=
  match s with
  | None => True
  | Some hd =>
      is_Some (h !! arr hd)
      /\ (hlen hd <= hcap hd)%nat
      /\ (off hd + hcap hd <= length (array_of h (arr hd)))%nat
  end.

Definition alloc (h : gmap loc (list A)) (a : list A)
  : loc * gmap loc (list A) :=
  let p := fresh (dom h) in (p, <[p := a]> h).

(** The composite literal [[]T{x1, ..., xn}]. *)
Definition literal (h : gmap loc (list A)) (l : list A)
  : hslice * gmap loc (list A) :=
  let (p, h') := alloc h l in
  (Some (mkHeader p 0 (length l) (length l)), h').

(** Overwriting [a] from position [pos] on with [xs]. *)
Definition write (a : list A) (pos : nat) (xs : list A) : list A :=
  (take pos a ++ xs ++ drop (pos + length xs) a)%list.

(** [append(s, xs...)]: in place when the capacity suffices, otherwise
    into a new array. *)
Definition append_slice (h : gmap loc (list A)) (s : hslice) (xs : list A)
  : hslice * gmap loc (list A) :=
  match s with
  | None =>
      match xs with
      | [] => (None, h)
      | _ =>
          let n := length xs in
          let (p, h') := alloc h (xs ++ replicate (slack 0 n) zero)%list in
          (Some (mkHeader p 0 n (n + slack 0 n)), h')
      end
  | Some hd =>
      let n := (hlen hd + length xs)%nat in
      if (n <=? hcap hd)%nat then
        (Some (mkHeader (arr hd) (off hd) n (hcap hd)),
         <[arr hd := write (array_of h (arr hd)) (off hd + hlen hd) xs]> h)
      else
        let old := take (hlen hd) (drop (off hd) (array_of h (arr hd))) in
        let (p, h') :=
          alloc h (old ++ xs ++ replicate (slack (hcap hd) n) zero)%list in
        (Some (mkHeader p 0 n (n + slack (hcap hd) n)), h')
  end.

(** What a program holding a slice variable can do to it. *)
Inductive slice_op : Type :=
| SetIndex (i : nat) (x : A)       (* s[i] = x *)
| Append (xs : list A)             (* s = append(s, xs...) *)
| Reslice (lo hi : nat)            (* s = s[lo:hi] *)
| Remove (i : nat)                 (* s = append(s[:i], s[i+1:]...) *)
| Assign (l : list A)              (* s = []T{...} *)
| AssignNil.                       (* s = nil *)

Definition reslice (s : hslice) (lo hi : nat) : option hslice :=
  match s with
  | None => if ((lo =? 0) && (hi =? 0))%nat then Some None else None
  | Some hd =>
      if ((lo <=? hi) && (hi <=? hcap hd))%nat
      then Some (Some (mkHeader (arr hd) (off hd + lo) (hi - lo) (hcap hd - lo)))
      else None
  end.

(** The effect of an operation; [None] when it panics. *)
Definition apply_op (op : slice_op) (s : hslice) (h : gmap loc (list A))
  : option (hslice * gmap loc (list A)) :=
  match op with
  | SetIndex i x =>
      match s with
      | Some hd =>
          if (i <? hlen hd)%nat
          then Some (s, <[arr hd := <[(off hd + i)%nat := x]> (array_of h (arr hd))]> h)
          else None
      | None => None
      end
  | Append xs => Some (append_slice h s xs)
  | Reslice lo hi =>
      match reslice s lo hi with
      | Some s' => Some (s', h)
      | None => None
      end
  | Remove i =>
      if (i <? len (view h s))%nat then
        match reslice s 0 i with
        | Some front =>
            Some (append_slice h front (drop (S i) (elems (view h s))))
        | None => None
        end
      else None
  | Assign l => Some (literal h l)
  | AssignNil => Some (None, h)
  end.

(** The slice does not designate an array of the store [h0]. *)
Definition private (h0 : gmap loc (list A)) (s : hslice) : Prop :=
  match s with
  | None => True
  | Some hd => h0 !! arr hd = None
  end.

End Arrays.

(** The memory a request lives in: the backing arrays of message and tool
    slices, the [ToolChoice] structs behind pointers, and the option maps. *)
Record store : Type := mkStore {
  messages : gmap loc (list Message.t);
  tools : gmap loc (list Tool.t);
  choices : gmap loc ToolChoice.t;
  maps : gmap loc (gmap string any)
}.

(** A [chat.Request] struct in memory.  [Scalars] holds the option fields
    other than the five maps; cloning copies them as they are, and they are
    carried as values (so are the slices inside a message, which a clone
    shares with the original). *)
Record request : Type := mkRequest {
  Messages : hslice;
  Model : string;
  Tools : hslice;
  ToolChoice : option loc;
  Scalars : Options.t;
  OpenAI : option loc;
  Azure : option loc;
  Anthropic : option loc;
  Bedrock : option loc;
  Susanoo : option loc
}.

Definition zeroMessage : Message.t := Message.mk "" "" "" "" None.
Definition zeroTool : Tool.t := Tool.mk "" (ToolFunction.mk "" "" None "").
Definition zeroChoice : ToolChoice.t := ToolChoice.mk "" "".

Definition load_choice (h : gmap loc ToolChoice.t) (p : option loc)
  : option ToolChoice.t :=
  match p with
  | None => None
  | Some q => Some (default zeroChoice (h !! q))
  end.

Definition load_map (h : gmap loc (gmap string any)) (p : option loc)
  : JSONMap :=
  match p with
  | None => None
  | Some q => Some (default ∅ (h !! q))
  end.

(** The request a struct in memory stands for. *)
Definition load (σ : store) (r : request) : Request.t :=
  let o := Scalars r in
  Request.mk
    (view (messages σ) (Messages r))
    (Model r)
    (view (tools σ) (Tools r))
    (load_choice (choices σ) (ToolChoice r))
    (Options.mk (Options.Temperature o) (Options.TopP o)
       (Options.MaxTokens o) (Options.Stop o) (Options.PresencePenalty o)
       (Options.FrequencyPenalty o) (Options.User o)
       (Options.ToolsEmulation o) (Options.DebugFn o)
       (load_map (maps σ) (OpenAI r)) (load_map (maps σ) (Azure r))
       (load_map (maps σ) (Anthropic r)) (load_map (maps σ) (Bedrock r))
       (load_map (maps σ) (Susanoo r))).

Definition allocated {V} (h : gmap loc V) (p : option loc) : Prop :=
  match p with
  | None => True
  | Some q => is_Some (h !! q)
  end.

(** A request without dangling references. *)
Definition wf_request (σ : store) (r : request) : Prop :=
  wf_slice (messages σ) (Messages r)
  /\ wf_slice (tools σ) (Tools r)
  /\ allocated (choices σ) (ToolChoice r)
  /\ allocated (maps σ) (OpenAI r)
  /\ allocated (maps σ) (Azure r)
  /\ allocated (maps σ) (Anthropic r)
  /\ allocated (maps σ) (Bedrock r)
  /\ allocated (maps σ) (Susanoo r).

Section Requests.

(** The growth policy of [append] (see [append_slice]). *)
Variable slack : nat -> nat -> nat.

(** [cloneJSONMap]. *)
Definition cloneJSONMap (h : gmap loc (gmap string any)) (input : option loc)
  : option loc * gmap loc (gmap string any) :=
  match input with
  | None => (None, h)
  | Some q =>
      let m := default ∅ (h !! q) in
      if (size m =? 0)%nat then (None, h)
      else let out := fresh (dom h) in (Some out, <[out := m]> h)
  end.

(** [choice := *req.ToolChoice; out.ToolChoice = &choice]. *)
Definition cloneChoice (h : gmap loc ToolChoice.t) (p : option loc)
  : option loc * gmap loc ToolChoice.t :=
  match p with
  | None => (None, h)
  | Some q =>
      let out := fresh (dom h) in
      (Some out, <[out := default zeroChoice (h !! q)]> h)
  end.

(** [append([]T{}, src...)]. *)
Definition copy_slice {A} (zero : A) (h : gmap loc (list A)) (src : hslice)
  : hslice * gmap loc (list A) :=
  let (empty, h1) := literal h [] in
  append_slice zero slack h1 empty (elems (view h src)).

(** [cloneChatRequest] on a request that is not nil. *)
Definition cloneChatRequest (req : request) (σ : store) : request * store :=
  let (ms, hm) := copy_slice zeroMessage (messages σ) (Messages req) in
  let (ts, ht) := copy_slice zeroTool (tools σ) (Tools req) in
  let (tc, hc) := cloneChoice (choices σ) (ToolChoice req) in
  let (o1, h1) := cloneJSONMap (maps σ) (OpenAI req) in
  let (o2, h2) := cloneJSONMap h1 (Azure req) in
  let (o3, h3) := cloneJSONMap h2 (Anthropic req) in
  let (o4, h4) := cloneJSONMap h3 (Bedrock req) in
  let (o5, h5) := cloneJSONMap h4 (Susanoo req) in
  (mkRequest ms (Model req) ts tc (Scalars req) o1 o2 o3 o4 o5,
   mkStore hm ht hc h5).

(** What the holder of the clone can do to its messages, tools and tool
    choice. *)
Inductive mutation : Type :=
| OnMessages (op : slice_op (A := Message.t))
| OnTools (op : slice_op (A := Tool.t))
| SetMode (mode : string)                (* c.ToolChoice.Mode = mode *)
| SetFunctionName (name : string)        (* c.ToolChoice.FunctionName = name *)
| AssignChoice (choice : ToolChoice.t)   (* c.ToolChoice = &chat.ToolChoice{...} *)
| ClearChoice.                           (* c.ToolChoice = nil *)

Definition with_messages (c : request) (s : hslice) : request :=
  mkRequest s (Model c) (Tools c) (ToolChoice c) (Scalars c)
    (OpenAI c) (Azure c) (Anthropic c) (Bedrock c) (Susanoo c).

Definition with_tools (c : request) (s : hslice) : request :=
  mkRequest (Messages c) (Model c) s (ToolChoice c) (Scalars c)
    (OpenAI c) (Azure c) (Anthropic c) (Bedrock c) (Susanoo c).

Definition with_choice (c : request) (p : option loc) : request :=
  mkRequest (Messages c) (Model c) (Tools c) p (Scalars c)
    (OpenAI c) (Azure c) (Anthropic c) (Bedrock c) (Susanoo c).

Definition update_choice (f : ToolChoice.t -> ToolChoice.t) (c : request)
    (σ : store) : option (request * store) :=
  match ToolChoice c with
  | Some p =>
      Some (c, mkStore (messages σ) (tools σ)
                 (<[p := f (default zeroChoice (choices σ !! p))]> (choices σ))
                 (maps σ))
  | None => None
  end.

(** The effect of a mutation on the struct [c]; [None] when it panics. *)
Definition mutate (m : mutation) (c : request) (σ : store)
  : option (request * store) :=
  match m with
  | OnMessages op =>
      match apply_op zeroMessage slack op (Messages c) (messages σ) with
      | Some (s, h) =>
          Some (with_messages c s, mkStore h (tools σ) (choices σ) (maps σ))
      | None => None
      end
  | OnTools op =>
      match apply_op zeroTool slack op (Tools c) (tools σ) with
      | Some (s, h) =>
          Some (with_tools c s, mkStore (messages σ) h (choices σ) (maps σ))
      | None => None
      end
  | SetMode mode =>
      update_choice (fun t => ToolChoice.mk mode (ToolChoice.FunctionName t)) c σ
  | SetFunctionName name =>
      update_choice (fun t => ToolChoice.mk (ToolChoice.Mode t) name) c σ
  | AssignChoice choice =>
      let p := fresh (dom (choices σ)) in
      Some (with_choice c (Some p),
            mkStore (messages σ) (tools σ) (<[p := choice]> (choices σ)) (maps σ))
  | ClearChoice => Some (with_choice c None, σ)
  end.

Fixpoint mutate_all (ms : list mutation) (c : request) (σ : store)
  : option (request * store) :=
  match ms with
  | [] => Some (c, σ)
  | m :: rest =>
      match mutate m c σ with
      | Some (c', σ') => mutate_all rest c' σ'
      | None => None
      end
  end.

End Requests.

(** [σ] extends [σ0]: what is allocated in [σ0] is in [σ] with the same
    content. *)
Definition extends (σ0 σ : store) : Prop :=
  messages σ0 ⊆ messages σ /\ tools σ0 ⊆ tools σ
  /\ choices σ0 ⊆ choices σ /\ maps σ0 ⊆ maps σ.

(** The messages, the tools and the tool choice of [c] lie outside the
    store [σ0]. *)
Definition separate (σ0 : store) (c : request) : Prop :=
  private (messages σ0) (Messages c)
  /\ private (tools σ0) (Tools c)
  /\ match ToolChoice c with
     | Some p => choices σ0 !! p = None
     | None => True
     end.

End Store.

(* ===================================================================== *)
(** ** Concrete inputs *)
(* ===================================================================== *)

Module Examples.

Definition newline : string := String (byte 10) "".

Definition decision_x : string :=
  json_text "{'tool':'x','arguments':{'a':1}}".

(** The decision object in a fenced block after a word of prose. *)
Definition fenced_text : string :=
  "Sure! ```json" ++ newline ++ decision_x ++ newline ++ fence.

(** The decision object inside a sentence. *)
Definition embedded_text : string := "I'll call " ++ decision_x ++ " now".

(** The array form of the same decision, and the empty array form. *)
Definition array_text : string :=
  json_text "{'tools':[{'tool':'x','arguments':{'a':1}}]}".

Definition empty_array_text : string := json_text "{'tools':[]}".

Definition null_text : string := json_text "{'tool':null,'arguments':{}}".

Definition options_on : Options.t :=
  Options.mk None None None None None None None true None
    None None None None None.

Definition get_weather : Tool.t :=
  Tool.mk "function"
    (ToolFunction.mk "get_weather" "Weather of a city" None
       (json_text "{'type':'object'}")).

Definition other_tool : Tool.t :=
  Tool.mk "function" (ToolFunction.mk "other_tool" "" None "").

Definition user_message (text : string) : Message.t :=
  Message.mk RoleUser text "" "" None.

(** A request with a system message, a user message and two function
    tools, under the given tool choice. *)
Definition weather_request (choice : option ToolChoice.t) : Request.t :=
  Request.mk
    (Some [system_message "Be brief."; user_message "Weather in Tokyo?"])
    "some-model"
    (Some [get_weather; other_tool])
    choice
    options_on.

Definition choice_auto : option ToolChoice.t := Some (ToolChoice.mk "auto" "").
Definition choice_none : option ToolChoice.t := Some (ToolChoice.mk "none" "").
Definition choice_get_weather : option ToolChoice.t :=
  Some (ToolChoice.mk "function" "get_weather").

Definition text_result (text : string) : Result.t :=
  Result.mk text "vendor-model" None None (Usage.mk 10 5 15) (AnyRef 1) None.

(** A result that carries a tool call of the vendor's own. *)
Definition native_result : Result.t :=
  Result.mk "" "vendor-model"
    (Some [ToolCall.mk "call_1" "function"
             (ToolCallFunction.mk "get_weather" (json_text "{'city':'Tokyo'}"))])
    None (Usage.mk 10 5 15) (AnyRef 1) None.

(** A provider that answers every request with [native_result]. *)
Definition native_provider (_ : string) (_ : Request.t) (u : unit)
  : reply * unit :=
  ((Some native_result, None), u).

(** A provider that plays back a list of replies. *)
Definition scripted_provider (_ : string) (_ : Request.t) (u : list reply)
  : reply * list reply :=
  match u with
  | [] => ((None, Some (ErrUpstream "script exhausted")), [])
  | r :: u' => (r, u')
  end.

Definition marshal_names (ts : list Tool.t) : string :=
  "["
  ++ Join (map (fun t => ToolFunction.Name (Tool.Function t)) ts) ","
  ++ "]".

Definition quote_plain (s : string) : string :=
  json_text "'" ++ s ++ json_text "'".

Definition now : Z := 1700000000000000000.

(** The orchestrator on the scripted provider, from an empty call log. *)
Definition run_scripted (req : Request.t) (script : list reply)
  : outcome * world (list reply) :=
  chatWithToolEmulation marshal_names quote_plain
    scripted_provider "vendor" req now (mkWorld [] script).

Definition run_native (req : Request.t) : outcome * world unit :=
  chatWithToolEmulation marshal_names quote_plain
    native_provider "vendor" req now (mkWorld [] tt).

Definition weather_decision : string :=
  json_text "{'tool':'get_weather','arguments':{'city':'Tokyo'}}".

(** A tool of another type than "function", a request that offers it beside
    a function tool, and the decision that names it. *)
Definition retrieval_tool : Tool.t :=
  Tool.mk "retrieval" (ToolFunction.mk "search" "Search the archive" None "").

Definition mixed_request : Request.t :=
  Request.mk (Some [user_message "Find the report."]) "some-model"
    (Some [get_weather; retrieval_tool]) choice_auto options_on.

Definition search_decision : string :=
  json_text "{'tool':'search','arguments':{}}".

(** The decision for [x] with members the parser has no field for, in
    another order and with the key of the tool in upper case. *)
Definition noisy_decision : string :=
  json_text "{'note':'hi','arguments':{'a':1},'tools':[],'TOOL':'x','id':7}".

Definition other_decision : string :=
  json_text "{'tool':'other_tool','arguments':{}}".

(** A store with one array of two messages, one array of one tool and one
    tool choice, and the request made of them. *)
Definition store0 : Store.store :=
  Store.mkStore
    {[ 1%positive := [system_message "Be brief."; user_message "Hi"] ]}
    {[ 1%positive := [get_weather] ]}
    {[ 1%positive := ToolChoice.mk "auto" "" ]}
    ∅.

Definition request0 : Store.request :=
  Store.mkRequest
    (Some (Store.mkHeader 1%positive 0 2 2)) "some-model"
    (Some (Store.mkHeader 1%positive 0 1 1)) (Some 1%positive)
    options_on None None None None None.

Definition double (c n : nat) : nat := n.

(** Replacing, appending and removing elements of the clone's messages
    and tools, and rewriting its tool choice. *)
Definition mutations0 : list Store.mutation :=
  [ Store.OnMessages (Store.SetIndex 0 (user_message "changed"));
    Store.OnMessages (Store.Append [user_message "more"]);
    Store.OnMessages (Store.Remove 1);
    Store.OnTools (Store.SetIndex 0 other_tool);
    Store.OnTools (Store.Append [get_weather; other_tool]);
    Store.OnTools (Store.Remove 0);
    Store.SetMode "none";
    Store.SetFunctionName "other_tool" ].

End Examples.

(* ===================================================================== *)
(** ** The OpenAI provider: conversions to and from the vendor's types *)
(* ===================================================================== *)

(** The types of the vendor's client library (openai-go), as far as the
    provider reads and writes them.  A field of an optional type that is not
    set is [None]. *)
Module FunctionCall.
Record t : Type := mk { Name : string; Arguments : string }.
End FunctionCall.

(** [openai.ChatCompletionMessageToolCallUnion], a tool call in a response. *)
Module MessageToolCall.
Record t : Type := mk {
  ID : string;
  Type_ : string;
  Function : FunctionCall.t
}.
End MessageToolCall.

Module ResponseMessage.
Record t : Type := mk {
  Content : string;
  ToolCalls : slice MessageToolCall.t
}.
End ResponseMessage.

Module Choice.
Record t : Type := mk { Message : ResponseMessage.t }.
End Choice.

Module CompletionUsage.
Record t : Type := mk {
  PromptTokens : Z;
  CompletionTokens : Z;
  TotalTokens : Z
}.
End CompletionUsage.

(** [openai.ChatCompletion], a response. *)
Module ChatCompletion.
Record t : Type := mk {
  Choices : slice Choice.t;
  Model : string;
  Usage : CompletionUsage.t
}.
End ChatCompletion.

(** [openai.ChatCompletionMessageFunctionToolCallParam], a tool call in a
    request. *)
Module ToolCallParam.
Record t : Type := mk { ID : string; Name : string; Arguments : string }.
End ToolCallParam.

(** [openai.ChatCompletionMessageParamUnion], a message in a request. *)
Inductive MessageParam : Type :=
| OfSystem (content : string) (name : option string)
| OfUser (content : string) (name : option string)
| OfAssistant (content : option string) (name : option string)
    (tool_calls : slice ToolCallParam.t)
| OfTool (content : string) (tool_call_id : string).

(** [openai.ChatCompletionToolChoiceOptionUnionParam]. *)
Inductive ToolChoiceParam : Type :=
| OfAuto (mode : string)
| OfFunctionToolChoice (name : string).

(** [shared.FunctionDefinitionParam]; [Schema] is the type of a decoded
    parameter schema. *)
Module FunctionDefinition.
Record t (Schema : Type) : Type := mk {
  Name : string;
  Description : option string;
  Strict : option bool;
  Parameters : option Schema
}.
Arguments mk {Schema} Name Description Strict Parameters.
Arguments Name {Schema} t.
Arguments Description {Schema} t.
Arguments Strict {Schema} t.
Arguments Parameters {Schema} t.
End FunctionDefinition.

(** [openai.ChatCompletionNewParams], the fields [buildParams] sets. *)
Module NewParams.
Record t (Schema : Type) : Type := mk {
  Model : string;
  Messages : list MessageParam;
  Temperature : option float64;
  TopP : option float64;
  MaxTokens : option Z;
  MaxCompletionTokens : option Z;
  Stop : slice string;
  PresencePenalty : option float64;
  FrequencyPenalty : option float64;
  User : option string;
  Tools : slice (FunctionDefinition.t Schema);
  ToolChoice : option ToolChoiceParam
}.
Arguments mk {Schema} Model Messages Temperature TopP MaxTokens
  MaxCompletionTokens Stop PresencePenalty FrequencyPenalty User Tools
  ToolChoice.
Arguments Model {Schema} t.
Arguments Messages {Schema} t.
Arguments Temperature {Schema} t.
Arguments TopP {Schema} t.
Arguments MaxTokens {Schema} t.
Arguments MaxCompletionTokens {Schema} t.
Arguments Stop {Schema} t.
Arguments PresencePenalty {Schema} t.
Arguments FrequencyPenalty {Schema} t.
Arguments User {Schema} t.
Arguments Tools {Schema} t.
Arguments ToolChoice {Schema} t.
End NewParams.

(** The errors of the provider's conversions. *)
Inductive provider_error : Type :=
| ErrModelRequired
    (* "model is required" *)
| ErrToolCallIDRequired
    (* "tool_call_id is required for tool messages" *)
| ErrSchema (e : json_error).
    (* the error of json.Unmarshal on a parameter schema *)

(** An optional string field, set when the string is not empty. *)
Definition nonempty (s : string) : option string :=
  if String.eqb s "" then None else Some s.

(** [toToolCallParams]. *)
Fixpoint toToolCallParams_list (calls : list ToolCall.t)
  : list ToolCallParam.t :=
  match calls with
  | [] => []
  | call :: rest =>
      if negb (String.eqb (ToolCall.Type_ call) "")
         && negb (String.eqb (ToolCall.Type_ call) "function")
      then toToolCallParams_list rest
      else if String.eqb (ToolCall.ID call) ""
              || String.eqb (ToolCallFunction.Name (ToolCall.Function call)) ""
      then toToolCallParams_list rest
      else ToolCallParam.mk (ToolCall.ID call)
             (ToolCallFunction.Name (ToolCall.Function call))
             (ToolCallFunction.Arguments (ToolCall.Function call))
           :: toToolCallParams_list rest
  end.

Definition toToolCallParams (calls : slice ToolCall.t)
  : slice ToolCallParam.t :=
  Some (toToolCallParams_list (elems calls)).

(** [toToolCalls]. *)
Fixpoint toToolCalls_list (calls : list MessageToolCall.t) : list ToolCall.t :=
  match calls with
  | [] => []
  | call :: rest =>
      if negb (String.eqb (MessageToolCall.Type_ call) "function")
      then toToolCalls_list rest
      else if String.eqb (FunctionCall.Name (MessageToolCall.Function call)) ""
      then toToolCalls_list rest
      else ToolCall.mk (MessageToolCall.ID call) (MessageToolCall.Type_ call)
             (ToolCallFunction.mk
                (FunctionCall.Name (MessageToolCall.Function call))
                (FunctionCall.Arguments (MessageToolCall.Function call)))
           :: toToolCalls_list rest
  end.

Definition toToolCalls (calls : slice MessageToolCall.t) : slice ToolCall.t :=
  Some (toToolCalls_list (elems calls)).

(** One round of the loop of [toMessages]: the vendor message for [m], or
    the error for a tool message without an identifier. *)
Definition toMessage (m : Message.t) : provider_error + MessageParam :=
  if String.eqb (Message.Role m) RoleSystem then
    inr (OfSystem (Message.Content m) (nonempty (Message.Name m)))
  else if String.eqb (Message.Role m) RoleUser then
    inr (OfUser (Message.Content m) (nonempty (Message.Name m)))
  else if String.eqb (Message.Role m) RoleAssistant then
    inr (OfAssistant (nonempty (Message.Content m)) (nonempty (Message.Name m))
           (if (0 <? len (Message.ToolCalls m))%nat
            then toToolCallParams (Message.ToolCalls m) else None))
  else if String.eqb (Message.Role m) RoleTool then
    if String.eqb (Message.ToolCallID m) "" then inl ErrToolCallIDRequired
    else inr (OfTool (Message.Content m) (Message.ToolCallID m))
  else inr (OfUser (Message.Content m) None).

(** [toMessages]: the loop stops at the first error. *)
Fixpoint toMessages_list (input : list Message.t)
  : provider_error + list MessageParam :=
  match input with
  | [] => inr []
  | m :: rest =>
      match toMessage m with
      | inl err => inl err
      | inr p =>
          match toMessages_list rest with
          | inl err => inl err
          | inr out => inr (p :: out)
          end
      end
  end.

Definition toMessages (input : slice Message.t)
  : provider_error + list MessageParam :=
  toMessages_list (elems input).

(** [toToolChoice]. *)
Definition toToolChoice (choice : ToolChoice.t) : ToolChoiceParam :=
  if String.eqb (ToolChoice.Mode choice) "none" then OfAuto "none"
  else if String.eqb (ToolChoice.Mode choice) "required" then OfAuto "required"
  else if String.eqb (ToolChoice.Mode choice) "function"
  then OfFunctionToolChoice (ToolChoice.FunctionName choice)
  else OfAuto "auto".

(** [toResult] (the provider of part_001).  The loop over the choices
    carries the text and the tool calls gathered so far; [ptr] is the
    identity of the response, which becomes the raw payload. *)
Definition convert_call (tc : MessageToolCall.t) : ToolCall.t :=
  ToolCall.mk (MessageToolCall.ID tc) (MessageToolCall.Type_ tc)
    (ToolCallFunction.mk (FunctionCall.Name (MessageToolCall.Function tc))
       (FunctionCall.Arguments (MessageToolCall.Function tc))).

Definition gather_choice (acc : string * slice ToolCall.t) (choice : Choice.t)
  : string * slice ToolCall.t :=
  let (text, toolCalls) := acc in
  let msg := Choice.Message choice in
  (text ++ ResponseMessage.Content msg,
   if (0 <? len (ResponseMessage.ToolCalls msg))%nat
      && (len toolCalls =? 0)%nat
   then fold_left (fun calls tc => append1 calls (convert_call tc))
          (elems (ResponseMessage.ToolCalls msg)) toolCalls
   else toolCalls).

Definition toResult (resp : option ChatCompletion.t) (ptr : positive)
  : Result.t :=
  match resp with
  | None =>
      Result.mk "" "" None None (Usage.mk 0 0 0) AnyNil
        (Some ["openai response is nil"])
  | Some r =>
      let (text, toolCalls) :=
        fold_left gather_choice (elems (ChatCompletion.Choices r)) ("", None) in
      Result.mk text (ChatCompletion.Model r) toolCalls None
        (Usage.mk (CompletionUsage.PromptTokens (ChatCompletion.Usage r))
           (CompletionUsage.CompletionTokens (ChatCompletion.Usage r))
           (CompletionUsage.TotalTokens (ChatCompletion.Usage r)))
        (AnyRef ptr) None
  end.

(** Whether every byte of [s] is below 128. *)
Fixpoint is_ascii (s : string) : bool :=
  match s with
  | EmptyString => true
  | String c r => (code c <? 128)%N && is_ascii r
  end.

Fixpoint ascii_lower (s : string) : string :=
  match s with
  | EmptyString => EmptyString
  | String c r =>
      String (if in_range 65 90 c then byte (code c + 32) else c)
        (ascii_lower r)
  end.

Section Provider.

(** The type of a decoded parameter schema (a [map[string]any]) and
    [json.Unmarshal] of a schema text into it; the lower-casing of a string
    that is not all ASCII ([strings.Map(unicode.ToLower, s)], which rests on
    the Unicode tables). *)
Variable Schema : Type.
Variable decodeSchema : string -> json_error + Schema.
Variable unicodeToLower : string -> string.

(** [strings.ToLower]. *)
Definition ToLower (s : string) : string :=
  if is_ascii s then ascii_lower s else unicodeToLower s.

(** [useMaxCompletionTokens]. *)
Definition useMaxCompletionTokens (model : string) : bool :=
  let model := ToLower model in
  HasPrefix model "gpt" || HasPrefix model "o1"
  || HasPrefix model "o3" || HasPrefix model "o4".

(** One round of the loop of [toToolParams] for a function tool. *)
Definition toToolParam (tool : Tool.t)
  : provider_error + FunctionDefinition.t Schema :=
  let f := Tool.Function tool in
  let fn params :=
    FunctionDefinition.mk (ToolFunction.Name f)
      (nonempty (ToolFunction.Description f)) (ToolFunction.Strict f) params in
  if (0 <? String.length (ToolFunction.ParametersJSONSchema f))%nat then
    match decodeSchema (ToolFunction.ParametersJSONSchema f) with
    | inl err => inl (ErrSchema err)
    | inr params => inr (fn (Some params))
    end
  else inr (fn None).

(** [toToolParams]: tools of another type than "function" are skipped. *)
Fixpoint toToolParams_list (tools : list Tool.t)
  : provider_error + list (FunctionDefinition.t Schema) :=
  match tools with
  | [] => inr []
  | tool :: rest =>
      if negb (String.eqb (Tool.Type_ tool) "function")
      then toToolParams_list rest
      else
        match toToolParam tool with
        | inl err => inl err
        | inr fn =>
            match toToolParams_list rest with
            | inl err => inl err
            | inr out => inr (fn :: out)
            end
        end
  end.

Definition toToolParams (tools : slice Tool.t)
  : provider_error + list (FunctionDefinition.t Schema) :=
  toToolParams_list (elems tools).

(** The model [buildParams] uses: the request's, or the default one. *)
Definition effective_model (req : Request.t) (defaultModel : string) : string :=
  if String.eqb (Request.Model req) "" then defaultModel else Request.Model req.

(** [buildParams] (the provider of part_001). *)
Definition buildParams (req : Request.t) (defaultModel : string)
  : provider_error + NewParams.t Schema :=
  let model := effective_model req defaultModel in
  if String.eqb model "" then inl ErrModelRequired
  else
    match toMessages (Request.Messages req) with
    | inl err => inl err
    | inr messages =>
        let o := Request.Options req in
        let limit := Options.MaxTokens o in
        let completion := useMaxCompletionTokens model in
        let params tools :=
          NewParams.mk model messages
            (Options.Temperature o) (Options.TopP o)
            (if completion then None else limit)
            (if completion then limit else None)
            (if (0 <? len (Options.Stop o))%nat
             then Some (elems (Options.Stop o)) else None)
            (Options.PresencePenalty o) (Options.FrequencyPenalty o)
            (Options.User o) tools
            (option_map toToolChoice (Request.ToolChoice req)) in
        if (0 <? len (Request.Tools req))%nat then
          match toToolParams (Request.Tools req) with
          | inl err => inl err
          | inr tools => inr (params (Some tools))
          end
        else inr (params None)
    end.

End Provider.

Arguments toToolParam {Schema} decodeSchema tool.
Arguments toToolParams_list {Schema} decodeSchema tools.
Arguments toToolParams {Schema} decodeSchema tools.
Arguments buildParams {Schema} decodeSchema unicodeToLower req defaultModel.

(* ===================================================================== *)
(** ** Further operations on texts and on requests in memory *)
(* ===================================================================== *)

(** Whether [s] is made of ASCII white space only. *)
Fixpoint blank (s : string) : bool :=
  match s with
  | EmptyString => true
  | String c r => ascii_space c && blank r
  end.

(** The assignment [m[key] = value] on the map behind [p]; it panics ([None])
    on the nil map. *)
Definition map_assign (p : option Store.loc) (key : string) (value : any)
    (σ : Store.store) : option Store.store :=
  match p with
  | None => None
  | Some q =>
      Some (Store.mkStore (Store.messages σ) (Store.tools σ) (Store.choices σ)
              (<[q := <[key := value]> (default ∅ (Store.maps σ !! q))]>
                 (Store.maps σ)))
  end.

(** The five option maps of a request in memory. *)
Definition option_maps (r : Store.request) : list (option Store.loc) :=
  [Store.OpenAI r; Store.Azure r; Store.Anthropic r; Store.Bedrock r;
   Store.Susanoo r].

(** A store whose request has an OpenAI option map with one entry and an
    Azure option map without entries. *)
Definition store_with_maps : Store.store :=
  Store.mkStore (Store.messages Examples.store0) (Store.tools Examples.store0)
    (Store.choices Examples.store0)
    {[ 1%positive := {[ "seed" := AnyRef 7 ]}; 2%positive := ∅ ]}.

Definition request_with_maps : Store.request :=
  Store.mkRequest
    (Some (Store.mkHeader 1%positive 0 2 2)) "some-model"
    (Some (Store.mkHeader 1%positive 0 1 1)) (Some 1%positive)
    Examples.options_on (Some 1%positive) (Some 2%positive) None None None.

(** A decoder of parameter schemas for the examples: the text of a JSON
    object or of [null] decodes (to itself), other valid JSON is a type
    error. *)
Definition decode_text (schema : string) : json_error + string :=
  if Valid schema then
    match skip_ws schema with
    | String c _ =>
        if (code c =? 123)%N || (code c =? 110)%N then inr schema
        else inl UnmarshalTypeError
    | EmptyString => inl InvalidSyntax
    end
  else inl InvalidSyntax.

(** A function tool whose parameter schema is not valid JSON, and a request
    that offers it. *)
Definition broken_tool : Tool.t :=
  Tool.mk "function" (ToolFunction.mk "lookup" "" None "{type: object").

Definition broken_request : Request.t :=
  Request.mk (Some [Examples.user_message "Hi"]) "GPT-4o"
    (Some [broken_tool]) None
    (Options.mk None None (Some 256) None None None None true None
       None None None None None).

(* ===================================================================== *)
(** ** Facts about the store *)
(* ===================================================================== *)

Module StoreFacts.
Import Store.

Section Frame.
Context {V : Type}.
Implicit Types h g : gmap loc V.

(** A location fresh for a store is not allocated in a store it
    extends. *)
Lemma fresh_outside g h : g ⊆ h -> g !! fresh (dom h) = None.
Proof.
  intros Hsub. apply not_elem_of_dom. intros Hin.
  apply (is_fresh (dom h)). apply subseteq_dom in Hsub. set_solver.
Qed.

Lemma insert_outside g h p v :
  g ⊆ h -> g !! p = None -> g ⊆ <[p := v]> h.
Proof. intros Hsub Hp. by apply insert_subseteq_r. Qed.

Lemma insert_fresh_outside g h v : g ⊆ h -> g ⊆ <[fresh (dom h) := v]> h.
Proof. intros Hsub. apply insert_outside; [done|]. by apply fresh_outside. Qed.

Lemma lookup_extends g h p : g ⊆ h -> is_Some (g !! p) -> h !! p = g !! p.
Proof.
  intros Hsub [v Hv]. rewrite Hv. by eapply lookup_weaken.
Qed.
End Frame.

Section ArrayFrame.
Context {A : Type} (zero : A) (slack : nat -> nat -> nat).
Implicit Types h g : gmap loc (list A).
Implicit Types s : hslice.

Lemma literal_frame g h l s' h' :
  g ⊆ h -> literal h l = (s', h') -> g ⊆ h' /\ private g s'.
Proof.
  unfold literal, alloc. intros Hsub [= <- <-]. split.
  - by apply insert_fresh_outside.
  - simpl. by apply fresh_outside.
Qed.

Lemma append_slice_frame g h s xs s' h' :
  g ⊆ h -> private g s ->
  append_slice zero slack h s xs = (s', h') ->
  g ⊆ h' /\ private g s'.
Proof.
  intros Hsub Hpriv. unfold append_slice, alloc.
  destruct s as [hd|]; simpl in Hpriv.
  - destruct (_ <=? _)%nat; intros [= <- <-]; simpl.
    + split; [by apply insert_outside | done].
    + split; [by apply insert_fresh_outside | by apply fresh_outside].
  - destruct xs; intros [= <- <-]; simpl; [done|].
    split; [by apply insert_fresh_outside | by apply fresh_outside].
Qed.

Lemma reslice_private g s lo hi s' :
  private g s -> reslice s lo hi = Some s' -> private g s'.
Proof.
  unfold reslice. destruct s as [hd|]; simpl; intros Hpriv.
  - destruct (_ && _); intros [= <-]; done.
  - destruct (_ && _); intros [= <-]; done.
Qed.

(** No operation on a private slice touches the arrays of [g], and the
    slice stays private. *)
Lemma apply_op_frame g h op s s' h' :
  g ⊆ h -> private g s ->
  apply_op zero slack op s h = Some (s', h') ->
  g ⊆ h' /\ private g s'.
Proof.
  intros Hsub Hpriv. destruct op as [i x|xs|lo hi|i|l|]; simpl.
  - destruct s as [hd|]; [|done].
    destruct (_ <? _)%nat; [|done]. intros [= <- <-]; simpl in *.
    split; [by apply insert_outside | done].
  - intros [= Happ]. by eapply append_slice_frame.
  - destruct (reslice s lo hi) as [s1|] eqn:Hre; intros [= <- <-].
    split; [done|]. exact (reslice_private _ _ _ _ _ Hpriv Hre).
  - destruct (_ <? _)%nat; [|done].
    destruct (reslice s 0 i) as [front|] eqn:Hre; intros [= Happ].
    pose proof (reslice_private _ _ _ _ _ Hpriv Hre) as Hfront.
    by eapply append_slice_frame.
  - intros Hlit. eapply literal_frame; [done|]. by apply (inj Some).
  - intros [= <- <-]. done.
Qed.

(** A well-formed slice of [g] shows the same elements in every store
    that extends [g]. *)
Lemma view_extends g h s : g ⊆ h -> wf_slice g s -> view h s = view g s.
Proof.
  intros Hsub Hwf. destruct s as [hd|]; [|done]. simpl in *.
  destruct Hwf as (Halloc & _). unfold array_of.
  by rewrite (lookup_extends g h).
Qed.
End ArrayFrame.
End StoreFacts.

Module RequestFacts.
Import Store StoreFacts.

Section RequestFrame.
Variable slack : nat -> nat -> nat.

Lemma copy_slice_frame {A} (zero : A) (h : gmap loc (list A)) src s' h' :
  copy_slice slack zero h src = (s', h') -> h ⊆ h' /\ private h s'.
Proof.
  unfold copy_slice. destruct (literal h []) as [empty h1] eqn:Hlit.
  intros Happ.
  destruct (literal_frame h h [] empty h1) as [Hsub Hpriv]; [done..|].
  by eapply append_slice_frame.
Qed.

Lemma cloneJSONMap_frame h input out h' :
  cloneJSONMap h input = (out, h') -> h ⊆ h'.
Proof.
  unfold cloneJSONMap. destruct input as [q|]; [|by intros [= <- <-]].
  destruct (_ =? _)%nat; intros [= <- <-]; [done|].
  by apply insert_fresh_outside.
Qed.

Lemma cloneChoice_frame h p out h' :
  cloneChoice h p = (out, h') ->
  h ⊆ h' /\ match out with Some q => h !! q = None | None => True end.
Proof.
  unfold cloneChoice. destruct p as [q|]; intros [= <- <-]; [|done].
  split; [by apply insert_fresh_outside | by apply fresh_outside].
Qed.

(** The clone's messages, tools and tool choice are newly allocated, and
    cloning leaves what was allocated as it is. *)
Lemma cloneChatRequest_frame req σ c σ1 :
  cloneChatRequest slack req σ = (c, σ1) -> extends σ σ1 /\ separate σ c.
Proof.
  unfold cloneChatRequest.
  destruct (copy_slice slack zeroMessage _ _) as [ms hm] eqn:Hm.
  destruct (copy_slice slack zeroTool _ _) as [ts ht] eqn:Ht.
  destruct (cloneChoice _ _) as [tc hc] eqn:Hc.
  destruct (cloneJSONMap (maps σ) _) as [o1 h1] eqn:H1.
  destruct (cloneJSONMap h1 _) as [o2 h2] eqn:H2.
  destruct (cloneJSONMap h2 _) as [o3 h3] eqn:H3.
  destruct (cloneJSONMap h3 _) as [o4 h4] eqn:H4.
  destruct (cloneJSONMap h4 _) as [o5 h5] eqn:H5.
  intros [= <- <-].
  apply copy_slice_frame in Hm as [? ?], Ht as [? ?].
  apply cloneChoice_frame in Hc as [? ?].
  apply cloneJSONMap_frame in H1, H2, H3, H4, H5.
  repeat split; simpl; try done.
  by repeat (etrans; [eassumption|]).
Qed.

Lemma mutate_frame σ0 m c σ c' σ' :
  extends σ0 σ -> separate σ0 c ->
  mutate slack m c σ = Some (c', σ') ->
  extends σ0 σ' /\ separate σ0 c'.
Proof.
  intros (Hm & Ht & Hc & Hmaps) (Pm & Pt & Pc).
  destruct m as [op|op|mode|name|choice|]; simpl.
  - destruct (apply_op zeroMessage slack op _ _) as [[s h]|] eqn:Hop; [|done].
    intros [= <- <-].
    destruct (apply_op_frame _ _ _ _ _ _ _ _ Hm Pm Hop) as [? ?].
    by repeat split.
  - destruct (apply_op zeroTool slack op _ _) as [[s h]|] eqn:Hop; [|done].
    intros [= <- <-].
    destruct (apply_op_frame _ _ _ _ _ _ _ _ Ht Pt Hop) as [? ?].
    by repeat split.
  - unfold update_choice. destruct (ToolChoice c) as [p|] eqn:Hp; [|done].
    intros [= <- <-]. repeat split; simpl; try done.
    + by apply insert_outside.
    + by rewrite Hp.
  - unfold update_choice. destruct (ToolChoice c) as [p|] eqn:Hp; [|done].
    intros [= <- <-]. repeat split; simpl; try done.
    + by apply insert_outside.
    + by rewrite Hp.
  - intros [= <- <-]. repeat split; simpl; try done.
    + by apply insert_fresh_outside.
    + by apply fresh_outside.
  - intros [= <- <-]. by repeat split.
Qed.

Lemma mutate_all_frame σ0 ms : forall c σ c' σ',
  extends σ0 σ -> separate σ0 c ->
  mutate_all slack ms c σ = Some (c', σ') ->
  extends σ0 σ' /\ separate σ0 c'.
Proof.
  induction ms as [|m ms IH]; intros c σ c' σ' Hext Hsep; simpl.
  - by intros [= <- <-].
  - destruct (mutate slack m c σ) as [[c1 σ1]|] eqn:Hm; [|done].
    destruct (mutate_frame _ _ _ _ _ _ Hext Hsep Hm) as [? ?].
    by apply IH.
Qed.

Lemma load_choice_extends (h0 h : gmap loc ToolChoice.t) p :
  h0 ⊆ h -> allocated h0 p -> load_choice h p = load_choice h0 p.
Proof.
  intros Hsub Ha. destruct p as [q|]; [|done]. simpl in *.
  by rewrite (lookup_extends h0 h).
Qed.

Lemma load_map_extends (h0 h : gmap loc (gmap string any)) p :
  h0 ⊆ h -> allocated h0 p -> load_map h p = load_map h0 p.
Proof.
  intros Hsub Ha. destruct p as [q|]; [|done]. simpl in *.
  by rewrite (lookup_extends h0 h).
Qed.

(** A request without dangling references stands for the same value in
    every store that extends its own. *)
Lemma load_extends σ0 σ r :
  extends σ0 σ -> wf_request σ0 r -> load σ r = load σ0 r.
Proof.
  intros (Hm & Ht & Hc & Hmaps) (Wm & Wt & Wc & W1 & W2 & W3 & W4 & W5).
  unfold load.
  rewrite (view_extends _ _ _ Hm Wm), (view_extends _ _ _ Ht Wt).
  rewrite (load_choice_extends _ _ _ Hc Wc).
  by rewrite !(load_map_extends (maps σ0) (maps σ)).
Qed.
End RequestFrame.
End RequestFacts.

Module CloneFacts.
Import StoreFacts RequestFacts.

Section Agreement.
Variable slack : nat -> nat -> nat.

Lemma view_copy_slice {A} (zero : A) (h : gmap Store.loc (list A)) src s' h' :
  Store.copy_slice slack zero h src = (s', h') ->
  Store.view h' s' = Some (elems (Store.view h src)).
Proof.
  unfold Store.copy_slice, Store.literal, Store.alloc, Store.append_slice.
  simpl. destruct (elems (Store.view h src)) as [|x xs]; simpl.
  - by intros [= <- <-].
  - intros [= <- <-]. simpl. unfold Store.array_of.
    rewrite lookup_insert_eq. simpl. f_equal. f_equal.
    by rewrite take_app_length.
Qed.

Lemma load_cloneChoice (h : gmap Store.loc ToolChoice.t) p out h' :
  Store.cloneChoice h p = (out, h') ->
  Store.load_choice h' out = Store.load_choice h p.
Proof.
  unfold Store.cloneChoice. destruct p as [q|]; intros [= <- <-]; [|done].
  simpl. by rewrite lookup_insert_eq.
Qed.

Lemma load_cloneJSONMap (g h : gmap Store.loc (gmap string any)) input out h' :
  g ⊆ h -> Store.allocated g input ->
  Store.cloneJSONMap h input = (out, h') ->
  h ⊆ h' /\ Store.allocated h' out
  /\ Store.load_map h' out = cloneJSONMap (Store.load_map g input).
Proof.
  intros Hsub Ha. unfold Store.cloneJSONMap.
  destruct input as [q|]; simpl in *; [|by intros [= <- <-]].
  rewrite (lookup_extends g h q Hsub Ha).
  destruct (_ =? _)%nat eqn:Hsz; intros [= <- <-]; simpl.
  - done.
  - split; [by apply insert_fresh_outside|].
    rewrite lookup_insert_eq. split; [by eexists | done].
Qed.

(** The struct [Store.cloneChatRequest] builds stands for the value
    [cloneChatRequest] computes. *)
Lemma load_cloneChatRequest σ req c σ1 :
  Store.wf_request σ req ->
  Store.cloneChatRequest slack req σ = (c, σ1) ->
  Store.load σ1 c = cloneChatRequest (Store.load σ req).
Proof.
  intros (Wm & Wt & Wc & W1 & W2 & W3 & W4 & W5).
  unfold Store.cloneChatRequest.
  destruct (Store.copy_slice slack Store.zeroMessage _ _) as [ms hm] eqn:Hm.
  destruct (Store.copy_slice slack Store.zeroTool _ _) as [ts ht] eqn:Ht.
  destruct (Store.cloneChoice _ _) as [tc hc] eqn:Hc.
  destruct (Store.cloneJSONMap (Store.maps σ) _) as [o1 h1] eqn:H1.
  destruct (Store.cloneJSONMap h1 _) as [o2 h2] eqn:H2.
  destruct (Store.cloneJSONMap h2 _) as [o3 h3] eqn:H3.
  destruct (Store.cloneJSONMap h3 _) as [o4 h4] eqn:H4.
  destruct (Store.cloneJSONMap h4 _) as [o5 h5] eqn:H5.
  intros [= <- <-].
  apply view_copy_slice in Hm, Ht. apply load_cloneChoice in Hc.
  set (g := Store.maps σ) in *.
  destruct (load_cloneJSONMap g g _ _ _ (reflexivity _) W1 H1) as (S1 & A1 & L1).
  destruct (load_cloneJSONMap g h1 _ _ _ S1 W2 H2) as (S2 & A2 & L2).
  assert (g ⊆ h2) as G2 by (by etrans).
  destruct (load_cloneJSONMap g h2 _ _ _ G2 W3 H3) as (S3 & A3 & L3).
  assert (g ⊆ h3) as G3 by (by etrans).
  destruct (load_cloneJSONMap g h3 _ _ _ G3 W4 H4) as (S4 & A4 & L4).
  assert (g ⊆ h4) as G4 by (by etrans).
  destruct (load_cloneJSONMap g h4 _ _ _ G4 W5 H5) as (S5 & A5 & L5).
  unfold Store.load, cloneChatRequest, cloneOptions. simpl.
  rewrite Hm, Ht, Hc, L5.
  rewrite (load_map_extends h4 h5 o4 S5 A4), L4.
  assert (h3 ⊆ h5) as T3 by (by etrans).
  rewrite (load_map_extends h3 h5 o3 T3 A3), L3.
  assert (h2 ⊆ h5) as T2 by (by etrans).
  rewrite (load_map_extends h2 h5 o2 T2 A2), L2.
  assert (h1 ⊆ h5) as T1 by (by etrans).
  by rewrite (load_map_extends h1 h5 o1 T1 A1), L1.
Qed.
End Agreement.
End CloneFacts.

(* ===================================================================== *)
(** ** The scanner never runs out of fuel *)
(* ===================================================================== *)

Module ScanFacts.
Import Bytes GoStrings GoJSON.

Lemma skip_ws_le s : (String.length (skip_ws s) <= String.length s)%nat.
Proof.
  induction s as [|c s IH]; simpl; [lia|].
  destruct (isSpace c); simpl; lia.
Qed.

Lemma expect_lt n s r : expect n s = Some r -> (String.length r < String.length s)%nat.
Proof.
  destruct s as [|c s]; simpl; [done|].
  destruct (_ =? _)%N; [|done]. intros [= <-]. lia.
Qed.

Lemma string_body_lt : forall s r,
  string_body s = Some r -> (String.length r < String.length s)%nat.
Proof.
  fix IH 1. intros [|c s] r; simpl; [done|].
  destruct (code c =? 34)%N; [intros [= <-]; lia|].
  destruct (code c =? 92)%N.
  - destruct s as [|e s']; [done|].
    destruct (is_simple_escape e).
    + intros H. apply IH in H. simpl. lia.
    + destruct (code e =? 117)%N; [|done].
      destruct s' as [|h1 [|h2 [|h3 [|h4 s'']]]]; try done.
      destruct (_ && _); [|done].
      intros H. apply IH in H. simpl. lia.
  - destruct (code c <? 32)%N; [done|].
    intros H. apply IH in H. lia.
Qed.

Lemma digits_le s : (String.length (digits s) <= String.length s)%nat.
Proof.
  induction s as [|c s IH]; simpl; [lia|].
  destruct (is_digit c); simpl; lia.
Qed.

Lemma number_lt s r : number s = Some r -> (String.length r < String.length s)%nat.
Proof.
  unfold number.
  set (s1 := match s with String c r0 => if (code c =? 45)%N then r0 else s
                        | EmptyString => s end).
  assert (String.length s1 <= String.length s)%nat as Hs1.
  { subst s1. destruct s as [|c s]; simpl; [lia|].
    destruct (_ =? _)%N; simpl; lia. }
  destruct (number_int s1) as [r1|] eqn:Hint; [|done].
  assert (String.length r1 < String.length s1)%nat as H1.
  { unfold number_int in Hint. destruct s1 as [|c t]; [done|].
    destruct (_ =? _)%N; [injection Hint as <-; simpl; lia|].
    destruct (is_digit19 c); [|done]. injection Hint as <-.
    pose proof (digits_le t). simpl. lia. }
  destruct (number_frac r1) as [r2|] eqn:Hfrac; [|done].
  assert (String.length r2 <= String.length r1)%nat as H2.
  { unfold number_frac in Hfrac.
    destruct r1 as [|c t]; [injection Hfrac as <-; lia|].
    destruct (_ =? _)%N; [|injection Hfrac as <-; lia].
    destruct t as [|d t']; [done|]. destruct (is_digit d); [|done].
    injection Hfrac as <-. pose proof (digits_le t'). simpl. lia. }
  intros Hexp.
  assert (String.length r <= String.length r2)%nat as H3.
  { assert (forall t u, number_exp_digits t = Some u ->
                        String.length u <= String.length t)%nat as Hd.
    { intros [|d t] u; simpl; [done|]. destruct (is_digit d); [|done].
      intros [= <-]. pose proof (digits_le t). lia. }
    unfold number_exp in Hexp.
    destruct r2 as [|c t]; [injection Hexp as <-; lia|].
    destruct (_ || _); [|injection Hexp as <-; lia].
    destruct t as [|sg t']; [done|].
    destruct (_ || _); apply Hd in Hexp; simpl in *; lia. }
  lia.
Qed.

Lemma HasPrefix_drop : forall p s,
  HasPrefix s p = true ->
  (String.length (drop_bytes (String.length p) s) + String.length p
   = String.length s)%nat.
Proof.
  induction p as [|b p IH]; intros s; simpl; [lia|].
  destruct s as [|a s]; [done|]. simpl.
  destruct (Ascii.eqb a b); [|done]. simpl. intros H. apply IH in H. lia.
Qed.

Lemma keyword_lt lit s a r :
  (0 < String.length lit)%nat ->
  keyword lit s = Scanned a r ->
  (String.length r < String.length s)%nat.
Proof.
  unfold keyword. intros Hlit. destruct (HasPrefix s lit) eqn:Hp; [|done].
  intros [= <- <-]. apply HasPrefix_drop in Hp. lia.
Qed.

Lemma of_option_lt (f : string -> option string) s a r :
  (forall t u, f t = Some u -> String.length u < String.length t)%nat ->
  of_option (f s) = Scanned a r -> (String.length r < String.length s)%nat.
Proof.
  intros Hf. destruct (f s) as [u|] eqn:Hu; [|done].
  intros [= <- <-]. by apply Hf.
Qed.

(** With more fuel than twice the length of the input, the three scanning
    functions end with a result or a syntax error, and a result leaves a
    shorter rest. *)
Lemma scan_total : forall fuel depth s,
  ((2 * String.length s < fuel)%nat -> settled (value fuel depth s) s)
  /\ ((2 * String.length s < fuel)%nat -> settled (members fuel depth s) s)
  /\ ((2 * String.length s + 1 < fuel)%nat ->
      settled (elements fuel depth s) s).
Proof.
  unfold settled.
  induction fuel as [|f IH]; intros depth s; [repeat split; lia|].
  assert (forall d t, (2 * String.length t < f)%nat ->
            settled (value f d t) t) as IHv.
  { intros d t. apply IH. }
  assert (forall d t, (2 * String.length t < f)%nat ->
            settled (members f d t) t) as IHm.
  { intros d t. apply IH. }
  assert (forall d t, (2 * String.length t + 1 < f)%nat ->
            settled (elements f d t) t) as IHe.
  { intros d t. apply IH. }
  clear IH. split; [|split]; intros Hlen.
  - (* value *)
    simpl. destruct s as [|c r0]; [done|]. simpl in Hlen.
    destruct (code c =? 123)%N.
    { destruct (_ <=? _)%nat; [|done].
      pose proof (skip_ws_le r0) as Hws.
      destruct (expect 125 (skip_ws r0)) as [r'|] eqn:He.
      - apply expect_lt in He. split; [done|]. intros a r [= <- <-]. simpl. lia.
      - destruct (IHm (S depth) (skip_ws r0)) as [Hne Hlt]; [lia|].
        destruct (members f (S depth) (skip_ws r0)) as [| |ms r'] eqn:Hm; try done.
        split; [done|]. intros a r [= <- <-].
        specialize (Hlt ms r' eq_refl). simpl. lia. }
    destruct (code c =? 91)%N.
    { destruct (_ <=? _)%nat; [|done].
      pose proof (skip_ws_le r0) as Hws.
      destruct (expect 93 (skip_ws r0)) as [r'|] eqn:He.
      - apply expect_lt in He. split; [done|]. intros a r [= <- <-]. simpl. lia.
      - destruct (IHe (S depth) (skip_ws r0)) as [Hne Hlt]; [lia|].
        split; [done|]. intros a r Hr. apply Hlt in Hr. simpl. lia. }
    destruct (code c =? 34)%N.
    { split; [by destruct (string_body r0)|].
      intros a r Hr.
      apply (of_option_lt string_body r0 a r string_body_lt) in Hr. simpl. lia. }
    destruct (code c =? 116)%N.
    { split; [unfold keyword; by destruct (HasPrefix _ _)|].
      intros a r Hr. apply keyword_lt in Hr; [done|simpl; lia]. }
    destruct (code c =? 102)%N.
    { split; [unfold keyword; by destruct (HasPrefix _ _)|].
      intros a r Hr. apply keyword_lt in Hr; [done|simpl; lia]. }
    destruct (code c =? 110)%N.
    { split; [unfold keyword; by destruct (HasPrefix _ _)|].
      intros a r Hr. apply keyword_lt in Hr; [done|simpl; lia]. }
    destruct (_ || _); [|done].
    split; [by destruct (number _)|].
    intros a r Hr. by apply (of_option_lt number _ a r number_lt) in Hr.
  - (* members *)
    simpl. destruct (expect 34 s) as [r0|] eqn:E0; [|done].
    apply expect_lt in E0.
    destruct (string_body r0) as [r1|] eqn:E1; [|done].
    apply string_body_lt in E1.
    pose proof (skip_ws_le r1) as W1.
    destruct (expect 58 (skip_ws r1)) as [r2|] eqn:E2; [|done].
    apply expect_lt in E2.
    pose proof (skip_ws_le r2) as W2.
    destruct (IHv depth (skip_ws r2)) as [Hne Hlt]; [lia|].
    destruct (value f depth (skip_ws r2)) as [| |u r3] eqn:Hv; try done.
    specialize (Hlt u r3 eq_refl).
    pose proof (skip_ws_le r3) as W3.
    destruct (expect 44 (skip_ws r3)) as [r4|] eqn:E4.
    + apply expect_lt in E4. pose proof (skip_ws_le r4) as W4.
      destruct (IHm depth (skip_ws r4)) as [Hne' Hlt']; [lia|].
      destruct (members f depth (skip_ws r4)) as [| |ms r5] eqn:Hm; try done.
      split; [done|]. intros a r [= <- <-].
      specialize (Hlt' ms r5 eq_refl). lia.
    + destruct (expect 125 (skip_ws r3)) as [r4|] eqn:E5; [|done].
      apply expect_lt in E5. split; [done|]. intros a r [= <- <-]. lia.
  - (* elements *)
    simpl.
    destruct (IHv depth s) as [Hne Hlt]; [lia|].
    destruct (value f depth s) as [| |u r1] eqn:Hv; try done.
    specialize (Hlt u r1 eq_refl).
    pose proof (skip_ws_le r1) as W1.
    destruct (expect 44 (skip_ws r1)) as [r2|] eqn:E2.
    + apply expect_lt in E2. pose proof (skip_ws_le r2) as W2.
      destruct (IHe depth (skip_ws r2)) as [Hne' Hlt']; [lia|].
      split; [done|]. intros a r Hr. apply Hlt' in Hr. lia.
    + destruct (expect 93 (skip_ws r1)) as [r2|] eqn:E3; [|done].
      apply expect_lt in E3. split; [done|]. intros a r [= <- <-]. lia.
Qed.

(** [json.Valid] rejects an input only for a syntax error. *)
Lemma Valid_fuel data : value (fuel_for data) 0 (skip_ws data) <> OutOfFuel.
Proof.
  apply (scan_total (fuel_for data) 0 (skip_ws data)).
  unfold fuel_for. pose proof (skip_ws_le data). lia.
Qed.

(** Decoding the members of a payload that starts with a brace does not run
    out of fuel either. *)
Lemma object_fuel payload c body :
  skip_ws payload = String c body ->
  object (fuel_for payload) 1 body <> OutOfFuel.
Proof.
  intros Hskip. unfold object.
  destruct (expect 125 (skip_ws body)); [done|].
  apply (scan_total (fuel_for payload) 1 (skip_ws body)). unfold fuel_for.
  pose proof (skip_ws_le payload) as Hp. pose proof (skip_ws_le body) as Hb.
  rewrite Hskip in Hp. simpl in Hp. lia.
Qed.
End ScanFacts.

(* ===================================================================== *)
(** ** Facts about the request builders *)
(* ===================================================================== *)

Section BuilderFacts.
Variable marshalToolSpecs : list Tool.t -> string.
Variable quote : string -> string.

Lemma buildFinalRequest_stripped req : stripped (buildFinalRequest req).
Proof. by repeat split. Qed.

Lemma buildToolDecisionRequest_inv req d :
  buildToolDecisionRequest marshalToolSpecs quote req = inr d ->
  exists prompt,
    buildToolDecisionPrompt marshalToolSpecs quote req = inr prompt
    /\ d = Request.mk
             (Some (system_message prompt :: elems (Request.Messages req)))
             (Request.Model req) None None
             (emulation_off (cloneOptions (Request.Options req))).
Proof.
  unfold buildToolDecisionRequest.
  destruct (buildToolDecisionPrompt _ _ req) as [e|prompt]; [done|].
  intros [= <-]. by exists prompt.
Qed.

Lemma buildToolDecisionRequest_stripped req d :
  buildToolDecisionRequest marshalToolSpecs quote req = inr d -> stripped d.
Proof.
  intros (prompt & _ & ->)%buildToolDecisionRequest_inv. by repeat split.
Qed.

(** A decision request differs from the request it is built from whenever
    that request has tools. *)
Lemma buildToolDecisionRequest_fresh req d :
  len (Request.Tools req) <> 0%nat ->
  buildToolDecisionRequest marshalToolSpecs quote req = inr d -> d <> req.
Proof.
  intros Hlen (prompt & _ & ->)%buildToolDecisionRequest_inv Heq.
  apply Hlen. by rewrite <- Heq.
Qed.
(** [toolExists] holds exactly when some tool of the list has the type
    "function" and the given name. *)
Lemma toolExists_iff tools name :
  toolExists tools name = true
  <-> Exists (fun t => Tool.Type_ t = "function"
                       /\ ToolFunction.Name (Tool.Function t) = name)
        (elems tools).
Proof.
  unfold toolExists. induction (elems tools) as [|t ts IH]; simpl.
  - split; [done|]. by intros H%Exists_nil.
  - rewrite Exists_cons.
    destruct (String.eqb (Tool.Type_ t) "function") eqn:Et; simpl.
    + apply String.eqb_eq in Et.
      destruct (String.eqb (ToolFunction.Name (Tool.Function t)) name) eqn:En.
      * apply String.eqb_eq in En. split; [by left|done].
      * apply String.eqb_neq in En. rewrite IH. split; [by right|].
        by intros [[_ ?]|?].
    + apply String.eqb_neq in Et. rewrite IH. split; [by right|].
      by intros [[? _]|?].
Qed.
End BuilderFacts.

(* ===================================================================== *)
(** ** Facts about the orchestrator *)
(* ===================================================================== *)

Section OrchestratorFacts.
Variable marshalToolSpecs : list Tool.t -> string.
Variable quote : string -> string.
Variable Upstream : Type.
Variable provider : string -> Request.t -> Upstream -> reply * Upstream.

(** A request the decision request can be built for has tools. *)
Lemma decision_request_needs_tools req d :
  buildToolDecisionRequest marshalToolSpecs quote req = inr d -> len (Request.Tools req) <> 0%nat.
Proof.
  intros (prompt & Hp & _)%buildToolDecisionRequest_inv.
  unfold buildToolDecisionPrompt in Hp. unfold len.
  destruct (elems (Request.Tools req)); [done|]. simpl. lia.
Qed.

(** The run of the orchestrator once the decision call has returned a
    result without an error. *)
Lemma emulate_after_decision providerName req now w d decisionResp u :
  buildToolDecisionRequest marshalToolSpecs quote req = inr d ->
  provider providerName d (upstream w) = ((Some decisionResp, None), u) ->
  chatWithToolEmulation marshalToolSpecs quote provider providerName req now w
  = match parseToolDecision (Result.Text decisionResp) with
    | inl err => (Return None (Some err), mkWorld (calls w ++ [d]) u)
    | inr (toolName, args) =>
        if String.eqb toolName "" then
          if expects_tool (Request.ToolChoice req)
          then (Return None (Some ErrExpectedToolCall),
                mkWorld (calls w ++ [d]) u)
          else
            let (r, u') := provider providerName (buildFinalRequest req) u in
            (Return (option_map add_warning (fst r)) (snd r),
             mkWorld ((calls w ++ [d]) ++ [buildFinalRequest req]) u')
        else if negb (toolExists (Request.Tools req) toolName) then
          (Return None (Some (ErrToolNotFound toolName)),
           mkWorld (calls w ++ [d]) u)
        else
          let call := emulated_call now toolName args in
          (Return
             (Some (Result.mk "" (Result.Model decisionResp) (Some [call])
                      (Some [Message.mk RoleAssistant "" "" "" (Some [call])])
                      (Result.Usage decisionResp) (Result.Raw decisionResp)
                      (Some [warning])))
             None,
           mkWorld (calls w ++ [d]) u)
    end.
Proof.
  intros Hd Hp. pose proof (decision_request_needs_tools _ _ Hd) as Hlen.
  unfold chatWithToolEmulation.
  destruct (len (Request.Tools req) =? 0)%nat eqn:E;
    [apply Nat.eqb_eq in E; done|].
  rewrite Hd. unfold bind, chatOnce at 1. rewrite Hp.
  destruct (parseToolDecision _) as [err|[toolName args]]; [done|].
  destruct (String.eqb toolName ""); [|by destruct (negb _)].
  destruct (expects_tool _); [done|].
  unfold bind, chatOnce, ret. simpl.
  by destruct (provider providerName (buildFinalRequest req) u).
Qed.
End OrchestratorFacts.

(** The part of tool-choice enforcement the code has: under tool choice
    [required] or [function], a decision without a tool is an error, and no
    final call is made. *)
Lemma expected_tool_enforced marshalToolSpecs quote Upstream
    (provider : string -> Request.t -> Upstream -> reply * Upstream)
    providerName req now w d decisionResp u args :
  buildToolDecisionRequest marshalToolSpecs quote req = inr d ->
  provider providerName d (upstream w) = ((Some decisionResp, None), u) ->
  parseToolDecision (Result.Text decisionResp) = inr ("", args) ->
  expects_tool (Request.ToolChoice req) = true ->
  chatWithToolEmulation marshalToolSpecs quote provider providerName req now w
  = (Return None (Some ErrExpectedToolCall), mkWorld (calls w ++ [d]) u).
Proof.
  intros Hd Hp Hparse Hexp.
  by rewrite (emulate_after_decision _ _ _ _ _ _ _ _ _ _ _ Hd Hp), Hparse, Hexp.
Qed.

(** The decimal digits of a natural number. *)
Lemma pretty_N_go_digits x : forall s,
  Bytes.all_digits s = true -> Bytes.all_digits (pretty_N_go x s) = true.
Proof.
  induction (N.lt_wf_0 x) as [x _ IH]; intros s Hs.
  destruct (decide (x = 0)%N) as [->|Hx]; [by rewrite pretty_N_go_0|].
  rewrite pretty_N_go_step by lia. apply IH.
  - apply N.div_lt; lia.
  - simpl. rewrite Hs, andb_true_r.
    unfold pretty_N_char. by repeat case_match.
Qed.

Lemma pretty_Z_digits (z : Z) : 0 <= z -> Bytes.all_digits (pretty z) = true.
Proof.
  intros Hz. destruct z as [|p|p]; [done| |lia].
  unfold pretty, pretty_Z, pretty, pretty_positive, pretty, pretty_N.
  case_decide; [done|]. by apply pretty_N_go_digits.
Qed.

(* ===================================================================== *)
(** ** Facts about the decision parser *)
(* ===================================================================== *)

(** A payload [extractJSONPayload] returns is valid JSON. *)
Lemma extractJSONPayload_valid text payload :
  extractJSONPayload text = inr payload -> Valid payload = true.
Proof.
  unfold extractJSONPayload.
  destruct (String.eqb (TrimSpace text) ""); [done|].
  set (trimmed := if HasPrefix _ _ then _ else _).
  destruct (Valid trimmed) eqn:Hv; [by intros [= <-]|].
  destruct (_ && _); [|done].
  destruct (Valid (substr _ _ _)) eqn:Hc; [by intros [= <-]|done].
Qed.

(** Members whose keys do not select the field [tool] leave it as it is. *)
Lemma store_members_keep_tool ms : forall d,
  Forall (fun m => key_matches "tool" (fst m) = false) ms ->
  Tool (fold_left store_member ms d) = Tool d.
Proof.
  induction ms as [|m ms IH]; intros d Hall; [done|].
  inversion Hall as [|? ? Hm Hms]; subst. simpl.
  rewrite (IH _ Hms). unfold store_member. rewrite Hm.
  by destruct (key_matches "arguments" (fst m)).
Qed.

(** A key that selects the field [tool] does not select the field
    [arguments]. *)
Lemma key_matches_tool_not_arguments key :
  key_matches "tool" key = true -> key_matches "arguments" key = false.
Proof.
  unfold key_matches. intros [H|H]%orb_true_iff; apply String.eqb_eq in H.
  - rewrite H. reflexivity.
  - rewrite H. apply orb_false_iff. split; [|reflexivity].
    apply String.eqb_neq. intros Hk. rewrite Hk in H. discriminate H.
Qed.

(** Decoding the members of an object leaves in each field the value of
    the last member whose key selects it. *)
Lemma store_members_value ms : forall d,
  fold_left store_member ms d
  = mkDecision (member_value_from (Tool d) "tool" ms)
      (member_value_from (Arguments d) "arguments" ms).
Proof.
  unfold member_value_from.
  induction ms as [|m ms IH]; intros d; [by destruct d|].
  cbn [fold_left]. rewrite IH. unfold store_member.
  destruct (key_matches "tool" (fst m)) eqn:Ht.
  - by rewrite (key_matches_tool_not_arguments _ Ht).
  - by destruct (key_matches "arguments" (fst m)).
Qed.

(** The struct decoded from a payload that is an object. *)
Lemma Unmarshal_decision_object text payload body ms rest :
  extractJSONPayload text = inr payload ->
  skip_ws payload = String "{" body ->
  object (fuel_for payload) 1 body = Scanned ms rest ->
  Unmarshal_decision payload
  = inr (mkDecision (member_value "tool" ms) (member_value "arguments" ms)).
Proof.
  intros Hext Hskip Hobj. unfold Unmarshal_decision.
  rewrite (extractJSONPayload_valid _ _ Hext), Hskip. simpl. rewrite Hobj.
  by rewrite store_members_value.
Qed.

(** No value is left in a field no key selects. *)
Lemma member_value_none name ms :
  Forall (fun m => key_matches name (fst m) = false) ms ->
  member_value name ms = "".
Proof.
  unfold member_value, member_value_from. generalize "".
  induction ms as [|m ms IH]; intros v Hall; [done|].
  inversion Hall as [|? ? Hm Hms]; subst. cbn [fold_left]. rewrite Hm.
  by apply IH.
Qed.

(** The primary forms are accepted, and the empty array form yields no tool
    as a null tool does. *)
Example primary_forms :
  parseToolDecision Examples.decision_x = inr ("x", (json_text "{'a':1}"))
  /\ parseToolDecision Examples.null_text = inr ("", "{}")
  /\ parseToolDecision Examples.empty_array_text = inr ("", "")
  /\ parseToolDecision (json_text "{'tool':null}") = inr ("", "").
Proof. repeat split; vm_compute; reflexivity. Qed.

(* ===================================================================== *)
(** ** The claims *)
(* ===================================================================== *)

(** C1 (as the code has it). For a request with tools the orchestrator makes
    no probe call: when the decision request can be built, it is the first
    request sent to the provider, and it differs from the request; when it
    cannot be built, the error is returned without any provider call. *)
Theorem first_call_is_decision_request marshalToolSpecs quote Upstream
    (provider : string -> Request.t -> Upstream -> reply * Upstream)
    providerName req now w :
  len (Request.Tools req) <> 0%nat ->
  match buildToolDecisionRequest marshalToolSpecs quote req with
  | inl err =>
      chatWithToolEmulation marshalToolSpecs quote provider providerName req now w
      = (Return None (Some err), w)
  | inr d =>
      d <> req
      /\ exists rest,
           calls (snd (chatWithToolEmulation marshalToolSpecs quote provider
                         providerName req now w))
           = (calls w ++ d :: rest)%list
  end.
Proof.
  intros Hlen. unfold chatWithToolEmulation.
  destruct (len (Request.Tools req) =? 0)%nat eqn:E;
    [apply Nat.eqb_eq in E; done|].
  destruct (buildToolDecisionRequest _ _ req) as [err|d] eqn:Hd; [done|].
  split; [by eapply buildToolDecisionRequest_fresh|].
  unfold bind, chatOnce at 1.
  destruct (provider providerName d (upstream w)) as [[resp err] u].
  destruct resp as [decisionResp|], err as [e|];
    try (exists []; reflexivity).
  destruct (parseToolDecision _) as [e|[toolName args]];
    [exists []; reflexivity|].
  destruct (String.eqb toolName "");
    [|destruct (negb _); exists []; reflexivity].
  destruct (expects_tool _); [exists []; reflexivity|].
  unfold bind, chatOnce, ret. simpl.
  destruct (provider providerName (buildFinalRequest req) u) as [r u'].
  exists [buildFinalRequest req]. simpl. by rewrite <- app_assoc.
Qed.

(** Witness of [first_call_is_decision_request]. *)
Lemma first_call_is_decision_request_witness :
  exists d,
    buildToolDecisionRequest Examples.marshal_names Examples.quote_plain
      (Examples.weather_request Examples.choice_auto) = inr d
    /\ d <> Examples.weather_request Examples.choice_auto
    /\ exists rest,
         calls (snd (Examples.run_native
                       (Examples.weather_request Examples.choice_auto)))
         = d :: rest.
Proof.
  eexists. split; [reflexivity|].
  exact (first_call_is_decision_request Examples.marshal_names
           Examples.quote_plain unit Examples.native_provider "vendor"
           (Examples.weather_request Examples.choice_auto) Examples.now
           (mkWorld [] tt) ltac:(discriminate)).
Defined.

(** C1, counterexample. The provider answers every request with a result
    that carries a tool call. For a request with tools the orchestrator does
    not send the request itself: its only call is the decision request, and
    it returns the parse error of the reply's empty text, not the reply. *)
Lemma probe_call_counterexample :
  let req := Examples.weather_request Examples.choice_auto in
  let run := Examples.run_native req in
  len (Request.Tools req) <> 0%nat
  /\ Examples.native_provider "vendor" req tt
     = ((Some Examples.native_result, None), tt)
  /\ len (Result.ToolCalls Examples.native_result) <> 0%nat
  /\ ~ In req (calls (snd run))
  /\ fst run <> Return (Some Examples.native_result) None
  /\ fst run = Return None (Some ErrEmptyToolDecision).
Proof.
  repeat split; try discriminate.
  vm_compute. intros [H|[]]. discriminate H.
Qed.

(** C2 (as the code has it). The decision request is the clone of the
    request with [Tools] and [ToolChoice] cleared and emulation switched off,
    and with the synthesized system message prepended to all the messages of
    the request: system messages of the request are kept, so the decision
    request has one system message more than the request. *)
Theorem decision_request_shape marshalToolSpecs quote req d :
  buildToolDecisionRequest marshalToolSpecs quote req = inr d ->
  exists prompt,
    buildToolDecisionPrompt marshalToolSpecs quote req = inr prompt
    /\ Request.Messages d
       = Some (system_message prompt :: elems (Request.Messages req))
    /\ Request.Tools d = None
    /\ Request.ToolChoice d = None
    /\ Request.Model d = Request.Model req
    /\ Request.Options d = emulation_off (cloneOptions (Request.Options req))
    /\ length (filter (fun m => is_system m = true) (elems (Request.Messages d)))
       = S (length (filter (fun m => is_system m = true)
                      (elems (Request.Messages req)))).
Proof.
  intros (prompt & Hp & ->)%buildToolDecisionRequest_inv.
  exists prompt. repeat split; try done.
Qed.

(** Witness of [decision_request_shape]. *)
Lemma decision_request_shape_witness :
  exists d prompt,
    buildToolDecisionRequest Examples.marshal_names Examples.quote_plain
      (Examples.weather_request Examples.choice_auto) = inr d
    /\ Request.Messages d
       = Some [system_message prompt; system_message "Be brief.";
               Examples.user_message "Weather in Tokyo?"].
Proof.
  eexists.
  destruct (decision_request_shape Examples.marshal_names Examples.quote_plain
              (Examples.weather_request Examples.choice_auto) _ eq_refl)
    as (prompt & _ & Hm & _).
  exists prompt. split; [reflexivity|]. exact Hm.
Defined.

(** C2, counterexample. The request has a system message; the decision
    request built from it has two system messages, the synthesized one and
    the one of the request. *)
Lemma decision_request_keeps_system_messages :
  exists d,
    buildToolDecisionRequest Examples.marshal_names Examples.quote_plain
      (Examples.weather_request Examples.choice_auto) = inr d
    /\ length (filter (fun m => is_system m = true) (elems (Request.Messages d)))
       = 2%nat
    /\ In (system_message "Be brief.") (elems (Request.Messages d)).
Proof.
  eexists. split; [reflexivity|]. split; [reflexivity|].
  simpl. right. by left.
Qed.

(** C3, the code at the failing input. Under tool choice [none] the decision
    names the tool [get_weather]: the orchestrator returns the synthesized
    tool call and no error. *)
Theorem tool_choice_none_not_enforced :
  exists call,
    fst (Examples.run_scripted (Examples.weather_request Examples.choice_none)
           [(Some (Examples.text_result Examples.weather_decision), None)])
    = Return
        (Some (Result.mk "" "vendor-model" (Some [call])
                 (Some [Message.mk RoleAssistant "" "" "" (Some [call])])
                 (Usage.mk 10 5 15) (AnyRef 1) (Some ["tool calls emulated"])))
        None
    /\ ToolCallFunction.Name (ToolCall.Function call) = "get_weather".
Proof. eexists. split; vm_compute; reflexivity. Qed.

(** C4, the code at the failing input. Under tool choice [function] with the
    target [get_weather] the decision names [other_tool], another tool of the
    request: the orchestrator returns a tool call of [other_tool] and no
    error. *)
Theorem tool_choice_function_other_tool_accepted :
  toolExists (Request.Tools (Examples.weather_request Examples.choice_get_weather))
    "other_tool" = true
  /\ exists call,
    fst (Examples.run_scripted
           (Examples.weather_request Examples.choice_get_weather)
           [(Some (Examples.text_result Examples.other_decision), None)])
    = Return
        (Some (Result.mk "" "vendor-model" (Some [call])
                 (Some [Message.mk RoleAssistant "" "" "" (Some [call])])
                 (Usage.mk 10 5 15) (AnyRef 1) (Some ["tool calls emulated"])))
        None
    /\ ToolCallFunction.Name (ToolCall.Function call) = "other_tool".
Proof. split; [reflexivity|]. eexists. split; vm_compute; reflexivity. Qed.

(** C5 (as the code has it). The parser reads the members of the decision
    object whose keys select the fields [tool] and [arguments] (the key
    itself or, failing that, the key up to letter case; the last such member
    when a key is repeated) and nothing else: the struct it decodes holds
    the values of these two members; two decision objects with the same
    values of these two members are parsed to the same result, whatever
    other members they hold; and when no key selects [tool], whatever else
    the object holds (a member [tools] with an array of decisions, empty or
    not), the result is "no tool", without an error. *)
Theorem parseToolDecision_reads_tool_member_only text payload body ms rest :
  extractJSONPayload text = inr payload ->
  skip_ws payload = String "{" body ->
  object (fuel_for payload) 1 body = Scanned ms rest ->
  Unmarshal_decision payload
  = inr (mkDecision (member_value "tool" ms) (member_value "arguments" ms))
  /\ (forall text' payload' body' ms' rest',
        extractJSONPayload text' = inr payload' ->
        skip_ws payload' = String "{" body' ->
        object (fuel_for payload') 1 body' = Scanned ms' rest' ->
        member_value "tool" ms' = member_value "tool" ms ->
        member_value "arguments" ms' = member_value "arguments" ms ->
        parseToolDecision text' = parseToolDecision text)
  /\ (Forall (fun m => key_matches "tool" (fst m) = false) ms ->
      parseToolDecision text = inr ("", member_value "arguments" ms)).
Proof.
  intros Hext Hskip Hobj.
  pose proof (Unmarshal_decision_object _ _ _ _ _ Hext Hskip Hobj) as Hdec.
  split; [done|]. split.
  - intros text' payload' body' ms' rest' Hext' Hskip' Hobj' Htool Hargs.
    pose proof (Unmarshal_decision_object _ _ _ _ _ Hext' Hskip' Hobj')
      as Hdec'.
    unfold parseToolDecision. rewrite Hext, Hext', Hdec, Hdec'.
    by rewrite Htool, Hargs.
  - intros Hall. unfold parseToolDecision. rewrite Hext, Hdec.
    by rewrite (member_value_none _ _ Hall).
Qed.

(** Witness of [parseToolDecision_reads_tool_member_only]: a decision for
    [x] with members the parser has no field for and with the key of the
    tool in upper case is parsed as the primary form of the decision is;
    the array form with one decision yields no tool. *)
Lemma parseToolDecision_reads_tool_member_only_witness :
  parseToolDecision Examples.noisy_decision
  = inr ("x", (json_text "{'a':1}"))
  /\ parseToolDecision Examples.array_text = inr ("", "").
Proof.
  split.
  - destruct (parseToolDecision_reads_tool_member_only
                Examples.noisy_decision Examples.noisy_decision
                (json_text
                   "'note':'hi','arguments':{'a':1},'tools':[],'TOOL':'x','id':7}")
                [((json_text "'note'"), (json_text "'hi'"));
                 ((json_text "'arguments'"), (json_text "{'a':1}"));
                 ((json_text "'tools'"), "[]");
                 ((json_text "'TOOL'"), (json_text "'x'"));
                 ((json_text "'id'"), "7")] ""
                eq_refl eq_refl eq_refl) as (_ & Hsame & _).
    rewrite <- (Hsame Examples.decision_x Examples.decision_x
                  (json_text "'tool':'x','arguments':{'a':1}}")
                  [((json_text "'tool'"), (json_text "'x'"));
                   ((json_text "'arguments'"), (json_text "{'a':1}"))] ""
                  eq_refl eq_refl eq_refl eq_refl eq_refl).
    vm_compute. reflexivity.
  - destruct (parseToolDecision_reads_tool_member_only Examples.array_text
                Examples.array_text
                (json_text "'tools':[{'tool':'x','arguments':{'a':1}}]}")
                [((json_text "'tools'"),
                  (json_text "[{'tool':'x','arguments':{'a':1}}]"))] ""
                eq_refl eq_refl eq_refl) as (_ & _ & Hnone).
    apply Hnone. repeat constructor.
Defined.

(** C5, counterexample. The array form whose first element names the tool
    [x] is parsed as "no tool", not as the decision for [x]; the primary
    form of the same decision yields [x]. *)
Lemma tools_array_is_not_consulted :
  parseToolDecision Examples.array_text = inr ("", "")
  /\ parseToolDecision Examples.decision_x = inr ("x", (json_text "{'a':1}"))
  /\ parseToolDecision Examples.array_text
     <> parseToolDecision Examples.decision_x.
Proof.
  split; [vm_compute; reflexivity|]. split; [vm_compute; reflexivity|].
  vm_compute. discriminate.
Qed.

(** C6. When the decision names a tool and some tool of the request has the
    type "function" and that name, the orchestrator returns, after the
    decision call and without another provider call, a result with exactly
    one tool call of that name and with the decided arguments, with empty
    text, with the model, the usage and the raw payload of the decision
    call's result, and with the warnings ["tool calls emulated"]; when no
    tool of the request has the type "function" and that name, it returns
    an error and no result, again without another provider call. *)
Theorem emulated_tool_call_result marshalToolSpecs quote Upstream
    (provider : string -> Request.t -> Upstream -> reply * Upstream)
    providerName req now w d decisionResp u toolName args :
  buildToolDecisionRequest marshalToolSpecs quote req = inr d ->
  provider providerName d (upstream w) = ((Some decisionResp, None), u) ->
  parseToolDecision (Result.Text decisionResp) = inr (toolName, args) ->
  toolName <> "" ->
  (Exists (fun t => Tool.Type_ t = "function"
                    /\ ToolFunction.Name (Tool.Function t) = toolName)
     (elems (Request.Tools req)) ->
   chatWithToolEmulation marshalToolSpecs quote provider providerName req now w
   = (let call :=
        ToolCall.mk (callID now) "function"
          (ToolCallFunction.mk toolName args) in
      Return
        (Some (Result.mk "" (Result.Model decisionResp) (Some [call])
                 (Some [Message.mk RoleAssistant "" "" "" (Some [call])])
                 (Result.Usage decisionResp) (Result.Raw decisionResp)
                 (Some ["tool calls emulated"])))
        None,
      mkWorld (calls w ++ [d]) u))
  /\ (~ Exists (fun t => Tool.Type_ t = "function"
                         /\ ToolFunction.Name (Tool.Function t) = toolName)
         (elems (Request.Tools req)) ->
      chatWithToolEmulation marshalToolSpecs quote provider providerName
        req now w
      = (Return None (Some (ErrToolNotFound toolName)),
         mkWorld (calls w ++ [d]) u)).
Proof.
  intros Hd Hp Hparse Hname.
  rewrite (emulate_after_decision _ _ _ _ _ _ _ _ _ _ _ Hd Hp), Hparse.
  apply String.eqb_neq in Hname. rewrite Hname.
  split; intros Hex.
  - apply toolExists_iff in Hex. by rewrite Hex.
  - destruct (toolExists (Request.Tools req) toolName) eqn:E; [|done].
    by apply toolExists_iff in E.
Qed.

(** Witness of [emulated_tool_call_result]: the end-to-end run with the tool
    [get_weather] under tool choice [auto]; and the run in which the
    decision names [search], which the request offers as a tool of the type
    "retrieval" only. *)
Lemma emulated_tool_call_result_witness :
  fst (Examples.run_scripted (Examples.weather_request Examples.choice_auto)
         [(Some (Examples.text_result Examples.weather_decision), None)])
  = Return
      (Some (Result.mk "" "vendor-model"
               (Some [ToolCall.mk "emulated_1700000000000000000" "function"
                        (ToolCallFunction.mk "get_weather" (json_text "{'city':'Tokyo'}"))])
               (Some [Message.mk RoleAssistant "" "" ""
                        (Some [ToolCall.mk "emulated_1700000000000000000" "function"
                                 (ToolCallFunction.mk "get_weather"
                                    (json_text "{'city':'Tokyo'}"))])])
               (Usage.mk 10 5 15) (AnyRef 1) (Some ["tool calls emulated"])))
      None
  /\ fst (Examples.run_scripted Examples.mixed_request
            [(Some (Examples.text_result Examples.search_decision), None)])
     = Return None (Some (ErrToolNotFound "search")).
Proof.
  split.
  - pose proof (proj1
                  (emulated_tool_call_result Examples.marshal_names
                     Examples.quote_plain (list reply)
                     Examples.scripted_provider "vendor"
                     (Examples.weather_request Examples.choice_auto)
                     Examples.now
                     (mkWorld []
                        [(Some (Examples.text_result Examples.weather_decision),
                          None)])
                     _ (Examples.text_result Examples.weather_decision) []
                     "get_weather" (json_text "{'city':'Tokyo'}")
                     eq_refl eq_refl eq_refl ltac:(discriminate))
                  ltac:(left; split; reflexivity)) as H.
    unfold Examples.run_scripted. etrans; [exact (f_equal fst H)|].
    vm_compute. reflexivity.
  - pose proof (proj2
                  (emulated_tool_call_result Examples.marshal_names
                     Examples.quote_plain (list reply)
                     Examples.scripted_provider "vendor"
                     Examples.mixed_request Examples.now
                     (mkWorld []
                        [(Some (Examples.text_result Examples.search_decision),
                          None)])
                     _ (Examples.text_result Examples.search_decision) []
                     "search" "{}"
                     eq_refl eq_refl eq_refl ltac:(discriminate))) as H.
    unfold Examples.run_scripted. etrans; [apply (f_equal fst), H|reflexivity].
    intros Hex. apply Exists_cons in Hex as [[_ Hn]|Hex]; [discriminate Hn|].
    apply Exists_cons in Hex as [[Ht _]|Hex]; [discriminate Ht|].
    by apply Exists_nil in Hex.
Defined.

(** C7 (as the code has it). The identifier of a synthesized tool call is
    the prefix ["emulated_"] followed by the decimal nanosecond timestamp and
    nothing else: after the prefix come only decimal digits (for a time not
    before 1970), so there is no underscore and no index. *)
Theorem emulated_call_identifier marshalToolSpecs quote Upstream
    (provider : string -> Request.t -> Upstream -> reply * Upstream)
    providerName req now w d decisionResp u toolName args :
  buildToolDecisionRequest marshalToolSpecs quote req = inr d ->
  provider providerName d (upstream w) = ((Some decisionResp, None), u) ->
  parseToolDecision (Result.Text decisionResp) = inr (toolName, args) ->
  toolName <> "" ->
  toolExists (Request.Tools req) toolName = true ->
  exists result call,
    fst (chatWithToolEmulation marshalToolSpecs quote provider providerName
           req now w) = Return (Some result) None
    /\ Result.ToolCalls result = Some [call]
    /\ ToolCall.ID call = "emulated_" ++ pretty now
    /\ (0 <= now -> Bytes.all_digits (pretty now) = true).
Proof.
  intros Hd Hp Hparse Hname Hex.
  rewrite (emulate_after_decision _ _ _ _ _ _ _ _ _ _ _ Hd Hp), Hparse.
  apply String.eqb_neq in Hname. rewrite Hname, Hex. simpl.
  eexists _, _. repeat split. apply pretty_Z_digits.
Qed.

(** Witness of [emulated_call_identifier]. *)
Lemma emulated_call_identifier_witness :
  exists result call,
    fst (Examples.run_scripted (Examples.weather_request Examples.choice_auto)
           [(Some (Examples.text_result Examples.weather_decision), None)])
    = Return (Some result) None
    /\ Result.ToolCalls result = Some [call]
    /\ ToolCall.ID call = "emulated_" ++ pretty Examples.now
    /\ (0 <= Examples.now -> Bytes.all_digits (pretty Examples.now) = true).
Proof.
  exact (emulated_call_identifier Examples.marshal_names Examples.quote_plain
           (list reply) Examples.scripted_provider "vendor"
           (Examples.weather_request Examples.choice_auto) Examples.now
           (mkWorld [] [(Some (Examples.text_result Examples.weather_decision), None)])
           _ (Examples.text_result Examples.weather_decision) []
           "get_weather" (json_text "{'city':'Tokyo'}") eq_refl eq_refl eq_refl
           ltac:(discriminate) eq_refl).
Defined.

(** C7, counterexample. The identifier of the tool call synthesized at the
    time 1700000000000000000 is ["emulated_1700000000000000000"]: no
    underscore and index follow the timestamp. *)
Lemma emulated_identifier_has_no_index :
  exists result call,
    fst (Examples.run_scripted (Examples.weather_request Examples.choice_auto)
           [(Some (Examples.text_result Examples.weather_decision), None)])
    = Return (Some result) None
    /\ Result.ToolCalls result = Some [call]
    /\ ToolCall.ID call = "emulated_1700000000000000000"
    /\ ~ exists index : string,
           ToolCall.ID call
           = "emulated_" ++ pretty Examples.now ++ "_" ++ index.
Proof.
  eexists _, _. split; [vm_compute; reflexivity|].
  split; [reflexivity|]. split; [reflexivity|].
  intros [index H]. vm_compute in H. discriminate H.
Qed.

(** C8. The parser recovers the tool [x] and the arguments [{"a":1}] from
    the fenced text after a word of prose and from the sentence that embeds
    the object; in both cases the payload is the text from the first opening
    brace to the last closing brace (the trimmed text is not valid JSON and
    does not start with a fence). *)
Theorem parse_recovers_fenced_and_embedded :
  let fenced := TrimSpace Examples.fenced_text in
  let embedded := TrimSpace Examples.embedded_text in
  parseToolDecision Examples.fenced_text = inr ("x", (json_text "{'a':1}"))
  /\ parseToolDecision Examples.embedded_text = inr ("x", (json_text "{'a':1}"))
  /\ HasPrefix fenced fence = false
  /\ Valid fenced = false
  /\ extractJSONPayload Examples.fenced_text
     = inr (substr fenced (Index fenced "{") (LastIndex fenced "}" + 1))
  /\ extractJSONPayload Examples.fenced_text = inr Examples.decision_x
  /\ HasPrefix embedded fence = false
  /\ Valid embedded = false
  /\ extractJSONPayload Examples.embedded_text
     = inr (substr embedded (Index embedded "{") (LastIndex embedded "}" + 1))
  /\ extractJSONPayload Examples.embedded_text = inr Examples.decision_x.
Proof. repeat split; vm_compute; reflexivity. Qed.

(** C9. Whatever the holder of a clone does to the clone's messages, tools
    and tool choice (replacing, appending and removing elements, rewriting
    or replacing the tool choice), the original request stands for the same
    value as before cloning: in particular its messages, its tools and its
    tool choice are unchanged. *)
Theorem clone_isolates_original slack σ req c σ1 ms c' σ' :
  Store.wf_request σ req ->
  Store.cloneChatRequest slack req σ = (c, σ1) ->
  Store.mutate_all slack ms c σ1 = Some (c', σ') ->
  Store.load σ' req = Store.load σ req
  /\ Request.Messages (Store.load σ' req) = Request.Messages (Store.load σ req)
  /\ Request.Tools (Store.load σ' req) = Request.Tools (Store.load σ req)
  /\ Request.ToolChoice (Store.load σ' req)
     = Request.ToolChoice (Store.load σ req).
Proof.
  intros Hwf Hclone Hmut.
  destruct (RequestFacts.cloneChatRequest_frame _ _ _ _ _ Hclone) as [Hext Hsep].
  destruct (RequestFacts.mutate_all_frame _ _ _ _ _ _ _ Hext Hsep Hmut)
    as [Hext' _].
  pose proof (RequestFacts.load_extends _ _ _ Hext' Hwf) as Hload.
  by rewrite Hload.
Qed.

(** Witness of [clone_isolates_original]: after the mutations the clone has
    other messages, and the original stands for what it stood for. *)
Lemma clone_isolates_original_witness :
  exists c σ1 c' σ',
    Store.cloneChatRequest Examples.double Examples.request0 Examples.store0
    = (c, σ1)
    /\ Store.mutate_all Examples.double Examples.mutations0 c σ1 = Some (c', σ')
    /\ Request.Messages (Store.load σ' c')
       = Some [Examples.user_message "changed"; Examples.user_message "more"]
    /\ Request.Messages (Store.load σ' Examples.request0)
       = Some [system_message "Be brief."; Examples.user_message "Hi"]
    /\ Store.load σ' Examples.request0
       = Store.load Examples.store0 Examples.request0.
Proof.
  eexists _, _, _, _.
  split; [vm_compute; reflexivity|].
  split; [vm_compute; reflexivity|].
  split; [vm_compute; reflexivity|].
  split; [vm_compute; reflexivity|].
  eapply (clone_isolates_original Examples.double Examples.store0
            Examples.request0 _ _ Examples.mutations0).
  - repeat split; try exact I; try (eexists; vm_compute; reflexivity);
      vm_compute; lia.
  - vm_compute. reflexivity.
  - vm_compute. reflexivity.
Defined.

(** C10. Every request the orchestrator sends to the provider for a request
    with tools is the decision request or the final request, and has
    emulation switched off, nil tools and nil tool choice; there are at most
    two of them. *)
Theorem derived_requests_are_stripped marshalToolSpecs quote Upstream
    (provider : string -> Request.t -> Upstream -> reply * Upstream)
    providerName req now w :
  len (Request.Tools req) <> 0%nat ->
  exists sent,
    calls (snd (chatWithToolEmulation marshalToolSpecs quote provider
                  providerName req now w))
    = (calls w ++ sent)%list
    /\ Forall stripped sent
    /\ Forall (fun r =>
                 buildToolDecisionRequest marshalToolSpecs quote req = inr r
                 \/ r = buildFinalRequest req) sent
    /\ (length sent <= 2)%nat.
Proof.
  intros Hlen. unfold chatWithToolEmulation.
  destruct (len (Request.Tools req) =? 0)%nat eqn:E;
    [apply Nat.eqb_eq in E; done|].
  destruct (buildToolDecisionRequest _ _ req) as [err|d] eqn:Hd.
  { exists []. simpl. rewrite app_nil_r. repeat split; auto. }
  pose proof (buildToolDecisionRequest_stripped _ _ _ _ Hd) as Hs.
  assert (exists sent,
            (calls w ++ [d] = calls w ++ sent)%list
            /\ Forall stripped sent
            /\ Forall (fun r => @inr error Request.t d = inr r
                               \/ r = buildFinalRequest req) sent
            /\ (length sent <= 2)%nat) as Hone.
  { exists [d]. repeat split; simpl; auto. }
  unfold bind, chatOnce at 1.
  destruct (provider providerName d (upstream w)) as [[resp err] u].
  destruct resp as [decisionResp|], err as [e|]; try exact Hone.
  destruct (parseToolDecision _) as [e|[toolName args]]; [exact Hone|].
  destruct (String.eqb toolName ""); [|by destruct (negb _)].
  destruct (expects_tool _); [exact Hone|].
  unfold bind, chatOnce, ret. simpl.
  destruct (provider providerName (buildFinalRequest req) u) as [r u'].
  exists [d; buildFinalRequest req]. simpl. rewrite <- app_assoc.
  repeat split; simpl; auto using buildFinalRequest_stripped.
Qed.

(** Witness of [derived_requests_are_stripped]: a run with a decision call
    and a final call. *)
Lemma derived_requests_are_stripped_witness :
  exists sent,
    calls (snd (Examples.run_scripted
                  (Examples.weather_request Examples.choice_auto)
                  [(Some (Examples.text_result Examples.null_text), None);
                   (Some (Examples.text_result "Sunny."), None)]))
    = sent
    /\ Forall stripped sent
    /\ Forall (fun r =>
                 buildToolDecisionRequest Examples.marshal_names
                   Examples.quote_plain
                   (Examples.weather_request Examples.choice_auto) = inr r
                 \/ r = buildFinalRequest
                          (Examples.weather_request Examples.choice_auto)) sent
    /\ (length sent <= 2)%nat.
Proof.
  exact (derived_requests_are_stripped Examples.marshal_names
           Examples.quote_plain (list reply) Examples.scripted_provider
           "vendor" (Examples.weather_request Examples.choice_auto)
           Examples.now
           (mkWorld [] [(Some (Examples.text_result Examples.null_text), None);
                        (Some (Examples.text_result "Sunny."), None)])
           ltac:(discriminate)).
Defined.

(* ===================================================================== *)
(** ** Facts about strings *)
(* ===================================================================== *)

Module StringFacts.

Lemma app_cons c (s t : string) : String c s ++ t = String c (s ++ t).
Proof. reflexivity. Qed.

Lemma app_nil_l (s : string) : "" ++ s = s.
Proof. reflexivity. Qed.

Lemma app_nil_r (s : string) : s ++ "" = s.
Proof.
  induction s as [|c s IH]; [done|]. by rewrite app_cons, IH.
Qed.

Lemma app_assoc (s t u : string) : (s ++ t) ++ u = s ++ t ++ u.
Proof.
  induction s as [|c s IH]; [done|]. by rewrite !app_cons, IH.
Qed.

Lemma length_app (s t : string) :
  String.length (s ++ t) = (String.length s + String.length t)%nat.
Proof.
  induction s as [|c s IH]; [done|]. rewrite app_cons. simpl. by rewrite IH.
Qed.

Lemma drop_bytes_app (s t : string) : drop_bytes (String.length s) (s ++ t) = t.
Proof.
  induction s as [|c s IH]; [by destruct t|]. by rewrite app_cons.
Qed.

Lemma take_bytes_app (s t : string) : take_bytes (String.length s) (s ++ t) = s.
Proof.
  induction s as [|c s IH]; [by destruct t|].
  rewrite app_cons. simpl. by rewrite IH.
Qed.

Lemma HasPrefix_nil (s : string) : HasPrefix s "" = true.
Proof. by destruct s. Qed.

Lemma HasPrefix_byte c r : HasPrefix (String c r) (String c "") = true.
Proof. cbn [HasPrefix]. by rewrite Ascii.eqb_refl, HasPrefix_nil. Qed.

Lemma HasPrefix_app (p s : string) : HasPrefix (p ++ s) p = true.
Proof.
  induction p as [|c p IH]; [by destruct s|].
  rewrite app_cons. simpl. by rewrite Ascii.eqb_refl.
Qed.

Lemma HasPrefix_inv : forall p s,
  HasPrefix s p = true -> s = p ++ drop_bytes (String.length p) s.
Proof.
  induction p as [|c p IH]; intros s; [by destruct s|].
  destruct s as [|a s]; [done|]. simpl.
  destruct (Ascii.eqb a c) eqn:E; [|done]. simpl. intros H.
  apply Ascii.eqb_eq in E as ->. rewrite app_cons. f_equal. by apply IH.
Qed.

Lemma Index_prefix s sub : HasPrefix s sub = true -> Index s sub = 0.
Proof. intros H. destruct s; cbn [Index]; by rewrite H. Qed.

(** [Index] yields [-1] or an offset. *)
Lemma Index_range sub : forall s, Index s sub = -1 \/ 0 <= Index s sub.
Proof.
  induction s as [|c s IH]; cbn [Index].
  - destruct sub; simpl; [right; lia|by left].
  - destruct (HasPrefix (String c s) sub); [right; lia|].
    destruct IH as [->|IH]; [by left|].
    destruct (Index s sub); [right; lia|right; lia|lia].
Qed.

Lemma Index_cons_none c s sub :
  Index (String c s) sub = -1 ->
  HasPrefix (String c s) sub = false /\ Index s sub = -1.
Proof.
  cbn [Index]. destruct (HasPrefix (String c s) sub); [done|].
  destruct (Index_range sub s) as [->|Hr]; [done|].
  destruct (Index s sub); [done|lia|lia].
Qed.

(** The first occurrence of a byte that does not occur in [pre]. *)
Lemma Index_byte_app c : forall pre r,
  Index pre (String c "") = -1 ->
  Index (pre ++ String c r) (String c "") = Z.of_nat (String.length pre).
Proof.
  induction pre as [|a pre IH]; intros r Hpre.
  - rewrite app_nil_l. cbn [Index]. by rewrite HasPrefix_byte.
  - apply Index_cons_none in Hpre as [Hp Hrest].
    rewrite app_cons. cbn [Index].
    assert (HasPrefix (String a (pre ++ String c r)) (String c "") = false) as ->.
    { simpl in *. destruct (Ascii.eqb a c); [|done].
      by destruct pre. }
    rewrite (IH r Hrest).
    cbn [String.length]. destruct (Z.of_nat (String.length pre)) eqn:E; lia.
Qed.

(** The last occurrence of a byte that does not occur in [post]. *)
Lemma LastIndex_byte_app c post : forall a,
  LastIndex post (String c "") = -1 ->
  LastIndex (a ++ String c post) (String c "") = Z.of_nat (String.length a).
Proof.
  intros a Hpost. induction a as [|x a IH].
  - rewrite app_nil_l. cbn [LastIndex]. by rewrite Hpost, HasPrefix_byte.
  - rewrite app_cons. cbn [LastIndex]. rewrite IH.
    cbn [String.length]. destruct (Z.of_nat (String.length a)) eqn:E; lia.
Qed.

(** A string without the byte [c] has no occurrence of a string that
    starts with [c]. *)
Lemma Index_none_byte c sub : forall s,
  Index s (String c "") = -1 -> Index s (String c sub) = -1.
Proof.
  induction s as [|a s IH]; intros H; [done|].
  apply Index_cons_none in H as [Hp Hrest].
  cbn [Index].
  assert (HasPrefix (String a s) (String c sub) = false) as ->.
  { simpl in *. destruct (Ascii.eqb a c); [|done]. by destruct s. }
  by rewrite (IH Hrest).
Qed.

(** The first occurrence of [sub] after a string without its first byte. *)
Lemma Index_app_first c sub : forall s r,
  Index s (String c "") = -1 ->
  Index (s ++ String c sub ++ r) (String c sub) = Z.of_nat (String.length s).
Proof.
  induction s as [|a s IH]; intros r H.
  - rewrite app_nil_l, app_cons. cbn [Index]. rewrite <- app_cons.
    by rewrite HasPrefix_app.
  - apply Index_cons_none in H as [Hp Hrest].
    rewrite app_cons. cbn [Index].
    assert (HasPrefix (String a (s ++ String c sub ++ r)) (String c sub) = false)
      as ->.
    { simpl in *. destruct (Ascii.eqb a c); [|done]. by destruct s. }
    rewrite (IH r Hrest).
    cbn [String.length]. destruct (Z.of_nat (String.length s)) eqn:E; lia.
Qed.

End StringFacts.

(* ===================================================================== *)
(** ** Further facts about the decision parser *)
(* ===================================================================== *)

Module ParserFacts.
Import StringFacts.

Lemma TrimLeft_blank : forall s, blank s = true -> TrimLeft s = "".
Proof.
  unfold TrimLeft. induction s as [|c s IH]; [done|].
  cbn [blank String.length trim_with]. intros [Hc Hs]%andb_true_iff.
  unfold space_prefix. rewrite Hc. cbn [drop_bytes]. by apply IH.
Qed.

Lemma TrimSpace_blank s : blank s = true -> TrimSpace s = "".
Proof. intros H. unfold TrimSpace. by rewrite (TrimLeft_blank _ H). Qed.

(** The slice from the first opening brace to the last closing brace. *)
Lemma substr_braces pre mid post :
  Index pre "{" = -1 ->
  LastIndex post "}" = -1 ->
  let t := pre ++ "{" ++ mid ++ "}" ++ post in
  Index t "{" = Z.of_nat (String.length pre)
  /\ LastIndex t "}" = Z.of_nat (String.length pre + 1 + String.length mid)
  /\ substr t (Index t "{") (LastIndex t "}" + 1) = "{" ++ mid ++ "}".
Proof.
  intros Hpre Hpost t.
  assert (Index t "{" = Z.of_nat (String.length pre)) as Hi.
  { unfold t. by apply Index_byte_app. }
  assert (LastIndex t "}" = Z.of_nat (String.length pre + 1 + String.length mid))
    as Hl.
  { unfold t.
    replace (pre ++ "{" ++ mid ++ "}" ++ post)
      with ((pre ++ "{" ++ mid) ++ "}" ++ post)
      by (by rewrite !app_assoc).
    rewrite (LastIndex_byte_app _ _ _ Hpost).
    rewrite length_app, app_cons, app_nil_l. cbn [String.length]. f_equal. lia. }
  split; [done|]. split; [done|].
  rewrite Hi, Hl. unfold substr.
  rewrite Nat2Z.id. unfold t. rewrite drop_bytes_app.
  replace (Z.to_nat (Z.of_nat (String.length pre + 1 + String.length mid) + 1
                     - Z.of_nat (String.length pre)))
    with (String.length ("{" ++ mid ++ "}")).
  - replace ("{" ++ mid ++ "}" ++ post) with (("{" ++ mid ++ "}") ++ post).
    + apply take_bytes_app.
    + by rewrite app_cons, app_nil_l, app_cons, app_assoc.
  - rewrite app_cons, app_nil_l. cbn [String.length]. rewrite length_app.
    cbn [String.length]. lia.
Qed.

(** The first of the two pieces [strings.SplitN] cuts the text after the
    opening fence into is the text up to the closing fence. *)
Lemma SplitN_closing inner tail :
  Index inner "`" = -1 ->
  tail = "" \/ HasPrefix tail fence = true ->
  exists rest, SplitN (inner ++ tail) fence 2 = inner :: rest.
Proof.
  intros Hinner Htail.
  change (SplitN (inner ++ tail) fence 2)
    with (match Index (inner ++ tail) fence with
          | Zneg _ => [inner ++ tail]
          | m => take_bytes (Z.to_nat m) (inner ++ tail)
                 :: SplitN (drop_bytes (Z.to_nat m + String.length fence)
                              (inner ++ tail)) fence 1
          end).
  destruct Htail as [->|Htail].
  - rewrite app_nil_r. unfold fence.
    rewrite (Index_none_byte "`" (String "`" (String "`" "")) inner Hinner).
    by eexists.
  - apply HasPrefix_inv in Htail.
    set (post := drop_bytes (String.length fence) tail) in Htail.
    rewrite Htail. clearbody post. clear Htail.
    assert (Index (inner ++ fence ++ post) fence
            = Z.of_nat (String.length inner)) as ->.
    { unfold fence.
      apply (Index_app_first "`" (String "`" (String "`" "")) inner _ Hinner). }
    assert (take_bytes (Z.to_nat (Z.of_nat (String.length inner)))
              (inner ++ fence ++ post) = inner) as Htake.
    { by rewrite Nat2Z.id, take_bytes_app. }
    destruct (Z.of_nat (String.length inner)) eqn:E; [| |lia];
      cbv zeta; rewrite Htake; by eexists.
Qed.

(** The pieces [strings.SplitN] cuts a fenced text into start with the empty
    piece before the opening fence and the text between the fences. *)
Lemma SplitN_fenced inner tail :
  Index inner "`" = -1 ->
  tail = "" \/ HasPrefix tail fence = true ->
  exists rest, SplitN (fence ++ inner ++ tail) fence 3 = "" :: inner :: rest.
Proof.
  intros Hinner Htail.
  destruct (SplitN_closing inner tail Hinner Htail) as [rest Hrest].
  exists rest.
  change (SplitN (fence ++ inner ++ tail) fence 3)
    with (match Index (fence ++ inner ++ tail) fence with
          | Zneg _ => [fence ++ inner ++ tail]
          | m => take_bytes (Z.to_nat m) (fence ++ inner ++ tail)
                 :: SplitN (drop_bytes (Z.to_nat m + String.length fence)
                              (fence ++ inner ++ tail)) fence 2
          end).
  assert (Index (fence ++ inner ++ tail) fence = 0) as ->.
  { apply Index_prefix, HasPrefix_app. }
  cbv zeta.
  change (Z.to_nat 0 + String.length fence)%nat with (String.length fence).
  rewrite drop_bytes_app, Hrest. reflexivity.
Qed.

End ParserFacts.

(* ===================================================================== *)
(** ** Further facts about the orchestrator *)
(* ===================================================================== *)

Section RunFacts.
Variable marshalToolSpecs : list Tool.t -> string.
Variable quote : string -> string.
Variable Upstream : Type.
Variable provider : string -> Request.t -> Upstream -> reply * Upstream.

(** A request without tools is passed to the provider as it is, in one
    call, and the reply is returned untouched. *)
Lemma toolless_passthrough providerName req now w :
  len (Request.Tools req) = 0%nat ->
  chatWithToolEmulation marshalToolSpecs quote provider providerName req now w
  = (Return (fst (fst (provider providerName req (upstream w))))
            (snd (fst (provider providerName req (upstream w)))),
     mkWorld (calls w ++ [req]) (snd (provider providerName req (upstream w)))).
Proof.
  intros Hlen. unfold chatWithToolEmulation. rewrite Hlen. simpl.
  unfold bind, chatOnce, ret.
  by destruct (provider providerName req (upstream w)) as [[resp err] u].
Qed.

(** The run of the orchestrator on a request with tools whose decision
    request can be built, by the reply of the decision call. *)
Lemma emulate_by_reply providerName req now w d :
  buildToolDecisionRequest marshalToolSpecs quote req = inr d ->
  chatWithToolEmulation marshalToolSpecs quote provider providerName req now w
  = match provider providerName d (upstream w) with
    | ((Some decisionResp, None), u) =>
        match parseToolDecision (Result.Text decisionResp) with
        | inl err => (Return None (Some err), mkWorld (calls w ++ [d]) u)
        | inr (toolName, args) =>
            if String.eqb toolName "" then
              if expects_tool (Request.ToolChoice req)
              then (Return None (Some ErrExpectedToolCall),
                    mkWorld (calls w ++ [d]) u)
              else
                let (r, u') := provider providerName (buildFinalRequest req) u in
                (Return (option_map add_warning (fst r)) (snd r),
                 mkWorld ((calls w ++ [d]) ++ [buildFinalRequest req]) u')
            else if negb (toolExists (Request.Tools req) toolName) then
              (Return None (Some (ErrToolNotFound toolName)),
               mkWorld (calls w ++ [d]) u)
            else
              let call := emulated_call now toolName args in
              (Return
                 (Some (Result.mk "" (Result.Model decisionResp) (Some [call])
                          (Some [Message.mk RoleAssistant "" "" "" (Some [call])])
                          (Result.Usage decisionResp) (Result.Raw decisionResp)
                          (Some [warning])))
                 None,
               mkWorld (calls w ++ [d]) u)
        end
    | ((None, None), u) => (Panic, mkWorld (calls w ++ [d]) u)
    | ((_, Some err), u) =>
        (Return None (Some err), mkWorld (calls w ++ [d]) u)
    end.
Proof.
  intros Hd.
  destruct (provider providerName d (upstream w)) as [[resp err] u] eqn:Hp.
  destruct resp as [decisionResp|], err as [e|].
  2: exact (emulate_after_decision marshalToolSpecs quote Upstream provider
              providerName req now w d decisionResp u Hd Hp).
  all: pose proof (decision_request_needs_tools _ _ _ _ Hd) as Hlen;
    unfold chatWithToolEmulation;
    destruct (len (Request.Tools req) =? 0)%nat eqn:E;
      [apply Nat.eqb_eq in E; done|];
    rewrite Hd; unfold bind, chatOnce at 1; by rewrite Hp.
Qed.

(** The decision request can be built exactly when the request has a
    function tool. *)
Lemma buildToolDecisionRequest_inl req err :
  buildToolDecisionRequest marshalToolSpecs quote req = inl err ->
  err = ErrNoFunctionTools
  /\ filter (fun t => is_function_tool t = true) (elems (Request.Tools req)) = [].
Proof.
  unfold buildToolDecisionRequest, buildToolDecisionPrompt.
  destruct (filter _ _) as [|t ts]; simpl; [by intros [= <-]|done].
Qed.

End RunFacts.

(* ===================================================================== *)
(** ** Further facts about requests in memory *)
(* ===================================================================== *)

Module MapFacts.
Import Store StoreFacts RequestFacts.

Lemma cloneJSONMap_outside g h input out h' :
  g ⊆ h -> cloneJSONMap h input = (out, h') ->
  g ⊆ h' /\ forall q, out = Some q -> g !! q = None.
Proof.
  intros Hsub. unfold cloneJSONMap. destruct input as [q|];
    [|by intros [= <- <-]].
  destruct (_ =? _)%nat; intros [= <- <-]; [done|]. split.
  - by apply insert_fresh_outside.
  - intros q' [= <-]. by apply fresh_outside.
Qed.

Section Clone.
Variable slack : nat -> nat -> nat.

(** The option maps of a clone are nil or newly allocated. *)
Lemma clone_maps_outside req σ c σ1 q :
  cloneChatRequest slack req σ = (c, σ1) ->
  In (Some q) (option_maps c) -> maps σ !! q = None.
Proof.
  unfold cloneChatRequest.
  destruct (copy_slice slack zeroMessage _ _) as [ms hm].
  destruct (copy_slice slack zeroTool _ _) as [ts ht].
  destruct (cloneChoice _ _) as [tc hc].
  destruct (cloneJSONMap (maps σ) _) as [o1 h1] eqn:H1.
  destruct (cloneJSONMap h1 _) as [o2 h2] eqn:H2.
  destruct (cloneJSONMap h2 _) as [o3 h3] eqn:H3.
  destruct (cloneJSONMap h3 _) as [o4 h4] eqn:H4.
  destruct (cloneJSONMap h4 _) as [o5 h5] eqn:H5.
  intros [= <- <-]. unfold option_maps. simpl.
  destruct (cloneJSONMap_outside (maps σ) _ _ _ _ (reflexivity _) H1) as [S1 O1].
  destruct (cloneJSONMap_outside (maps σ) _ _ _ _ S1 H2) as [S2 O2].
  destruct (cloneJSONMap_outside (maps σ) _ _ _ _ S2 H3) as [S3 O3].
  destruct (cloneJSONMap_outside (maps σ) _ _ _ _ S3 H4) as [S4 O4].
  destruct (cloneJSONMap_outside (maps σ) _ _ _ _ S4 H5) as [S5 O5].
  intros [H|[H|[H|[H|[H|[]]]]]]; eauto.
Qed.

(** An assignment to a map changes the maps of the store only. *)
Lemma map_assign_inv p key value σ σ2 :
  map_assign p key value σ = Some σ2 ->
  exists q,
    p = Some q
    /\ σ2 = mkStore (messages σ) (tools σ) (choices σ)
              (<[q := <[key := value]> (default ∅ (maps σ !! q))]> (maps σ)).
Proof.
  unfold map_assign. destruct p as [q|]; [|done].
  intros [= <-]. by exists q.
Qed.

Lemma load_map_insert_ne h p q m :
  p <> Some q -> load_map (<[q := m]> h) p = load_map h p.
Proof.
  intros Hne. destruct p as [r|]; [|done]. simpl.
  rewrite lookup_insert_ne; [done|]. by intros ->.
Qed.

End Clone.
End MapFacts.

Module FootprintFacts.
Import Store StoreFacts RequestFacts.

(** The part of a store a well-formed slice designates. *)
Lemma slice_footprint {A} (h : gmap loc (list A)) (s : hslice) :
  wf_slice h s ->
  exists g,
    g ⊆ h /\ wf_slice g s
    /\ forall p, is_Some (g !! p) -> exists hd, s = Some hd /\ arr hd = p.
Proof.
  destruct s as [hd|]; simpl.
  - intros ([a Ha] & Hlen & Hcap). exists {[arr hd := a]}.
    split; [by apply map_singleton_subseteq_l|]. split.
    + unfold array_of in *. rewrite Ha in Hcap. rewrite lookup_singleton_eq.
      by repeat split.
    + intros p [x Hx]. apply lookup_singleton_Some in Hx as [<- _]. by exists hd.
  - intros _. exists ∅. split; [apply map_empty_subseteq|]. split; [done|].
    intros p [x Hx]. by rewrite lookup_empty in Hx.
Qed.

Lemma pointer_footprint {V} (h : gmap loc V) (p : option loc) :
  allocated h p ->
  exists g,
    g ⊆ h /\ allocated g p /\ forall q, is_Some (g !! q) -> p = Some q.
Proof.
  destruct p as [q|]; simpl.
  - intros [v Hv]. exists {[q := v]}.
    split; [by apply map_singleton_subseteq_l|]. split.
    + rewrite lookup_singleton_eq. by eexists.
    + intros q' [x Hx]. by apply lookup_singleton_Some in Hx as [<- _].
  - intros _. exists ∅. split; [apply map_empty_subseteq|]. split; [done|].
    intros q [x Hx]. by rewrite lookup_empty in Hx.
Qed.

Lemma allocated_mono {V} (g h : gmap loc V) p :
  g ⊆ h -> allocated g p -> allocated h p.
Proof.
  intros Hsub. destruct p as [q|]; [|done]. simpl.
  intros [v Hv]. exists v. by eapply lookup_weaken.
Qed.

Section Clone.
Variable slack : nat -> nat -> nat.

Lemma copy_slice_wf {A} (zero : A) (h : gmap loc (list A)) src s' h' :
  copy_slice slack zero h src = (s', h') -> wf_slice h' s'.
Proof.
  unfold copy_slice, literal, alloc, append_slice. simpl.
  destruct (elems (view h src)) as [|x xs]; simpl; intros [= <- <-]; simpl.
  - rewrite lookup_insert_eq. split; [by eexists|]. split; [done|].
    unfold array_of. rewrite lookup_insert_eq. simpl. lia.
  - rewrite lookup_insert_eq. split; [by eexists|]. split; [lia|].
    unfold array_of. rewrite lookup_insert_eq. simpl.
    rewrite length_app, length_replicate. lia.
Qed.

Lemma cloneChoice_allocated (h : gmap loc ToolChoice.t) p out h' :
  cloneChoice h p = (out, h') -> allocated h' out.
Proof.
  unfold cloneChoice. destruct p as [q|]; intros [= <- <-]; [|done].
  simpl. rewrite lookup_insert_eq. by eexists.
Qed.

Lemma cloneJSONMap_allocated h input out h' :
  cloneJSONMap h input = (out, h') -> h ⊆ h' /\ allocated h' out.
Proof.
  intros H. split; [by eapply cloneJSONMap_frame|]. revert H.
  unfold cloneJSONMap. destruct input as [q|]; [|by intros [= <- <-]].
  destruct (_ =? _)%nat; intros [= <- <-]; [done|].
  simpl. rewrite lookup_insert_eq. by eexists.
Qed.

(** A clone has no dangling references. *)
Lemma clone_wf req σ c σ1 :
  cloneChatRequest slack req σ = (c, σ1) -> wf_request σ1 c.
Proof.
  unfold cloneChatRequest.
  destruct (copy_slice slack zeroMessage _ _) as [ms hm] eqn:Hm.
  destruct (copy_slice slack zeroTool _ _) as [ts ht] eqn:Ht.
  destruct (cloneChoice _ _) as [tc hc] eqn:Hc.
  destruct (cloneJSONMap (maps σ) _) as [o1 h1] eqn:H1.
  destruct (cloneJSONMap h1 _) as [o2 h2] eqn:H2.
  destruct (cloneJSONMap h2 _) as [o3 h3] eqn:H3.
  destruct (cloneJSONMap h3 _) as [o4 h4] eqn:H4.
  destruct (cloneJSONMap h4 _) as [o5 h5] eqn:H5.
  intros [= <- <-].
  apply copy_slice_wf in Hm, Ht. apply cloneChoice_allocated in Hc.
  apply cloneJSONMap_allocated in H1 as [S1 A1], H2 as [S2 A2],
    H3 as [S3 A3], H4 as [S4 A4], H5 as [S5 A5].
  repeat split; simpl; try done.
  - apply (allocated_mono h1); [by repeat (etrans; [eassumption|])|done].
  - apply (allocated_mono h2); [by repeat (etrans; [eassumption|])|done].
  - apply (allocated_mono h3); [by repeat (etrans; [eassumption|])|done].
  - by apply (allocated_mono h4).
Qed.

End Clone.
End FootprintFacts.

(* ===================================================================== *)
(** ** Facts about the provider's conversions *)
(* ===================================================================== *)

Module ProviderFacts.

(** The conversion of one message fails on a tool message without an
    identifier and on no other message. *)
Lemma toMessage_inl m err :
  toMessage m = inl err <->
  err = ErrToolCallIDRequired
  /\ Message.Role m = "tool" /\ Message.ToolCallID m = "".
Proof.
  unfold toMessage.
  destruct (String.eqb (Message.Role m) RoleSystem) eqn:E1.
  { apply String.eqb_eq in E1. split; [done|]. intros (_ & H & _).
    rewrite H in E1. discriminate E1. }
  destruct (String.eqb (Message.Role m) RoleUser) eqn:E2.
  { apply String.eqb_eq in E2. split; [done|]. intros (_ & H & _).
    rewrite H in E2. discriminate E2. }
  destruct (String.eqb (Message.Role m) RoleAssistant) eqn:E3.
  { apply String.eqb_eq in E3. split; [done|]. intros (_ & H & _).
    rewrite H in E3. discriminate E3. }
  destruct (String.eqb (Message.Role m) RoleTool) eqn:E4.
  - apply String.eqb_eq in E4.
    destruct (String.eqb (Message.ToolCallID m) "") eqn:E5.
    + apply String.eqb_eq in E5. split; [by intros [= <-]|by intros (-> & _)].
    + apply String.eqb_neq in E5. split; [done|]. by intros (_ & _ & H).
  - apply String.eqb_neq in E4. split; [done|]. by intros (_ & H & _).
Qed.

(** The tool calls gathered from a choice that has some. *)
Lemma gather_calls tcs : forall acc,
  fold_left (fun calls tc => append1 calls (convert_call tc)) tcs acc
  = match tcs with
    | [] => acc
    | _ => Some (elems acc ++ map convert_call tcs)%list
    end.
Proof.
  induction tcs as [|tc tcs IH]; intros acc; [done|].
  simpl. rewrite IH. destruct tcs as [|tc' tcs]; [done|].
  unfold append1 at 1. simpl. by rewrite <- app_assoc.
Qed.

(** The texts of the choices, joined in order. *)
Lemma gather_choices_some choices : forall text calls,
  calls <> [] ->
  fold_left gather_choice choices (text, Some calls)
  = (text ++ foldr (fun c rest => ResponseMessage.Content (Choice.Message c)
                                  ++ rest) "" choices,
     Some calls).
Proof.
  induction choices as [|c choices IH]; intros text calls Hne.
  - simpl. by rewrite StringFacts.app_nil_r.
  - cbn [fold_left foldr]. unfold gather_choice at 2.
    assert ((len (Some calls) =? 0)%nat = false) as ->.
    { destruct calls; [done|]. reflexivity. }
    rewrite andb_false_r, (IH _ _ Hne). by rewrite StringFacts.app_assoc.
Qed.

(** The loop of [toResult] from a state in which no tool call has been
    gathered: the tool calls are those of the first choice that has any. *)
Lemma gather_choices_none choices : forall text,
  fold_left gather_choice choices (text, None)
  = (text ++ foldr (fun c rest => ResponseMessage.Content (Choice.Message c)
                                  ++ rest) "" choices,
     match
       List.find (fun c =>
               (0 <? len (ResponseMessage.ToolCalls (Choice.Message c)))%nat)
         choices
     with
     | Some c =>
         Some (map convert_call
                 (elems (ResponseMessage.ToolCalls (Choice.Message c))))
     | None => None
     end).
Proof.
  induction choices as [|c choices IH]; intros text.
  - simpl. by rewrite StringFacts.app_nil_r.
  - cbn [fold_left foldr List.find]. unfold gather_choice at 2.
    change (len (@None (list ToolCall.t)) =? 0)%nat with true.
    rewrite andb_true_r.
    destruct (0 <? len (ResponseMessage.ToolCalls (Choice.Message c)))%nat
      eqn:E.
    + rewrite gather_calls. unfold len in E.
      destruct (elems (ResponseMessage.ToolCalls (Choice.Message c)))
        as [|tc tcs] eqn:Etcs; [done|].
      rewrite gather_choices_some by done.
      by rewrite StringFacts.app_assoc.
    + rewrite IH. by rewrite StringFacts.app_assoc.
Qed.

(** The loop of [toToolParams]. *)
Section Tools.
Context {Schema : Type} (decodeSchema : string -> json_error + Schema).


End Tools.

End ProviderFacts.

(* ===================================================================== *)
(** ** Further properties of the code *)
(* ===================================================================== *)

(** *** The decision parser *)

(** X1. A decision text made of ASCII white space only (the empty text
    included) is rejected with the error "empty tool decision". *)
Theorem blank_decision_is_rejected text :
  blank text = true ->
  extractJSONPayload text = inl ErrEmptyToolDecision
  /\ parseToolDecision text = inl ErrEmptyToolDecision.
Proof.
  intros H. unfold parseToolDecision, extractJSONPayload.
  by rewrite (ParserFacts.TrimSpace_blank _ H).
Qed.

(** Witness of [blank_decision_is_rejected]: a space, a tab and a line
    feed. *)
Lemma blank_decision_is_rejected_witness :
  parseToolDecision (of_codes [32; 9; 10]%N) = inl ErrEmptyToolDecision.
Proof.
  exact (proj2 (blank_decision_is_rejected (of_codes [32; 9; 10]%N) eq_refl)).
Defined.

(** X2. For a trimmed text that does not start with a fence and that has an
    opening brace before a closing brace, the payload is the trimmed text
    when that is valid JSON; otherwise it is the text from the first opening
    brace to the last closing brace when that is valid JSON; otherwise the
    text is rejected. *)
Theorem payload_spans_first_to_last_brace text pre mid post :
  TrimSpace text = pre ++ "{" ++ mid ++ "}" ++ post ->
  HasPrefix (TrimSpace text) fence = false ->
  Index pre "{" = -1 ->
  LastIndex post "}" = -1 ->
  extractJSONPayload text
  = if Valid (TrimSpace text) then inr (TrimSpace text)
    else if Valid ("{" ++ mid ++ "}") then inr ("{" ++ mid ++ "}")
    else inl (ErrInvalidToolDecisionJSON (TrimSpace text)).
Proof.
  intros Ht Hfence Hpre Hpost.
  destruct (ParserFacts.substr_braces pre mid post Hpre Hpost) as (Hi & Hl & Hs).
  assert (String.eqb (TrimSpace text) "" = false) as Hne.
  { rewrite Ht. by destruct pre. }
  unfold extractJSONPayload. rewrite Hfence, Hne.
  destruct (Valid (TrimSpace text)); [done|].
  rewrite Ht, Hs, Hi, Hl.
  assert ((0 <=? Z.of_nat (String.length pre))
          && (Z.of_nat (String.length pre)
              <? Z.of_nat (String.length pre + 1 + String.length mid)) = true)
    as ->; [|done].
  apply andb_true_iff. split; [apply Z.leb_le|apply Z.ltb_lt]; lia.
Qed.

(** Witness of [payload_spans_first_to_last_brace]: the decision object
    inside a sentence. *)
Lemma payload_spans_first_to_last_brace_witness :
  extractJSONPayload Examples.embedded_text = inr Examples.decision_x.
Proof.
  etrans;
    [exact (payload_spans_first_to_last_brace Examples.embedded_text
              "I'll call " (json_text "'tool':'x','arguments':{'a':1}") " now"
              eq_refl eq_refl eq_refl eq_refl)|].
  vm_compute. reflexivity.
Defined.

(** X3. A trimmed text that opens with a fence is unwrapped: the part up to
    the closing fence (or up to the end when the fence is not closed), with
    white space trimmed and a leading language tag "json" removed, is the
    payload when it is valid JSON; what follows the closing fence is
    ignored. *)
Theorem fenced_payload_is_unwrapped text inner tail :
  TrimSpace text = fence ++ inner ++ tail ->
  Index inner "`" = -1 ->
  tail = "" \/ HasPrefix tail fence = true ->
  Valid (TrimSpace (TrimPrefix (TrimSpace inner) "json")) = true ->
  extractJSONPayload text
  = inr (TrimSpace (TrimPrefix (TrimSpace inner) "json")).
Proof.
  intros Ht Hinner Htail Hvalid.
  destruct (ParserFacts.SplitN_fenced inner tail Hinner Htail) as [rest Hsplit].
  unfold extractJSONPayload. rewrite Ht.
  assert (String.eqb (fence ++ inner ++ tail) "" = false) as -> by done.
  rewrite StringFacts.HasPrefix_app, Hsplit. by rewrite Hvalid.
Qed.

(** Witness of [fenced_payload_is_unwrapped]: a fenced block with the
    language tag, followed by prose. *)
Lemma fenced_payload_is_unwrapped_witness :
  extractJSONPayload
    ("```json" ++ Examples.newline ++ Examples.decision_x ++ Examples.newline
     ++ "``` is my call.")
  = inr Examples.decision_x.
Proof.
  etrans;
    [exact (fenced_payload_is_unwrapped
              ("```json" ++ Examples.newline ++ Examples.decision_x
               ++ Examples.newline ++ "``` is my call.")
              ("json" ++ Examples.newline ++ Examples.decision_x
               ++ Examples.newline)
              "``` is my call."
              eq_refl eq_refl (or_intror eq_refl) eq_refl)|].
  vm_compute. reflexivity.
Defined.

(** X4. Whenever the parser decides on a tool, the arguments it returns are
    valid JSON (the object without members when the decision has none), and
    so is the payload they were read from. *)
Theorem decided_arguments_are_valid_JSON text toolName args :
  parseToolDecision text = inr (toolName, args) ->
  toolName <> "" ->
  Valid args = true
  /\ exists payload, extractJSONPayload text = inr payload
                     /\ Valid payload = true.
Proof.
  unfold parseToolDecision.
  destruct (extractJSONPayload text) as [err|payload] eqn:Hext; [done|].
  intros H Hname. split; [|by eauto using extractJSONPayload_valid].
  destruct (Unmarshal_decision payload) as [e|d]; [done|].
  destruct (_ =? _)%nat; [by inversion H|].
  destruct (_ || _); [by inversion H|].
  destruct (Unmarshal_string _) as [e|name]; [done|].
  destruct (String.eqb (TrimSpace name) ""); [by inversion H|].
  destruct (Valid (if (String.length (Arguments d) =? 0)%nat then "{}"
                   else Arguments d)) eqn:Hv; [|done].
  simpl in H. by inversion H; subst.
Qed.

(** Witness of [decided_arguments_are_valid_JSON]: a decision without
    arguments. *)
Lemma decided_arguments_are_valid_JSON_witness :
  parseToolDecision (json_text "{'tool':'x'}") = inr ("x", "{}")
  /\ Valid "{}" = true.
Proof.
  split; [vm_compute; reflexivity|].
  exact (proj1 (decided_arguments_are_valid_JSON (json_text "{'tool':'x'}")
                  "x" "{}" eq_refl ltac:(discriminate))).
Defined.

(** *** The orchestrator *)

(** X5. A request the layer derived (the decision request or the final
    request) is not emulated again when it is passed to the layer: it is
    sent to the provider as it is, in one call, and the reply is returned
    untouched. *)
Theorem derived_request_is_not_emulated_again marshalToolSpecs quote Upstream
    (provider : string -> Request.t -> Upstream -> reply * Upstream)
    providerName req r now w :
  buildToolDecisionRequest marshalToolSpecs quote req = inr r
  \/ r = buildFinalRequest req ->
  chatWithToolEmulation marshalToolSpecs quote provider providerName r now w
  = (Return (fst (fst (provider providerName r (upstream w))))
            (snd (fst (provider providerName r (upstream w)))),
     mkWorld (calls w ++ [r]) (snd (provider providerName r (upstream w)))).
Proof.
  intros Hr. apply toolless_passthrough.
  assert (stripped r) as (_ & Htools & _).
  { destruct Hr as [Hd| ->];
      [by eapply buildToolDecisionRequest_stripped
      |apply buildFinalRequest_stripped]. }
  by rewrite Htools.
Qed.

(** Witness of [derived_request_is_not_emulated_again]: the final request of
    the weather request. *)
Lemma derived_request_is_not_emulated_again_witness :
  Examples.run_scripted
    (buildFinalRequest (Examples.weather_request Examples.choice_auto))
    [(Some (Examples.text_result "Sunny."), None)]
  = (Return (Some (Examples.text_result "Sunny.")) None,
     mkWorld [buildFinalRequest (Examples.weather_request Examples.choice_auto)]
       []).
Proof.
  exact (derived_request_is_not_emulated_again Examples.marshal_names
           Examples.quote_plain (list reply) Examples.scripted_provider
           "vendor" (Examples.weather_request Examples.choice_auto) _
           Examples.now
           (mkWorld [] [(Some (Examples.text_result "Sunny."), None)])
           (or_intror eq_refl)).
Defined.

(** X6. When the decision call returns an error, the layer returns that
    error with a nil result (a result the provider returned beside the
    error is dropped) and makes no other call. *)
Theorem decision_call_error_is_returned marshalToolSpecs quote Upstream
    (provider : string -> Request.t -> Upstream -> reply * Upstream)
    providerName req now w d resp err u :
  buildToolDecisionRequest marshalToolSpecs quote req = inr d ->
  provider providerName d (upstream w) = ((resp, Some err), u) ->
  chatWithToolEmulation marshalToolSpecs quote provider providerName req now w
  = (Return None (Some err), mkWorld (calls w ++ [d]) u).
Proof.
  intros Hd Hp.
  rewrite (emulate_by_reply _ _ _ _ _ _ _ _ _ Hd), Hp. by destruct resp.
Qed.

(** Witness of [decision_call_error_is_returned]: the provider returns a
    result and an error. *)
Lemma decision_call_error_is_returned_witness :
  fst (Examples.run_scripted (Examples.weather_request Examples.choice_auto)
         [(Some (Examples.text_result Examples.weather_decision),
           Some (ErrUpstream "rate limited"))])
  = Return None (Some (ErrUpstream "rate limited")).
Proof.
  exact (f_equal fst
           (decision_call_error_is_returned Examples.marshal_names
              Examples.quote_plain (list reply) Examples.scripted_provider
              "vendor" (Examples.weather_request Examples.choice_auto)
              Examples.now
              (mkWorld []
                 [(Some (Examples.text_result Examples.weather_decision),
                   Some (ErrUpstream "rate limited"))])
              _ _ _ _ eq_refl eq_refl)).
Defined.

(** X7. When the text of the decision reply cannot be parsed, the layer
    returns the parser's error with a nil result; it does not fall back to
    the final request. *)
Theorem unparsable_decision_is_an_error marshalToolSpecs quote Upstream
    (provider : string -> Request.t -> Upstream -> reply * Upstream)
    providerName req now w d decisionResp u err :
  buildToolDecisionRequest marshalToolSpecs quote req = inr d ->
  provider providerName d (upstream w) = ((Some decisionResp, None), u) ->
  parseToolDecision (Result.Text decisionResp) = inl err ->
  chatWithToolEmulation marshalToolSpecs quote provider providerName req now w
  = (Return None (Some err), mkWorld (calls w ++ [d]) u).
Proof.
  intros Hd Hp Hparse.
  by rewrite (emulate_by_reply _ _ _ _ _ _ _ _ _ Hd), Hp, Hparse.
Qed.

(** Witness of [unparsable_decision_is_an_error]: the provider answers in
    prose. *)
Lemma unparsable_decision_is_an_error_witness :
  Examples.run_scripted (Examples.weather_request Examples.choice_auto)
    [(Some (Examples.text_result "It is sunny."), None);
     (Some (Examples.text_result "Sunny."), None)]
  = (Return None (Some (ErrInvalidToolDecisionJSON "It is sunny.")),
     mkWorld
       [Request.mk
          (Some (system_message
                   (Join
                      ["You are a tool-calling engine.";
                       "When you need a tool, output ONLY JSON:";
                       json_text
                         "{'tool': 'get_weather', 'arguments': {'city': 'Tokyo'}}";
                       "If no tool needed, output:";
                       json_text "{'tool': null, 'arguments': {}}";
                       "Available tools (JSON): [get_weather,other_tool]"]
                      Examples.newline)
                 :: [system_message "Be brief.";
                     Examples.user_message "Weather in Tokyo?"]))
          "some-model" None None
          (emulation_off Examples.options_on)]
       [(Some (Examples.text_result "Sunny."), None)]).
Proof.
  etrans;
    [exact (unparsable_decision_is_an_error Examples.marshal_names
              Examples.quote_plain (list reply) Examples.scripted_provider
              "vendor" (Examples.weather_request Examples.choice_auto)
              Examples.now
              (mkWorld []
                 [(Some (Examples.text_result "It is sunny."), None);
                  (Some (Examples.text_result "Sunny."), None)])
              _ _ _ _ eq_refl eq_refl eq_refl)|].
  vm_compute. reflexivity.
Defined.

(** X8. When the decision names no tool and the tool choice does not demand
    one, the layer sends the final request (the request's own messages,
    without the decision prompt) and returns the provider's reply to it: the
    result with the warning "tool calls emulated" appended to its warnings,
    and the error as it is.  The arguments of the decision are ignored. *)
Theorem no_tool_decision_runs_final_request marshalToolSpecs quote Upstream
    (provider : string -> Request.t -> Upstream -> reply * Upstream)
    providerName req now w d decisionResp u args :
  buildToolDecisionRequest marshalToolSpecs quote req = inr d ->
  provider providerName d (upstream w) = ((Some decisionResp, None), u) ->
  parseToolDecision (Result.Text decisionResp) = inr ("", args) ->
  (forall c, Request.ToolChoice req = Some c ->
             ToolChoice.Mode c <> "required" /\ ToolChoice.Mode c <> "function") ->
  let final := provider providerName (buildFinalRequest req) u in
  chatWithToolEmulation marshalToolSpecs quote provider providerName req now w
  = (Return (option_map add_warning (fst (fst final))) (snd (fst final)),
     mkWorld (calls w ++ [d; buildFinalRequest req]) (snd final))
  /\ Request.Messages (buildFinalRequest req)
     = Some (elems (Request.Messages req)).
Proof.
  intros Hd Hp Hparse Hchoice final. split; [|done].
  rewrite (emulate_by_reply _ _ _ _ _ _ _ _ _ Hd), Hp, Hparse. simpl.
  assert (expects_tool (Request.ToolChoice req) = false) as ->.
  { unfold expects_tool. destruct (Request.ToolChoice req) as [c|]; [|done].
    destruct (Hchoice c eq_refl) as [H1 H2].
    apply String.eqb_neq in H1, H2. by rewrite H1, H2. }
  unfold final. destruct (provider providerName (buildFinalRequest req) u).
  simpl. by rewrite <- app_assoc.
Qed.

(** Witness of [no_tool_decision_runs_final_request]: the null decision,
    then an answer in prose. *)
Lemma no_tool_decision_runs_final_request_witness :
  fst (Examples.run_scripted (Examples.weather_request Examples.choice_auto)
         [(Some (Examples.text_result Examples.null_text), None);
          (Some (Examples.text_result "Sunny."), None)])
  = Return
      (Some (Result.mk "Sunny." "vendor-model" None None (Usage.mk 10 5 15)
               (AnyRef 1) (Some ["tool calls emulated"])))
      None.
Proof.
  etrans;
    [exact (f_equal fst
              (proj1
                 (no_tool_decision_runs_final_request Examples.marshal_names
                    Examples.quote_plain (list reply)
                    Examples.scripted_provider "vendor"
                    (Examples.weather_request Examples.choice_auto)
                    Examples.now
                    (mkWorld []
                       [(Some (Examples.text_result Examples.null_text), None);
                        (Some (Examples.text_result "Sunny."), None)])
                    _ _ _ "{}" eq_refl eq_refl eq_refl
                    ltac:(intros c [= <-]; split; discriminate))))|].
  vm_compute. reflexivity.
Defined.

(** X9. When the tool choice has the mode "required" or "function" and the
    decision names no tool, the layer returns the error "tool emulation
    expected a tool call but got null" and does not send the final
    request. *)
Theorem missing_tool_call_is_an_error marshalToolSpecs quote Upstream
    (provider : string -> Request.t -> Upstream -> reply * Upstream)
    providerName req now w d decisionResp u args choice :
  buildToolDecisionRequest marshalToolSpecs quote req = inr d ->
  provider providerName d (upstream w) = ((Some decisionResp, None), u) ->
  parseToolDecision (Result.Text decisionResp) = inr ("", args) ->
  Request.ToolChoice req = Some choice ->
  ToolChoice.Mode choice = "required" \/ ToolChoice.Mode choice = "function" ->
  chatWithToolEmulation marshalToolSpecs quote provider providerName req now w
  = (Return None (Some ErrExpectedToolCall), mkWorld (calls w ++ [d]) u).
Proof.
  intros Hd Hp Hparse Hchoice Hmode.
  rewrite (emulate_by_reply _ _ _ _ _ _ _ _ _ Hd), Hp, Hparse. simpl.
  rewrite Hchoice. simpl. by destruct Hmode as [-> | ->].
Qed.

(** Witness of [missing_tool_call_is_an_error]: the null decision under the
    tool choice for [get_weather]. *)
Lemma missing_tool_call_is_an_error_witness :
  Examples.run_scripted (Examples.weather_request Examples.choice_get_weather)
    [(Some (Examples.text_result Examples.null_text), None);
     (Some (Examples.text_result "Sunny."), None)]
  = (Return None (Some ErrExpectedToolCall),
     mkWorld
       (calls (snd (Examples.run_scripted
                      (Examples.weather_request Examples.choice_get_weather)
                      [(Some (Examples.text_result Examples.null_text), None)])))
       [(Some (Examples.text_result "Sunny."), None)]).
Proof.
  etrans;
    [exact (missing_tool_call_is_an_error Examples.marshal_names
              Examples.quote_plain (list reply) Examples.scripted_provider
              "vendor" (Examples.weather_request Examples.choice_get_weather)
              Examples.now
              (mkWorld []
                 [(Some (Examples.text_result Examples.null_text), None);
                  (Some (Examples.text_result "Sunny."), None)])
              _ _ _ "{}" _ eq_refl eq_refl eq_refl eq_refl
              (or_intror eq_refl))|].
  vm_compute. reflexivity.
Defined.

(** X10. The layer panics (on the nil result it dereferences) exactly when
    the request has tools, the decision request can be built, and the
    provider answers the decision call with a nil result and a nil error. *)
Theorem panics_exactly_on_nil_reply marshalToolSpecs quote Upstream
    (provider : string -> Request.t -> Upstream -> reply * Upstream)
    providerName req now w :
  fst (chatWithToolEmulation marshalToolSpecs quote provider providerName
         req now w) = Panic
  <-> len (Request.Tools req) <> 0%nat
      /\ exists d,
           buildToolDecisionRequest marshalToolSpecs quote req = inr d
           /\ fst (provider providerName d (upstream w)) = (None, None).
Proof.
  split.
  - intros Hrun.
    destruct (decide (len (Request.Tools req) = 0%nat)) as [Hlen|Hlen].
    { by rewrite (toolless_passthrough _ _ _ _ _ _ _ _ Hlen) in Hrun. }
    split; [done|].
    destruct (buildToolDecisionRequest marshalToolSpecs quote req)
      as [err|d] eqn:Hd.
    { unfold chatWithToolEmulation in Hrun. rewrite Hd in Hrun.
      by destruct (len (Request.Tools req) =? 0)%nat eqn:E;
        [apply Nat.eqb_eq in E|]. }
    exists d. split; [done|].
    rewrite (emulate_by_reply _ _ _ _ _ _ _ _ _ Hd) in Hrun.
    destruct (provider providerName d (upstream w)) as [[resp err] u].
    destruct resp as [decisionResp|], err as [e|]; try done. exfalso.
    destruct (parseToolDecision _) as [e|[toolName args]]; [done|].
    destruct (String.eqb toolName ""); [|by destruct (negb _)].
    destruct (expects_tool _); [done|].
    by destruct (provider providerName (buildFinalRequest req) u).
  - intros (_ & d & Hd & Hp).
    rewrite (emulate_by_reply _ _ _ _ _ _ _ _ _ Hd).
    destruct (provider providerName d (upstream w)) as [[resp err] u].
    simpl in Hp. by inversion Hp.
Qed.

(** Witness of [panics_exactly_on_nil_reply]: the provider returns nil and
    nil. *)
Lemma panics_exactly_on_nil_reply_witness :
  fst (Examples.run_scripted (Examples.weather_request Examples.choice_auto)
         [(None, None)]) = Panic.
Proof.
  apply (proj2 (panics_exactly_on_nil_reply Examples.marshal_names
                  Examples.quote_plain (list reply) Examples.scripted_provider
                  "vendor" (Examples.weather_request Examples.choice_auto)
                  Examples.now (mkWorld [] [(None, None)]))).
  split; [discriminate|]. eexists. split; reflexivity.
Defined.

(** X11. Every result the layer returns for a request with tools carries the
    warning "tool calls emulated" as its last warning. *)
Theorem emulated_result_carries_warning marshalToolSpecs quote Upstream
    (provider : string -> Request.t -> Upstream -> reply * Upstream)
    providerName req now w result err :
  len (Request.Tools req) <> 0%nat ->
  fst (chatWithToolEmulation marshalToolSpecs quote provider providerName
         req now w) = Return (Some result) err ->
  exists earlier,
    Result.Warnings result = Some (earlier ++ ["tool calls emulated"])%list.
Proof.
  intros Hlen Hrun.
  destruct (buildToolDecisionRequest marshalToolSpecs quote req)
    as [e|d] eqn:Hd.
  { unfold chatWithToolEmulation in Hrun. rewrite Hd in Hrun.
    by destruct (len (Request.Tools req) =? 0)%nat eqn:E;
      [apply Nat.eqb_eq in E|]. }
  rewrite (emulate_by_reply _ _ _ _ _ _ _ _ _ Hd) in Hrun.
  destruct (provider providerName d (upstream w)) as [[resp e] u].
  destruct resp as [decisionResp|], e as [e|]; try done.
  destruct (parseToolDecision _) as [e|[toolName args]]; [done|].
  destruct (String.eqb toolName "").
  - destruct (expects_tool _); [done|].
    destruct (provider providerName (buildFinalRequest req) u) as [[r e] u'].
    simpl in Hrun. destruct r as [r|]; [|done]. simpl in Hrun.
    inversion Hrun; subst. simpl. by eexists.
  - destruct (negb _); [done|]. simpl in Hrun. inversion Hrun; subst.
    by exists [].
Qed.

(** Witness of [emulated_result_carries_warning]: the final reply has a
    warning of its own. *)
Lemma emulated_result_carries_warning_witness :
  exists earlier,
    Some ["slow"; "tool calls emulated"]
    = Some (earlier ++ ["tool calls emulated"])%list.
Proof.
  exact (emulated_result_carries_warning Examples.marshal_names
           Examples.quote_plain (list reply) Examples.scripted_provider
           "vendor" (Examples.weather_request Examples.choice_auto)
           Examples.now
           (mkWorld []
              [(Some (Examples.text_result Examples.null_text), None);
               (Some (Result.mk "Sunny." "vendor-model" None None
                        (Usage.mk 10 5 15) (AnyRef 1) (Some ["slow"])), None)])
           (Result.mk "Sunny." "vendor-model" None None (Usage.mk 10 5 15)
              (AnyRef 1) (Some ["slow"; "tool calls emulated"]))
           None ltac:(discriminate) eq_refl).
Defined.

(** X12. Tool calls synthesized at different times have different
    identifiers. *)
Theorem callID_injective (now1 now2 : Z) :
  now1 <> now2 -> callID now1 <> callID now2.
Proof.
  intros Hne Heq. apply Hne. unfold callID in Heq.
  apply (inj (String.app "emulated_")) in Heq.
  by apply (inj pretty) in Heq.
Qed.

(** Witness of [callID_injective]. *)
Lemma callID_injective_witness :
  callID 1700000000000000000 <> callID 1700000000000000001.
Proof.
  exact (callID_injective 1700000000000000000 1700000000000000001
           ltac:(discriminate)).
Defined.

(** X13. A request whose tools are all of another type than "function" is
    rejected with the error "no function tools available for emulation",
    without any provider call; no tool name exists in such a request. *)
Theorem request_without_function_tool_is_rejected marshalToolSpecs quote
    Upstream (provider : string -> Request.t -> Upstream -> reply * Upstream)
    providerName req now w :
  len (Request.Tools req) <> 0%nat ->
  Forall (fun t => Tool.Type_ t <> "function") (elems (Request.Tools req)) ->
  chatWithToolEmulation marshalToolSpecs quote provider providerName req now w
  = (Return None (Some ErrNoFunctionTools), w)
  /\ forall name, toolExists (Request.Tools req) name = false.
Proof.
  intros Hlen Hall.
  assert (filter (fun t => is_function_tool t = true)
            (elems (Request.Tools req)) = []) as Hnone.
  { induction Hall as [|t ts Ht _ IH]; [done|].
    rewrite filter_cons_False; [done|].
    unfold is_function_tool. by intros H%String.eqb_eq. }
  split.
  - unfold chatWithToolEmulation.
    destruct (len (Request.Tools req) =? 0)%nat eqn:E;
      [apply Nat.eqb_eq in E; done|].
    unfold buildToolDecisionRequest, buildToolDecisionPrompt.
    by rewrite Hnone.
  - intros name. unfold toolExists.
    induction Hall as [|t ts Ht _ IH]; [done|]. simpl.
    apply String.eqb_neq in Ht. rewrite Ht. simpl.
    apply IH. simpl in Hnone. unfold is_function_tool in Hnone.
    rewrite filter_cons_False in Hnone; [done|]. by rewrite Ht.
Qed.

(** Witness of [request_without_function_tool_is_rejected]: a request
    with one tool of the type "retrieval". *)
Lemma request_without_function_tool_is_rejected_witness :
  Examples.run_native
    (Request.mk (Some [Examples.user_message "Hi"]) "some-model"
       (Some [Tool.mk "retrieval" (ToolFunction.mk "search" "" None "")])
       None Examples.options_on)
  = (Return None (Some ErrNoFunctionTools), mkWorld [] tt).
Proof.
  exact (proj1
           (request_without_function_tool_is_rejected Examples.marshal_names
              Examples.quote_plain unit Examples.native_provider "vendor"
              (Request.mk (Some [Examples.user_message "Hi"]) "some-model"
                 (Some [Tool.mk "retrieval"
                          (ToolFunction.mk "search" "" None "")])
                 None Examples.options_on)
              Examples.now (mkWorld [] tt) ltac:(discriminate)
              ltac:(repeat constructor; discriminate))).
Defined.

(** *** Cloning in memory *)

(** X14. The struct [cloneChatRequest] builds in memory stands for the value
    of the request it was cloned from, with messages and tools in slices
    that are not nil and with option maps without entries turned into nil
    maps; cloning leaves the original as it is. *)
Theorem clone_stands_for_the_request slack σ req c σ1 :
  Store.wf_request σ req ->
  Store.cloneChatRequest slack req σ = (c, σ1) ->
  Store.load σ1 c = cloneChatRequest (Store.load σ req)
  /\ Request.Messages (Store.load σ1 c)
     = Some (elems (Request.Messages (Store.load σ req)))
  /\ Request.Tools (Store.load σ1 c)
     = Some (elems (Request.Tools (Store.load σ req)))
  /\ Store.load σ1 req = Store.load σ req.
Proof.
  intros Hwf Hclone.
  pose proof (CloneFacts.load_cloneChatRequest slack _ _ _ _ Hwf Hclone) as Hc.
  destruct (RequestFacts.cloneChatRequest_frame _ _ _ _ _ Hclone) as [Hext _].
  rewrite Hc. repeat split.
  by apply RequestFacts.load_extends.
Qed.

(** Witness of [clone_stands_for_the_request]. *)
Lemma clone_stands_for_the_request_witness :
  Request.Messages
    (Store.load
       (snd (Store.cloneChatRequest Examples.double Examples.request0
               Examples.store0))
       (fst (Store.cloneChatRequest Examples.double Examples.request0
               Examples.store0)))
  = Some [system_message "Be brief."; Examples.user_message "Hi"].
Proof.
  refine (proj1 (proj2
            (clone_stands_for_the_request Examples.double Examples.store0
               Examples.request0 _ _ _ eq_refl))).
  repeat split; try exact I; try (eexists; vm_compute; reflexivity);
    vm_compute; lia.
Defined.

(** X15. An entry written into an option map of the clone is not seen
    through the original: the original stands for the same request as before
    cloning. *)
Theorem clone_map_write_leaves_original slack σ req c σ1 p key value σ2 :
  Store.wf_request σ req ->
  Store.cloneChatRequest slack req σ = (c, σ1) ->
  In p (option_maps c) ->
  map_assign p key value σ1 = Some σ2 ->
  Store.load σ2 req = Store.load σ req.
Proof.
  intros Hwf Hclone Hp Hassign.
  destruct (RequestFacts.cloneChatRequest_frame _ _ _ _ _ Hclone)
    as [(Hm & Ht & Hc & Hmaps) _].
  destruct (MapFacts.map_assign_inv _ _ _ _ _ Hassign) as (q & -> & ->).
  pose proof (MapFacts.clone_maps_outside _ _ _ _ _ _ Hclone Hp) as Hout.
  apply RequestFacts.load_extends; [|done].
  repeat split; simpl; try done.
  by apply StoreFacts.insert_outside.
Qed.

(** Witness of [clone_map_write_leaves_original]: an entry written into the
    OpenAI options of the clone. *)
Lemma clone_map_write_leaves_original_witness :
  exists c σ1 σ2,
    Store.cloneChatRequest Examples.double request_with_maps store_with_maps
    = (c, σ1)
    /\ map_assign (Store.OpenAI c) "n" (AnyRef 9) σ1 = Some σ2
    /\ Options.OpenAI (Request.Options (Store.load σ2 c))
       = Some {[ "seed" := AnyRef 7; "n" := AnyRef 9 ]}
    /\ Options.OpenAI (Request.Options (Store.load σ2 request_with_maps))
       = Some {[ "seed" := AnyRef 7 ]}
    /\ Store.load σ2 request_with_maps
       = Store.load store_with_maps request_with_maps.
Proof.
  eexists _, _, _.
  split; [vm_compute; reflexivity|].
  split; [vm_compute; reflexivity|].
  split; [vm_compute; reflexivity|].
  split; [vm_compute; reflexivity|].
  eapply (clone_map_write_leaves_original Examples.double store_with_maps
            request_with_maps _ _ _ "n" (AnyRef 9)).
  - repeat split; try exact I; try (eexists; vm_compute; reflexivity);
      vm_compute; lia.
  - vm_compute. reflexivity.
  - left. reflexivity.
  - vm_compute. reflexivity.
Defined.

(** X16. An entry written into an option map of the original after cloning
    is not seen through the clone. *)
Theorem original_map_write_leaves_clone slack σ req c σ1 p key value σ2 :
  Store.wf_request σ req ->
  Store.cloneChatRequest slack req σ = (c, σ1) ->
  In p (option_maps req) ->
  map_assign p key value σ1 = Some σ2 ->
  Store.load σ2 c = Store.load σ1 c.
Proof.
  intros Hwf Hclone Hp Hassign.
  destruct (MapFacts.map_assign_inv _ _ _ _ _ Hassign) as (q & -> & ->).
  assert (is_Some (Store.maps σ !! q)) as Hq.
  { destruct Hwf as (_ & _ & _ & W1 & W2 & W3 & W4 & W5).
    unfold option_maps in Hp. simpl in Hp.
    destruct Hp as [H|[H|[H|[H|[H|[]]]]]];
      [rewrite H in W1|rewrite H in W2|rewrite H in W3|rewrite H in W4
      |rewrite H in W5]; done. }
  assert (forall o, In o (option_maps c) -> o <> Some q) as Hne.
  { intros o Ho ->.
    rewrite (MapFacts.clone_maps_outside _ _ _ _ _ _ Hclone Ho) in Hq.
    by destruct Hq. }
  unfold Store.load. simpl.
  rewrite !MapFacts.load_map_insert_ne
    by (apply Hne; unfold option_maps; simpl; tauto).
  done.
Qed.

(** Witness of [original_map_write_leaves_clone]: an entry written into the
    OpenAI options of the original. *)
Lemma original_map_write_leaves_clone_witness :
  exists c σ1 σ2,
    Store.cloneChatRequest Examples.double request_with_maps store_with_maps
    = (c, σ1)
    /\ map_assign (Store.OpenAI request_with_maps) "n" (AnyRef 9) σ1 = Some σ2
    /\ Options.OpenAI (Request.Options (Store.load σ2 request_with_maps))
       = Some {[ "seed" := AnyRef 7; "n" := AnyRef 9 ]}
    /\ Store.load σ2 c = Store.load σ1 c.
Proof.
  eexists _, _, _.
  split; [vm_compute; reflexivity|].
  split; [vm_compute; reflexivity|].
  split; [vm_compute; reflexivity|].
  eapply (original_map_write_leaves_clone Examples.double store_with_maps
            request_with_maps _ _ _ "n" (AnyRef 9)).
  - repeat split; try exact I; try (eexists; vm_compute; reflexivity);
      vm_compute; lia.
  - vm_compute. reflexivity.
  - left. reflexivity.
  - vm_compute. reflexivity.
Defined.

(** X17. What the holder of the original does to its messages, tools and
    tool choice after cloning (replacing, appending and removing elements,
    rewriting or replacing the tool choice) is not seen through the clone:
    the clone stands for the same request as before. *)
Theorem original_mutations_leave_clone slack σ req c σ1 ms req' σ' :
  Store.wf_request σ req ->
  Store.cloneChatRequest slack req σ = (c, σ1) ->
  Store.mutate_all slack ms req σ1 = Some (req', σ') ->
  Store.load σ' c = Store.load σ1 c.
Proof.
  intros (Wm & Wt & Wc & _) Hclone Hmut.
  destruct (RequestFacts.cloneChatRequest_frame _ _ _ _ _ Hclone)
    as [_ (Pm & Pt & Pc)].
  pose proof (FootprintFacts.clone_wf _ _ _ _ _ Hclone) as (Cm & Ct & Cc & C1 & C2 & C3 & C4 & C5).
  destruct (FootprintFacts.slice_footprint _ _ Cm) as (gm & Gm & Fm & Om).
  destruct (FootprintFacts.slice_footprint _ _ Ct) as (gt & Gt & Ft & Ot).
  destruct (FootprintFacts.pointer_footprint _ _ Cc) as (gc & Gc & Fc & Oc).
  set (g := Store.mkStore gm gt gc (Store.maps σ1)).
  assert (Store.extends g σ1) as Hext by (by repeat split).
  assert (Store.wf_request g c) as Hwf by (by repeat split).
  assert (Store.separate g req) as Hsep.
  { repeat split; simpl.
    - destruct (Store.Messages req) as [hd0|] eqn:E; [|done]. simpl in *.
      apply eq_None_not_Some. intros (hd & Hc & Harr)%Om.
      rewrite Hc in Pm. simpl in Pm. rewrite Harr in Pm.
      rewrite Pm in Wm. by destruct Wm as [[] _].
    - destruct (Store.Tools req) as [hd0|] eqn:E; [|done]. simpl in *.
      apply eq_None_not_Some. intros (hd & Hc & Harr)%Ot.
      rewrite Hc in Pt. simpl in Pt. rewrite Harr in Pt.
      rewrite Pt in Wt. by destruct Wt as [[] _].
    - destruct (Store.ToolChoice req) as [p0|] eqn:E; [|done]. simpl in *.
      apply eq_None_not_Some. intros Hc%Oc.
      rewrite Hc in Pc. rewrite Pc in Wc. by destruct Wc. }
  destruct (RequestFacts.mutate_all_frame _ _ _ _ _ _ _ Hext Hsep Hmut)
    as [Hext' _].
  rewrite (RequestFacts.load_extends g σ' c Hext' Hwf).
  by rewrite (RequestFacts.load_extends g σ1 c Hext Hwf).
Qed.

(** Witness of [original_mutations_leave_clone]: after the mutations the
    original has other messages, and the clone has those it was made
    with. *)
Lemma original_mutations_leave_clone_witness :
  exists c σ1 req' σ',
    Store.cloneChatRequest Examples.double Examples.request0 Examples.store0
    = (c, σ1)
    /\ Store.mutate_all Examples.double Examples.mutations0 Examples.request0 σ1
       = Some (req', σ')
    /\ Request.Messages (Store.load σ' req')
       = Some [Examples.user_message "changed"; Examples.user_message "more"]
    /\ Request.Messages (Store.load σ' c)
       = Some [system_message "Be brief."; Examples.user_message "Hi"]
    /\ Store.load σ' c = Store.load σ1 c.
Proof.
  eexists _, _, _, _.
  split; [vm_compute; reflexivity|].
  split; [vm_compute; reflexivity|].
  split; [vm_compute; reflexivity|].
  split; [vm_compute; reflexivity|].
  eapply (original_mutations_leave_clone Examples.double Examples.store0
            Examples.request0 _ _ Examples.mutations0).
  - repeat split; try exact I; try (eexists; vm_compute; reflexivity);
      vm_compute; lia.
  - vm_compute. reflexivity.
  - vm_compute. reflexivity.
Defined.

(** X18. The clone of an option map without entries is the nil map, and
    nothing is allocated for it: an assignment to it panics. *)
Theorem clone_of_empty_map_is_nil h input out h' key value σ :
  Store.cloneJSONMap h input = (out, h') ->
  (forall m, Store.load_map h input = Some m -> size m = 0%nat) ->
  out = None /\ h' = h /\ map_assign out key value σ = None.
Proof.
  unfold Store.cloneJSONMap. destruct input as [q|]; simpl.
  - intros H Hempty. rewrite (Hempty _ eq_refl) in H. simpl in H.
    by inversion H.
  - intros [= <- <-] _. done.
Qed.

(** Witness of [clone_of_empty_map_is_nil]: the Azure options of the
    example, a map without entries; the original's map can be assigned
    to. *)
Lemma clone_of_empty_map_is_nil_witness :
  exists out h',
    Store.cloneJSONMap (Store.maps store_with_maps)
      (Store.Azure request_with_maps) = (out, h')
    /\ out = None
    /\ map_assign out "n" (AnyRef 9) store_with_maps = None
    /\ is_Some (map_assign (Store.Azure request_with_maps) "n" (AnyRef 9)
                  store_with_maps).
Proof.
  eexists _, _. split; [vm_compute; reflexivity|].
  split; [reflexivity|]. split; [|by eexists].
  refine (proj2 (proj2
            (clone_of_empty_map_is_nil (Store.maps store_with_maps)
               (Some 2%positive) None (Store.maps store_with_maps)
               "n" (AnyRef 9) store_with_maps _ _))).
  - vm_compute. reflexivity.
  - intros m H. vm_compute in H. injection H as <-. reflexivity.
Defined.

(** *** The OpenAI provider *)

(** X19. [toMessages] fails exactly when some message has the role "tool"
    and no tool call identifier, with the error "tool_call_id is required
    for tool messages"; otherwise it returns one vendor message for each
    message. *)
Theorem toMessages_fails_only_without_tool_call_id input :
  match toMessages input with
  | inl err =>
      err = ErrToolCallIDRequired
      /\ Exists (fun m => Message.Role m = "tool" /\ Message.ToolCallID m = "")
           (elems input)
  | inr out =>
      length out = len input
      /\ Forall (fun m => Message.Role m = "tool" -> Message.ToolCallID m <> "")
           (elems input)
  end.
Proof.
  unfold toMessages, len. induction (elems input) as [|m ms IH]; [done|].
  cbn [toMessages_list].
  destruct (toMessage m) as [err|p] eqn:Em.
  - apply ProviderFacts.toMessage_inl in Em as (-> & Hrole & Hid).
    split; [done|]. by left.
  - assert (Message.Role m = "tool" -> Message.ToolCallID m <> "") as Hm.
    { intros Hrole Hid.
      assert (toMessage m = inl ErrToolCallIDRequired) as H
        by (by apply ProviderFacts.toMessage_inl).
      by rewrite H in Em. }
    destruct (toMessages_list ms) as [err|out].
    + destruct IH as [-> Hex]. split; [done|]. by right.
    + destruct IH as [Hlen Hall]. simpl. split; [by rewrite Hlen|].
      by constructor.
Qed.

(** X20. The assistant message of an emulated result can be sent back to
    the provider together with the reply of the tool: the conversion keeps
    the tool call with its identifier, its name and its arguments, and
    accepts the tool message that answers it. *)
Theorem emulated_call_converts now toolName args output :
  toolName <> "" ->
  toMessages
    (Some [Message.mk RoleAssistant "" "" ""
             (Some [emulated_call now toolName args]);
           Message.mk RoleTool output "" (callID now) None])
  = inr [OfAssistant None None
           (Some [ToolCallParam.mk (callID now) toolName args]);
         OfTool output (callID now)].
Proof.
  intros Hname. apply String.eqb_neq in Hname.
  unfold toMessages, toMessage. simpl.
  unfold toToolCallParams, emulated_call. simpl.
  rewrite Hname. reflexivity.
Qed.

(** Witness of [emulated_call_converts]. *)
Lemma emulated_call_converts_witness :
  toMessages
    (Some [Message.mk RoleAssistant "" "" ""
             (Some [emulated_call Examples.now "get_weather" "{}"]);
           Message.mk RoleTool "sunny" "" (callID Examples.now) None])
  = inr [OfAssistant None None
           (Some [ToolCallParam.mk "emulated_1700000000000000000"
                    "get_weather" "{}"]);
         OfTool "sunny" "emulated_1700000000000000000"].
Proof.
  exact (emulated_call_converts Examples.now "get_weather" "{}" "sunny"
           ltac:(discriminate)).
Defined.

(** X21. The tool calls of a response that [toToolCalls] keeps and that
    [toToolCallParams] then turns into request parameters are, in order,
    those of type "function" with a name and an identifier; their
    identifier, name and arguments are unchanged. *)
Theorem tool_calls_round_trip calls :
  toToolCallParams (toToolCalls calls)
  = Some
      (map (fun c =>
              ToolCallParam.mk (MessageToolCall.ID c)
                (FunctionCall.Name (MessageToolCall.Function c))
                (FunctionCall.Arguments (MessageToolCall.Function c)))
         (filter (fun c =>
                    MessageToolCall.Type_ c = "function"
                    /\ FunctionCall.Name (MessageToolCall.Function c) <> ""
                    /\ MessageToolCall.ID c <> "")
            (elems calls))).
Proof.
  unfold toToolCallParams, toToolCalls. f_equal. simpl.
  induction (elems calls) as [|c cs IH]; [done|].
  cbn [toToolCalls_list].
  destruct (String.eqb (MessageToolCall.Type_ c) "function") eqn:Et; simpl.
  - apply String.eqb_eq in Et.
    destruct (String.eqb (FunctionCall.Name (MessageToolCall.Function c)) "")
      eqn:En.
    + apply String.eqb_eq in En.
      rewrite filter_cons_False by (by intros (_ & H & _)). done.
    + cbn [toToolCallParams_list ToolCall.Type_ ToolCall.ID ToolCall.Function
             ToolCallFunction.Name ToolCallFunction.Arguments].
      rewrite Et, En. simpl. rewrite orb_false_r.
      apply String.eqb_neq in En.
      destruct (String.eqb (MessageToolCall.ID c) "") eqn:Ei.
      * apply String.eqb_eq in Ei.
        rewrite filter_cons_False by (by intros (_ & _ & H)). done.
      * apply String.eqb_neq in Ei.
        rewrite filter_cons_True by done. simpl. by rewrite IH.
  - apply String.eqb_neq in Et.
    rewrite filter_cons_False by (by intros (H & _)). done.
Qed.

(** X22. The result [toResult] builds for a response has the text of all
    choices, joined in order, and the tool calls of the first choice that
    has any, all of them and in order (nil when no choice has any); the
    tool calls of later choices are dropped. *)
Theorem toResult_takes_first_tool_calls response ptr :
  let result := toResult (Some response) ptr in
  Result.Text result
  = foldr (fun c rest => ResponseMessage.Content (Choice.Message c) ++ rest)
      "" (elems (ChatCompletion.Choices response))
  /\ Result.ToolCalls result
     = match
         List.find
           (fun c =>
              (0 <? len (ResponseMessage.ToolCalls (Choice.Message c)))%nat)
           (elems (ChatCompletion.Choices response))
       with
       | Some c =>
           Some (map convert_call
                   (elems (ResponseMessage.ToolCalls (Choice.Message c))))
       | None => None
       end
  /\ Result.Model result = ChatCompletion.Model response
  /\ Result.Warnings result = None.
Proof.
  unfold toResult. rewrite ProviderFacts.gather_choices_none. done.
Qed.


(** X24. For a request the provider can convert, [buildParams] uses the
    model of the request, or the default model when the request names none;
    it passes the token limit in exactly one of the two fields of the
    vendor, by the model name; and it sets the tools exactly when the
    request has tools. *)
Theorem buildParams_model_and_token_limit {Schema}
    (decodeSchema : string -> json_error + Schema) unicodeToLower
    req defaultModel params :
  buildParams decodeSchema unicodeToLower req defaultModel = inr params ->
  NewParams.Model params
  = (if String.eqb (Request.Model req) "" then defaultModel
     else Request.Model req)
  /\ NewParams.Model params <> ""
  /\ (if useMaxCompletionTokens unicodeToLower (NewParams.Model params)
      then NewParams.MaxCompletionTokens params
           = Options.MaxTokens (Request.Options req)
           /\ NewParams.MaxTokens params = None
      else NewParams.MaxTokens params
           = Options.MaxTokens (Request.Options req)
           /\ NewParams.MaxCompletionTokens params = None)
  /\ (NewParams.Tools params = None <-> len (Request.Tools req) = 0%nat)
  /\ toMessages (Request.Messages req) = inr (NewParams.Messages params).
Proof.
  unfold buildParams, effective_model.
  set (model := if String.eqb (Request.Model req) "" then defaultModel
                else Request.Model req).
  destruct (String.eqb model "") eqn:Em; [done|].
  apply String.eqb_neq in Em.
  destruct (toMessages (Request.Messages req)) as [err|messages]; [done|].
  destruct (0 <? len (Request.Tools req))%nat eqn:Et.
  - destruct (toToolParams decodeSchema (Request.Tools req)) as [err|tools];
      [done|].
    intros [= <-]. simpl. repeat split; try done.
    + by destruct (useMaxCompletionTokens unicodeToLower model).
    + apply Nat.ltb_lt in Et. lia.
  - intros [= <-]. simpl. repeat split; try done.
    + by destruct (useMaxCompletionTokens unicodeToLower model).
    + apply Nat.ltb_ge in Et. lia.
Qed.

(** Witness of [buildParams_model_and_token_limit]: a model name in upper
    case that starts with "GPT", and a token limit. *)
Lemma buildParams_model_and_token_limit_witness :
  exists params,
    buildParams decode_text (fun s => s)
      (buildFinalRequest broken_request) "" = inr params
    /\ NewParams.Model params = "GPT-4o"
    /\ NewParams.MaxCompletionTokens params = Some 256
    /\ NewParams.MaxTokens params = None.
Proof.
  eexists. split; [vm_compute; reflexivity|].
  destruct (buildParams_model_and_token_limit decode_text (fun s => s)
              (buildFinalRequest broken_request) "" _ eq_refl)
    as (Hm & _ & Hlimit & _).
  split; [exact Hm|]. exact Hlimit.
Defined.

(** X25. The parameters of a decision request never fail on the tools: when
    the provider can convert the messages of the request and has a model
    for it, it can convert the decision request built from it, whatever the
    parameter schemas of the tools are; the parameters carry the decision
    prompt as their first message, and no tools and no tool choice. *)
Theorem decision_request_converts {Schema}
    (decodeSchema : string -> json_error + Schema) unicodeToLower
    marshalToolSpecs quote req d defaultModel messages :
  buildToolDecisionRequest marshalToolSpecs quote req = inr d ->
  effective_model req defaultModel <> "" ->
  toMessages (Request.Messages req) = inr messages ->
  exists prompt params,
    buildToolDecisionPrompt marshalToolSpecs quote req = inr prompt
    /\ buildParams decodeSchema unicodeToLower d defaultModel = inr params
    /\ NewParams.Messages params = OfSystem prompt None :: messages
    /\ NewParams.Model params = effective_model req defaultModel
    /\ NewParams.Tools params = None
    /\ NewParams.ToolChoice params = None.
Proof.
  intros (prompt & Hp & ->)%buildToolDecisionRequest_inv Hmodel Hmsgs.
  apply String.eqb_neq in Hmodel.
  eexists prompt, _. split; [done|].
  unfold buildParams. unfold effective_model in *. simpl.
  rewrite Hmodel. unfold toMessages in *. simpl. unfold id.
  cbn [toMessages_list].
  change (toMessage (system_message prompt)) with
    (@inr provider_error _ (OfSystem prompt None)).
  rewrite Hmsgs. by repeat split.
Qed.

(** Witness of [decision_request_converts]: the request offers a tool whose
    parameter schema is not valid JSON; the provider cannot convert the
    request, and it can convert the decision request. *)
Lemma decision_request_converts_witness :
  buildParams decode_text (fun s => s) broken_request ""
  = inl (ErrSchema InvalidSyntax)
  /\ exists d params,
       buildToolDecisionRequest Examples.marshal_names Examples.quote_plain
         broken_request = inr d
       /\ buildParams decode_text (fun s => s) d "" = inr params
       /\ NewParams.Tools params = None.
Proof.
  split; [vm_compute; reflexivity|].
  destruct (decision_request_converts decode_text (fun s => s)
              Examples.marshal_names Examples.quote_plain broken_request _ ""
              _ eq_refl ltac:(discriminate) eq_refl)
    as (prompt & params & _ & Hb & _ & _ & Ht & _).
  eexists _, params. split; [reflexivity|]. split; [exact Hb|exact Ht].
Defined.
